(** * designer-ci-demo: the planner agent, the hybrid workflow and the approval store

    A shallow embedding of
      - [planner_agent/planner_agent.py]  ([MCPTool.__call__], [PlannerAgent.execute_goal]),
      - [hybrid_implementation_example.py] ([AutonomousAgent], the workflow nodes,
        [SimulatedWorkflow.invoke]),
      - [planner_agent/approval_store.py] and [planner_agent/approve_action.py],
      - [mcp_query_server/lambda_function.py] and
        [mcp_evaluation_server/lambda_function.py] (the two Lambda handlers).

    Modelling conventions.
      - Text is ASCII ([string]); [str.lower] is the ASCII lower-casing.
      - The regular expressions of the source are values of a small regex type,
        run by a backtracking matcher with Python's priorities (leftmost start,
        greedy repetition, ordered alternation).
      - JSON numbers are integers ([Z]); averages and thresholds are exact
        rationals ([Q]), so the rounding of Python floats is not modelled;
        [int] has no limit on the number of digits.  The evaluation server,
        which validates a number of any kind, has values of its own with
        floats (rationals, NaN and the infinities).
      - f-strings are kept structured: every line that the agent appends to its
        results or prints is a constructor of [line] carrying the interpolated
        values; a text with a leading newline is a blank line and the line.
      - Python's exceptions are explicit: a computation returns [Ok] or
        [Raise].  Writing to the standard output does not fail, and
        interrupts (which are not [Exception]s) are left out.
      - Remote tools are oracles: the answer of the transport may depend on the
        calls made so far.
      - The approval store is a finite map from request identifiers to the
        stored dictionaries; clock readings and generated identifiers are
        arguments. *)

From Stdlib Require Import ZArith QArith Ascii String DecimalString List Bool Lia.
From stdpp Require Import base option strings gmap.

Local Open Scope Z_scope.

(* stdpp turns the unfolding of string concatenation off; the proofs below
   compute with it. *)
#[local] Arguments String.append !_ _ /.

(** ** Strings *)

Module Str.

Definition lower_ascii (c : ascii) : ascii :=
  let n := nat_of_ascii c in
  if ((65 <=? n) && (n <=? 90))%nat then ascii_of_nat (n + 32) else c.

(** [str.lower] on ASCII text. *)
Fixpoint lower (s : string) : string :=
  match s with
  | EmptyString => EmptyString
  | String c s' => String (lower_ascii c) (lower s')
  end.

(** [s.startswith(p)], returning the rest of [s]. *)
Fixpoint strip_prefix (p s : string) : option string :=
  match p with
  | EmptyString => Some s
  | String a p' =>
      match s with
      | EmptyString => None
      | String b s' => if Ascii.eqb a b then strip_prefix p' s' else None
      end
  end.

(** [needle in hay] for Python strings. *)
Fixpoint contains (needle hay : string) : bool :=
  match strip_prefix needle hay with
  | Some _ => true
  | None =>
      match hay with
      | EmptyString => false
      | String _ hay' => contains needle hay'
      end
  end.

(** [any(keyword in hay for keyword in kws)]. *)
Definition contains_any (kws : list string) (hay : string) : bool :=
  existsb (fun kw => contains kw hay) kws.


(** The first [n] characters, [s[:n]]. *)
Fixpoint take (n : nat) (s : string) : string :=
  match n, s with
  | S n', String c s' => String c (take n' s')
  | _, _ => EmptyString
  end.

(** [\d] on ASCII text. *)
Definition is_digit (c : ascii) : bool :=
  let n := nat_of_ascii c in ((48 <=? n) && (n <=? 57))%nat.

(** [\s] of a [str] pattern on ASCII text: tab, newline, vertical tab, form
    feed, carriage return, the separators 0x1c-0x1f and the space. *)
Definition is_space (c : ascii) : bool :=
  let n := nat_of_ascii c in
  (((9 <=? n) && (n <=? 13)) || ((28 <=? n) && (n <=? 32)))%nat.

Definition digit_val (c : ascii) : Z := Z.of_nat (nat_of_ascii c) - 48.

(** [int(s)] for a string of decimal digits, with accumulator. *)
Fixpoint int_of_digits_from (acc : Z) (s : string) : Z :=
  match s with
  | EmptyString => acc
  | String c s' => int_of_digits_from (10 * acc + digit_val c) s'
  end.

Definition int_of_digits (s : string) : Z := int_of_digits_from 0 s.

(** The part of [s] before the first ['.'] and the part after it. *)
Fixpoint split_dot (s : string) : string * option string :=
  match s with
  | EmptyString => (EmptyString, None)
  | String c s' =>
      if Ascii.eqb c "."%char then (EmptyString, Some s')
      else let '(a, b) := split_dot s' in (String c a, b)
  end.

(** [float(s)] for [s] of the shape digits or digits.digits, as an exact
    rational. *)
Definition float_of_decimal (s : string) : Q :=
  match split_dot s with
  | (i, None) => inject_Z (int_of_digits i)
  | (i, Some f) =>
      Qmake (int_of_digits (i +:+ f)) (Pos.pow 10 (Pos.of_nat (String.length f)))
  end.

End Str.

(** ** Regular expressions *)

Module Re.

(** The fragment of Python's [re] syntax that the source uses: literals,
    [c+] for a character class [c], concatenation, [|], [?] and one capturing
    group. *)
Inductive regex : Type :=
| Lit (p : string)
| Plus (c : ascii -> bool)
| Seq (r1 r2 : regex)
| Alt (r1 r2 : regex)
| Opt (r : regex)
| Grp (r : regex).

Section Matcher.
Context {T : Type}.

(** Greedy [c*]: as many characters as possible first, one fewer on
    backtracking. *)
Fixpoint star_cls (c : ascii -> bool) (s : string) (k : string -> option T)
  : option T :=
  match s with
  | EmptyString => k s
  | String a s' =>
      if c a then
        match star_cls c s' k with
        | Some x => Some x
        | None => k s
        end
      else k s
  end.

Definition plus_cls (c : ascii -> bool) (s : string) (k : string -> option T)
  : option T :=
  match s with
  | EmptyString => None
  | String a s' => if c a then star_cls c s' k else None
  end.

(** [rmatch r s g k]: match [r] at the start of [s]; [g] is the current
    value of group 1; [k] continues with the rest of the text.  [None] makes
    the matcher backtrack. *)
Fixpoint rmatch (r : regex) (s : string) (g : option string)
         (k : string -> option string -> option T) : option T :=
  match r with
  | Lit p =>
      match Str.strip_prefix p s with
      | Some s' => k s' g
      | None => None
      end
  | Plus c => plus_cls c s (fun s' => k s' g)
  | Seq r1 r2 => rmatch r1 s g (fun s' g' => rmatch r2 s' g' k)
  | Alt r1 r2 =>
      match rmatch r1 s g k with
      | Some x => Some x
      | None => rmatch r2 s g k
      end
  | Opt r1 =>
      match rmatch r1 s g k with
      | Some x => Some x
      | None => k s g
      end
  | Grp r1 =>
      rmatch r1 s g
        (fun s' _ => k s' (Some (Str.take (String.length s - String.length s') s)))
  end.
End Matcher.

(** The continuation at the end of the pattern: the match is found and group
    1 is reported. *)
Definition accept (rest : string) (g : option string) : option (option string) :=
  Some g.

(** [re.match(r, s)]: the value of group 1 when [r] matches at the start. *)
Definition match_here (r : regex) (s : string) : option (option string) :=
  rmatch r s None accept.

(** [re.search(r, s)]: group 1 of the match at the leftmost position. *)
Fixpoint search (r : regex) (s : string) : option (option string) :=
  match match_here r s with
  | Some g => Some g
  | None =>
      match s with
      | EmptyString => None
      | String _ s' => search r s'
      end
  end.

(** [m.group(1)] of [re.search(r, s)] for a pattern whose group takes part in
    every match. *)
Definition search_group1 (r : regex) (s : string) : option string :=
  match search r s with
  | Some (Some g) => Some g
  | _ => None
  end.



(** [\d+(?:\.\d+)?] *)
Definition number : regex :=
  Seq (Plus Str.is_digit) (Opt (Seq (Lit ".") (Plus Str.is_digit))).

(** [(\d+)\s+(?:chat|conversation)] *)
Definition count_re : regex :=
  Seq (Grp (Plus Str.is_digit))
      (Seq (Plus Str.is_space) (Alt (Lit "chat") (Lit "conversation"))).

(** [(?:score|scores)\s+(?:is|are)\s+(?:below|under|less than)\s+(\d+(?:\.\d+)?)] *)
Definition score_re : regex :=
  Seq (Alt (Lit "score") (Lit "scores"))
  (Seq (Plus Str.is_space)
  (Seq (Alt (Lit "is") (Lit "are"))
  (Seq (Plus Str.is_space)
  (Seq (Alt (Lit "below") (Alt (Lit "under") (Lit "less than")))
  (Seq (Plus Str.is_space)
       (Grp number)))))).

(** [if\s+(?:any|average|avg)?\s+score\s+(?:is\s+)?(?:below|<)\s+(\d+(?:\.\d+)?)] *)
Definition threshold_re : regex :=
  Seq (Lit "if")
  (Seq (Plus Str.is_space)
  (Seq (Opt (Alt (Lit "any") (Alt (Lit "average") (Lit "avg"))))
  (Seq (Plus Str.is_space)
  (Seq (Lit "score")
  (Seq (Plus Str.is_space)
  (Seq (Opt (Seq (Lit "is") (Plus Str.is_space)))
  (Seq (Alt (Lit "below") (Lit "<"))
  (Seq (Plus Str.is_space)
       (Grp number))))))))).

End Re.

(** ** JSON values and Python's dynamic operations on them *)

#[warnings="-register-all"] Inductive json : Type :=
| JNull
| JBool (b : bool)
| JInt (z : Z)
| JStr (s : string)
| JList (l : list json)
| JObj (kv : list (string * json)).

(** The exceptions that the modelled code can meet, all subclasses of
    [Exception].  [str_exn] is [str(e)]; the wording of the run-time messages
    is CPython's and no statement below depends on it. *)
Inductive exn : Type :=
| KeyError (key : string)
| TypeError (msg : string)
| AttributeError (msg : string)
| RemoteError (msg : string).

Definition str_exn (e : exn) : string :=
  match e with
  | KeyError k => "'" +:+ k +:+ "'"
  | TypeError m | AttributeError m | RemoteError m => m
  end.

Inductive outcome (A : Type) : Type :=
| Ok (a : A)
| Raise (e : exn).
Arguments Ok {A} a.
Arguments Raise {A} e.

Module Py.

Fixpoint assoc (k : string) (kv : list (string * json)) : option json :=
  match kv with
  | [] => None
  | (k', v) :: kv' => if String.eqb k k' then Some v else assoc k kv'
  end.

(** [bool(v)] *)
Definition truthy (v : json) : bool :=
  match v with
  | JNull => false
  | JBool b => b
  | JInt z => negb (z =? 0)
  | JStr s => negb (String.eqb s "")
  | JList l => match l with [] => false | _ => true end
  | JObj kv => match kv with [] => false | _ => true end
  end.

(** [v.get(k, default)]: only dictionaries have the method. *)
Definition get_default (v : json) (k : string) (d : json) : outcome json :=
  match v with
  | JObj kv => Ok (match assoc k kv with Some x => x | None => d end)
  | _ => Raise (AttributeError "object has no attribute 'get'")
  end.

(** [v.get(k)] *)
Definition get (v : json) (k : string) : outcome json := get_default v k JNull.

(** [v[k]] for a string key [k]. *)
Definition subscript (v : json) (k : string) : outcome json :=
  match v with
  | JObj kv =>
      match assoc k kv with
      | Some x => Ok x
      | None => Raise (KeyError k)
      end
  | JList _ => Raise (TypeError "list indices must be integers or slices, not str")
  | JStr _ => Raise (TypeError "string indices must be integers")
  | _ => Raise (TypeError "object is not subscriptable")
  end.

Definition is_jstr (k : string) (v : json) : bool :=
  match v with
  | JStr s => String.eqb s k
  | _ => false
  end.

(** [k in v] for a string [k]. *)
Definition py_in (k : string) (v : json) : outcome bool :=
  match v with
  | JObj kv => Ok (match assoc k kv with Some _ => true | None => false end)
  | JList l => Ok (existsb (is_jstr k) l)
  | JStr s => Ok (Str.contains k s)
  | _ => Raise (TypeError "argument is not iterable")
  end.

(** [len(v)] *)
Definition len (v : json) : outcome nat :=
  match v with
  | JList l => Ok (length l)
  | JStr s => Ok (String.length s)
  | JObj kv => Ok (length kv)
  | _ => Raise (TypeError "object has no len()")
  end.

Fixpoint chars (s : string) : list json :=
  match s with
  | EmptyString => []
  | String c s' => JStr (String c EmptyString) :: chars s'
  end.

(** The items that [for x in v] visits. *)
Definition iter (v : json) : outcome (list json) :=
  match v with
  | JList l => Ok l
  | JStr s => Ok (chars s)
  | JObj kv => Ok (map (fun p => JStr (fst p)) kv)
  | _ => Raise (TypeError "object is not iterable")
  end.

(** [v[:n]] *)
Definition slice_to (n : nat) (v : json) : outcome json :=
  match v with
  | JStr s => Ok (JStr (Str.take n s))
  | JList l => Ok (JList (firstn n l))
  | _ => Raise (TypeError "object is not subscriptable")
  end.

(** The summands of [sum(l)]: integers, and booleans as 0 and 1. *)
Fixpoint numbers (l : list json) : outcome (list Z) :=
  match l with
  | [] => Ok []
  | v :: l' =>
      match v with
      | JInt z =>
          match numbers l' with Ok zs => Ok (z :: zs) | Raise e => Raise e end
      | JBool b =>
          match numbers l' with
          | Ok zs => Ok ((if b then 1 else 0) :: zs)
          | Raise e => Raise e
          end
      | _ => Raise (TypeError "unsupported operand type(s) for +")
      end
  end.

Definition sum (zs : list Z) : Z := fold_right Z.add 0 zs.

(** [sum(zs) / len(zs)] for a non-empty list. *)
Definition mean (zs : list Z) : Q :=
  (inject_Z (sum zs) / inject_Z (Z.of_nat (length zs)))%Q.

Definition Qltb (x y : Q) : bool := negb (Qle_bool y x).

(** [bool(s)] for an optional string. *)
Definition truthy_str (o : option string) : bool :=
  match o with
  | Some s => negb (String.eqb s "")
  | None => false
  end.

End Py.

(** ** The world the agent runs in *)

Inductive tool : Type :=
| query_conversations
| evaluate_response
| submit_prompt_update.

Definition tool_name (t : tool) : string :=
  match t with
  | query_conversations => "query_conversations"
  | evaluate_response => "evaluate_response"
  | submit_prompt_update => "submit_prompt_update"
  end.

(** The [reason] strings that [execute_goal] builds. *)
Inductive reason : Type :=
| ManualUpdate
    (* "Manual prompt update requested" *)
| AutomatedUpdate (avg : Q) (below3 : nat).
    (* "Automated prompt update based on evaluation. Average score: {avg:.1f}/5.
       {below3} conversations scored below 3." *)

(** The keyword arguments of a tool call. *)
Inductive kwargs : Type :=
| QueryArgs (limit : Z)
| EvalArgs (question answer : json)
| UpdateArgs (prompt_text : string) (why : reason).

Record call : Type := Call { call_tool : tool; call_args : kwargs }.

(** Everything that the agent appends to [results] or prints. *)
Inductive line : Type :=
| LRule
| LGoal (goal : string)
| LBlank
| LCreatingDirect
| LUsingCustom (chars : nat)
| LCreatedPR (url : json)
| LErrCreatingPR (err : json)
| LDbgCallingQuery (limit : Z)
| LErrFetching (err : json)
| LRetrieved (n : nat)
| LDbgRetrieved (n : nat)
| LConvHeader (id ts : json)
| LConvQ (q : json)
| LConvA (a : json)
| LDbgEvaluating (n : nat)
| LEvaluating (n : nat)
| LDbgEvaluatingConv (i n : nat)
| LEvaluatingConv (id : json)
| LScore (score : json)
| LDbgScore (id score : json)
| LEvalHeader
| LAverage (avg : Q)
| LScoreLine (id score : json)
| LCommentLine (comment : json)
| LDbgBelowThreshold (t : Q)
| LDbgLow (avg : Q)
| LCreatingPR (avg : Q)
| LScoresGood
| LErrExecuting (e : exn)
| LDbgErrExecuting (e : exn)
| LTraceback (e : exn).

(** The files of the approval store: request id to the stored dictionary. *)
Abbreviation store := (gmap string (gmap string json)).

Record world : Type := World {
  calls : list call;      (* tool invocations, oldest first *)
  stdout : list line;     (* printed output, oldest first *)
  files : store           (* ./approval_requests *)
}.

(** The remote side: what the transport answers to a call given the calls made
    before it (the decoded JSON document, or the exception of [urlopen],
    [read], [decode] or [json.loads]), and [json.loads] on a response body. *)
Record env : Type := Env {
  respond : list call -> call -> outcome json;
  loads : string -> outcome json
}.

(** A computation that may raise and that changes the world. *)
Definition M (A : Type) : Type := world -> outcome A * world.

Definition ret {A} (a : A) : M A := fun w => (Ok a, w).

Definition bind {A B} (m : M A) (f : A -> M B) : M B :=
  fun w =>
    match m w with
    | (Ok a, w') => f a w'
    | (Raise e, w') => (Raise e, w')
    end.

Definition lift {A} (o : outcome A) : M A := fun w => (o, w).

Definition print (l : list line) : M unit :=
  fun w => (Ok tt, World (calls w) (stdout w ++ l) (files w)).

Definition when (b : bool) (m : M unit) : M unit := if b then m else ret tt.

Declare Scope m_scope.
Delimit Scope m_scope with M.
Notation "x <- m ;; k" := (bind m (fun x => k))
  (at level 100, m at next level, right associativity) : m_scope.
Notation "m ;;; k" := (bind m (fun _ => k))
  (at level 100, right associativity) : m_scope.

(** ** planner_agent.py *)

Module Planner.

Local Open Scope m_scope.

Definition default_prompt : string :=
"You are a helpful AI assistant focused on providing accurate, complete, and clear responses.

Guidelines:
- Provide comprehensive answers that fully address the user's question
- Use clear, easy-to-understand language
- Include relevant examples when helpful
- Be accurate and factual
- Structure responses logically
- Anticipate follow-up questions

Always aim to be helpful, informative, and user-friendly.".

(** [MCPTool.__call__], the statements inside [try]. *)
Definition tool_request (E : env) (history : list call) (c : call) : outcome json :=
  match respond E history c with
  | Raise e => Raise e
  | Ok result =>
      match Py.py_in "body" result with
      | Raise e => Raise e
      | Ok false => Ok result
      | Ok true =>
          match Py.subscript result "body" with
          | Raise e => Raise e
          | Ok (JStr body) => loads E body
          | Ok body => Ok body
          end
      end
  end.

(** The dictionary that the [except] clause of [MCPTool.__call__] returns. *)
Definition failure (t : tool) (e : exn) : json :=
  JObj [("success", JBool false);
        ("error", JStr ("Error calling " +:+ tool_name t +:+ ": " +:+ str_exn e))].

(** What [MCPTool.__call__] returns for the call [c] after the calls
    [history]: the result of the [try] block, or the failure dictionary. *)
Definition tool_result (E : env) (history : list call) (c : call) : json :=
  match tool_request E history c with
  | Ok v => v
  | Raise e => failure (call_tool c) e
  end.

(** [MCPTool.__call__]: the call is recorded and never raises. *)
Definition MCPTool_call (E : env) (t : tool) (a : kwargs) : M json :=
  fun w =>
    let c := Call t a in
    (Ok (tool_result E (calls w) c), World (calls w ++ [c]) (stdout w) (files w)).

Record agent : Type := Agent { debug : bool; custom_prompt : option string }.

(** [limit = int(match.group(1)) if match else 5] *)
Definition limit_of (goal_lower : string) : Z :=
  match Re.search_group1 Re.count_re goal_lower with
  | Some d => Str.int_of_digits d
  | None => 5
  end.

(** [custom_prompt_override or self.custom_prompt] *)
Definition effective_custom_prompt (A : agent) (override : option string)
  : option string :=
  if Py.truthy_str override then override else custom_prompt A.

Definition is_direct_pr (goal_lower : string) : bool :=
  (Str.contains "update prompt" goal_lower || Str.contains "create pr" goal_lower)
  && negb (Str.contains "review" goal_lower)
  && negb (Str.contains "evaluate" goal_lower)
  && negb (Str.contains "get" goal_lower)
  && negb (Str.contains "show" goal_lower)
  && negb (Str.contains "list" goal_lower).

(** The prompt text of a pull request, with the line printed when it is the
    custom one. *)
Definition choose_prompt (stream : bool) (eff : option string) : M string :=
  if Py.truthy_str eff then
    let prompt_text := default "" eff in
    when stream (print [LUsingCustom (String.length prompt_text)]) ;;;
    ret prompt_text
  else ret default_prompt.

(** The branch [if is_direct_pr:]. *)
Definition direct_pr (E : env) (stream : bool) (eff : option string)
  : M (list line) :=
  when stream (print [LBlank; LCreatingDirect]) ;;;
  prompt_text <- choose_prompt stream eff ;;
  pr_result <- MCPTool_call E submit_prompt_update (UpdateArgs prompt_text ManualUpdate) ;;
  ok <- lift (Py.get pr_result "success") ;;
  if Py.truthy ok then
    url <- lift (Py.get pr_result "pr_url") ;;
    when stream (print [LCreatedPR url]) ;;;
    ret [LCreatedPR url]
  else
    err <- lift (Py.get pr_result "error") ;;
    when stream (print [LErrCreatingPR err]) ;;;
    ret [LErrCreatingPR err].

(** The loop that lists the conversations. *)
Fixpoint show_conversations (stream : bool) (convs : list json)
         (results : list line) : M (list line) :=
  match convs with
  | [] => ret results
  | conv :: rest =>
      id <- lift (Py.subscript conv "id") ;;
      ts <- lift (Py.subscript conv "timestamp") ;;
      q <- lift (Py.subscript conv "user_message") ;;
      a <- lift (Py.subscript conv "bot_response") ;;
      let lines := [LConvHeader id ts; LConvQ q; LConvA a; LBlank] in
      when stream (print lines) ;;;
      show_conversations stream rest (results ++ lines)
  end.

(** One entry of [evaluations]. *)
Record evaluation : Type :=
  Evaluation { ev_id : json; ev_score : json; ev_comment : json }.

(** The loop [for i, conv in enumerate(conversations, 1):]. *)
Fixpoint evaluate_all (E : env) (A : agent) (stream : bool) (total i : nat)
         (convs : list json) (scores : list json) (evaluations : list evaluation)
  : M (list json * list evaluation) :=
  match convs with
  | [] => ret (scores, evaluations)
  | conv :: rest =>
      when (debug A) (print [LDbgEvaluatingConv i total]) ;;;
      (if stream then
         id <- lift (Py.subscript conv "id") ;; print [LEvaluatingConv id]
       else ret tt) ;;;
      question <- lift (Py.subscript conv "user_message") ;;
      answer <- lift (Py.subscript conv "bot_response") ;;
      eval_result <- MCPTool_call E evaluate_response (EvalArgs question answer) ;;
      ok <- lift (Py.get eval_result "success") ;;
      if Py.truthy ok then
        score <- lift (Py.get eval_result "score") ;;
        comment <- lift (Py.get eval_result "comment") ;;
        id <- lift (Py.subscript conv "id") ;;
        when stream (print [LScore score]) ;;;
        when (debug A) (print [LDbgScore id score]) ;;;
        evaluate_all E A stream total (S i) rest
                     (scores ++ [score])
                     (evaluations ++ [Evaluation id score comment])
      else
        evaluate_all E A stream total (S i) rest scores evaluations
  end.

(** The loop that reports the individual scores. *)
Fixpoint show_scores (stream : bool) (evaluations : list evaluation)
         (results : list line) : M (list line) :=
  match evaluations with
  | [] => ret results
  | eval_data :: rest =>
      comment <- lift (Py.slice_to 100 (ev_comment eval_data)) ;;
      let lines := [LBlank; LScoreLine (ev_id eval_data) (ev_score eval_data);
                    LCommentLine comment] in
      when stream (print lines) ;;;
      show_scores stream rest (results ++ lines)
  end.

(** [float(score_threshold_match.group(1)) if score_threshold_match else None] *)
Definition custom_threshold (goal_lower : string) : option Q :=
  match Re.search_group1 Re.threshold_re goal_lower with
  | Some d => Some (Str.float_of_decimal d)
  | None => None
  end.

(** [custom_threshold and any(score < custom_threshold for score in scores)] *)
Definition below_custom (ct : option Q) (scores : list Z) : bool :=
  match ct with
  | Some t => negb (Qeq_bool t 0) && existsb (fun s => Py.Qltb (inject_Z s) t) scores
  | None => false
  end.

(** The [else] branch of the decision: the fixed threshold and the keywords. *)
Definition default_trigger (goal_lower : string) (avg : Q) : bool :=
  Py.Qltb avg (7 # 2)
  || Str.contains "update prompt" goal_lower
  || Str.contains "create pr" goal_lower
  || Str.contains "pull request" goal_lower.

Definition should_create_pr (goal_lower : string) (scores : list Z) (avg : Q) : bool :=
  if below_custom (custom_threshold goal_lower) scores then true
  else default_trigger goal_lower avg.

(** [len([s for s in scores if s < 3])] *)
Definition below3 (scores : list Z) : nat :=
  length (filter (fun s => s <? 3) scores).

(** The branch [if should_create_pr:]. *)
Definition create_pr (E : env) (A : agent) (stream : bool) (eff : option string)
           (scores : list Z) (avg : Q) (results : list line) : M (list line) :=
  when (debug A) (print [LBlank; LDbgLow avg]) ;;;
  when stream (print [LBlank; LCreatingPR avg]) ;;;
  prompt_text <- choose_prompt stream eff ;;
  pr_result <- MCPTool_call E submit_prompt_update
                 (UpdateArgs prompt_text (AutomatedUpdate avg (below3 scores))) ;;
  ok <- lift (Py.get pr_result "success") ;;
  if Py.truthy ok then
    url <- lift (Py.get pr_result "pr_url") ;;
    when stream (print [LBlank; LCreatedPR url]) ;;;
    ret (results ++ [LBlank; LCreatedPR url])
  else
    err <- lift (Py.get pr_result "error") ;;
    when stream (print [LBlank; LErrCreatingPR err]) ;;;
    ret (results ++ [LBlank; LErrCreatingPR err]).

(** The block [if scores:]. *)
Definition report_and_decide (E : env) (A : agent) (stream : bool)
           (eff : option string) (goal_lower : string)
           (scores : list json) (evaluations : list evaluation)
           (results : list line) : M (list line) :=
  match scores with
  | [] => ret results
  | _ =>
      zs <- lift (Py.numbers scores) ;;
      let avg_score := Py.mean zs in
      let header := [LBlank; LEvalHeader; LAverage avg_score] in
      when stream (print header) ;;;
      results <- show_scores stream evaluations (results ++ header) ;;
      when (debug A && below_custom (custom_threshold goal_lower) zs)
           (print [LDbgBelowThreshold (default 0%Q (custom_threshold goal_lower))]) ;;;
      if should_create_pr goal_lower zs avg_score then
        create_pr E A stream eff zs avg_score results
      else
        when stream (print [LBlank; LScoresGood]) ;;;
        ret (results ++ [LBlank; LScoresGood])
  end.

(** The block [if 'review' in goal_lower or ...:]. *)
Definition evaluate_step (E : env) (A : agent) (stream : bool)
           (eff : option string) (goal_lower : string) (conversations : json)
           (n : nat) (results : list line) : M (list line) :=
  when (debug A) (print [LDbgEvaluating n]) ;;;
  when stream (print [LBlank; LEvaluating n]) ;;;
  convs <- lift (Py.iter conversations) ;;
  se <- evaluate_all E A stream n 1 convs [] [] ;;
  report_and_decide E A stream eff goal_lower (fst se) (snd se) results.

(** The statements of [execute_goal] inside [try]. *)
Definition run (E : env) (A : agent) (goal : string) (stream : bool)
           (override : option string) : M (list line) :=
  let goal_lower := Str.lower goal in
  let limit := limit_of goal_lower in
  let eff := effective_custom_prompt A override in
  if is_direct_pr goal_lower then direct_pr E stream eff
  else
    when (debug A) (print [LDbgCallingQuery limit]) ;;;
    query_result <- MCPTool_call E query_conversations (QueryArgs limit) ;;
    ok <- lift (Py.get query_result "success") ;;
    if negb (Py.truthy ok) then
      err <- lift (Py.get query_result "error") ;;
      when stream (print [LErrFetching err]) ;;;
      ret [LErrFetching err]
    else
      conversations <- lift (Py.get_default query_result "conversations" (JList [])) ;;
      n <- lift (Py.len conversations) ;;
      let results := [LRetrieved n] in
      when stream (print [LBlank; LRetrieved n]) ;;;
      when (debug A) (print [LDbgRetrieved n]) ;;;
      results <-
        (if Str.contains_any ["get"; "show"; "list"; "display"] goal_lower then
           when stream (print [LBlank]) ;;;
           convs <- lift (Py.iter conversations) ;;
           show_conversations stream convs results
         else ret results) ;;
      if Str.contains "review" goal_lower || Str.contains "evaluate" goal_lower
         || Str.contains "check" goal_lower
      then evaluate_step E A stream eff goal_lower conversations n results
      else ret results.

(** The debug banner that [execute_goal] prints before [try]. *)
Definition announce (A : agent) (goal : string) (w : world) : world :=
  if debug A
  then snd (print [LBlank; LRule; LGoal goal; LRule; LBlank] w)
  else w.

(** [PlannerAgent.execute_goal]: the returned text, as the list of the lines
    joined by newlines, and the world after the run. *)
Definition execute_goal (E : env) (A : agent) (goal : string) (stream : bool)
           (override : option string) (w : world) : list line * world :=
  match run E A goal stream override (announce A goal w) with
  | (Ok text, w1) => (text, w1)
  | (Raise e, w1) =>
      ([LErrExecuting e],
       if debug A
       then snd (print [LBlank; LDbgErrExecuting e; LTraceback e] w1)
       else w1)
  end.

End Planner.

(** ** hybrid_implementation_example.py *)

Module Hybrid.

Inductive intent : Type := review_only | review_and_update | direct_update | unknown.

Definition intent_name (i : intent) : string :=
  match i with
  | review_only => "review_only"
  | review_and_update => "review_and_update"
  | direct_update => "direct_update"
  | unknown => "unknown"
  end.

Record conversation : Type := Conversation {
  conv_id : string; user_message : string; bot_response : string; timestamp : string
}.

Record evaluation : Type := Evaluation {
  ev_id : string; ev_score : Z; ev_comment : string
}.

(** The dictionary that flows through the workflow ([params], then
    [ConversationState]); a key that is absent is [None]. *)
Record state : Type := State {
  conversation_count : option Z;
  score_threshold : option Q;
  update_required : option bool;
  conversations : option (list conversation);
  evaluations : option (list evaluation);
  average_score : option Q;
  prompt_text : option string;
  reason_avg : option Q;          (* the average quoted in ["reason"] *)
  approval_required : option bool;
  approval_id : option string
}.

Definition empty_state : state :=
  State None None None None None None None None None None.

(** What the process reads from its surroundings: Python's string hash, the
    clock and the identifier that [create_approval_request] generates. *)
Record henv : Type := HEnv {
  hash : string -> Z;
  now : string;
  new_approval_id : string
}.

(** [AutonomousAgent._classify_intent] *)
Definition _classify_intent (goal_lower : string) : intent * state :=
  let count :=
    match Re.search_group1 Re.count_re goal_lower with
    | Some d => Str.int_of_digits d
    | None => 5
    end in
  let threshold :=
    match Re.search_group1 Re.score_re goal_lower with
    | Some d => Str.float_of_decimal d
    | None => 3%Q
    end in
  let params :=
    State (Some count) (Some threshold) None None None None None None None None in
  if Str.contains_any ["review"; "evaluate"; "check"] goal_lower then
    if Str.contains_any ["update"; "improve"; "create pr"] goal_lower
    then (review_and_update, params)
    else (review_only, params)
  else if Str.contains_any ["update prompt"; "create pr"] goal_lower
  then (direct_update, params)
  else (unknown, params).

Definition pad3 (d : string) : string :=
  match String.length d with
  | 1%nat => "00" +:+ d
  | 2%nat => "0" +:+ d
  | _ => d
  end.

(** [f"conv_{i+1:03d}"] *)
Definition conv_name (i : nat) : string :=
  "conv_" +:+ pad3 (NilEmpty.string_of_uint (Nat.to_uint (S i))).

Definition sample (H : henv) (i : nat) : conversation :=
  let n := NilEmpty.string_of_uint (Nat.to_uint (S i)) in
  Conversation (conv_name i) ("Sample question " +:+ n) ("Sample response " +:+ n)
               (now H).

(** The node [query_conversations]: only the key ["conversations"]. *)
Definition query_conversations (H : henv) (st : state) : list conversation :=
  let count := default 5 (conversation_count st) in
  map (sample H) (seq 0 (Z.to_nat count)).

(** [3 + (hash(conv['id']) % 3) - 1] *)
Definition simulated_score (H : henv) (c : conversation) : Z :=
  3 + (hash H (conv_id c) mod 3) - 1.

Definition evaluate_one (H : henv) (c : conversation) : evaluation :=
  Evaluation (conv_id c) (simulated_score H c)
             ("Evaluation comment for " +:+ conv_id c).

(** [total_score / len(conversations) if conversations else 0] *)
Definition average (scores : list Z) : Q :=
  match scores with
  | [] => 0%Q
  | _ => (inject_Z (Py.sum scores) / inject_Z (Z.of_nat (length scores)))%Q
  end.

(** The node [evaluate_responses]. *)
Definition evaluate_responses (H : henv) (st : state) : state :=
  let convs := default [] (conversations st) in
  let evals := map (evaluate_one H) convs in
  State (conversation_count st) (score_threshold st) (update_required st)
        (conversations st) (Some evals) (Some (average (map ev_score evals)))
        (prompt_text st) (reason_avg st) (approval_required st) (approval_id st).

Inductive decision : Type := needs_update | no_update.

(** The node [check_update_needed]. *)
Definition check_update_needed (st : state) : decision :=
  let average_score := default 0%Q (average_score st) in
  let threshold := default 3%Q (score_threshold st) in
  let update_required := default false (update_required st) in
  if Py.Qltb average_score threshold || update_required
  then needs_update else no_update.

(** The node [prepare_update]. *)
Definition prepare_update (st : state) : state :=
  State (conversation_count st) (score_threshold st) (update_required st)
        (conversations st) (evaluations st) (average_score st)
        (Some Planner.default_prompt) (Some (default 0%Q (average_score st)))
        (Some true) (approval_id st).

(** The node [create_approval_request]: it generates an identifier; nothing
    is written to the approval store. *)
Definition create_approval_request (H : henv) (st : state) : state :=
  State (conversation_count st) (score_threshold st) (update_required st)
        (conversations st) (evaluations st) (average_score st)
        (prompt_text st) (reason_avg st) (approval_required st)
        (Some (new_approval_id H)).

Inductive result : Type :=
| WaitingApproval (id : option string) (st : state)
| Completed                 (* "Review completed - no updates required" *)
| ExecutionFailed (name : string)
| NoWorkflow (i : intent).

(** [{**params, **conversations}] *)
Definition with_conversations (st : state) (cs : list conversation) : state :=
  State (conversation_count st) (score_threshold st) (update_required st)
        (Some cs) (evaluations st) (average_score st)
        (prompt_text st) (reason_avg st) (approval_required st) (approval_id st).

(** [SimulatedWorkflow.invoke] for the workflow called [name]. *)
Definition invoke (H : henv) (name : string) (params : state) : result :=
  if String.eqb name "review_workflow" then
    let cs := query_conversations H params in
    let st := evaluate_responses H (with_conversations params cs) in
    match check_update_needed st with
    | needs_update =>
        let st := create_approval_request H (prepare_update st) in
        WaitingApproval (approval_id st) st
    | no_update => Completed
    end
  else if String.eqb name "update_workflow" then
    let st := create_approval_request H (prepare_update params) in
    WaitingApproval (approval_id st) st
  else ExecutionFailed name.

Definition set_update_required (b : bool) (st : state) : state :=
  State (conversation_count st) (score_threshold st) (Some b)
        (conversations st) (evaluations st) (average_score st)
        (prompt_text st) (reason_avg st) (approval_required st) (approval_id st).

(** [AutonomousAgent._orchestrate_workflow]; [workflows] maps a registered
    name to the name of its [SimulatedWorkflow]. *)
Definition _orchestrate_workflow (H : henv) (workflows : gmap string string)
           (i : intent) (params : state) : result :=
  match i with
  | review_only =>
      match workflows !! "review_workflow" with
      | Some wf => invoke H wf (set_update_required false params)
      | None => NoWorkflow i
      end
  | review_and_update =>
      match workflows !! "review_workflow" with
      | Some wf => invoke H wf (set_update_required true params)
      | None => NoWorkflow i
      end
  | direct_update =>
      match workflows !! "update_workflow" with
      | Some wf => invoke H wf params
      | None => NoWorkflow i
      end
  | unknown => NoWorkflow i
  end.

(** [AutonomousAgent.process_goal] *)
Definition process_goal (H : henv) (workflows : gmap string string)
           (goal : string) : result :=
  let '(i, params) := _classify_intent (Str.lower goal) in
  _orchestrate_workflow H workflows i params.

(** The registry of [run_demo]. *)
Definition demo_workflows : gmap string string :=
  <["review_workflow" := "review_workflow"]>
    (<["update_workflow" := "update_workflow"]> ∅).

End Hybrid.

(** ** approval_store.py and approve_action.py *)

Module ApprovalStore.

(** [f"req_{int(time.time())}_{uuid.uuid4().hex[:6]}"] from the printed
    seconds and the six hexadecimal digits. *)
Definition request_id (seconds hex6 : string) : string :=
  "req_" +:+ seconds +:+ "_" +:+ hex6.

(** [create_request]; [now] is [datetime.now().isoformat()]. *)
Definition create_request (seconds hex6 now : string)
           (request_data : gmap string json) (fs : store) : string * store :=
  let id := request_id seconds hex6 in
  let d := <["created_at" := JStr now]>
             (<["status" := JStr "pending"]> (<["id" := JStr id]> request_data)) in
  (id, <[id := d]> fs).

(** [get_request] *)
Definition get_request (id : string) (fs : store) : option (gmap string json) :=
  fs !! id.

(** [update_request] *)
Definition update_request (id status : string) (notes : option string)
           (now : string) (fs : store) : bool * store :=
  match fs !! id with
  | None => (false, fs)
  | Some request_data =>
      let d := <["updated_at" := JStr now]> (<["status" := JStr status]> request_data) in
      let d := if Py.truthy_str notes
               then <["notes" := JStr (default "" notes)]> d else d in
      (true, <[id := d]> fs)
  end.

(** [request_data.get("status") == s] *)
Definition has_status (s : string) (request_data : gmap string json) : bool :=
  match request_data !! "status" with
  | Some v => Py.is_jstr s v
  | None => false
  end.

(** [request_data.get("processed", False)] as a condition. *)
Definition is_processed (request_data : gmap string json) : bool :=
  match request_data !! "processed" with
  | Some v => Py.truthy v
  | None => false
  end.

(** [get_pending_requests]; the order is that of the directory listing. *)
Definition get_pending_requests (fs : store) : list (gmap string json) :=
  filter (fun d => has_status "pending" d) (snd <$> map_to_list fs).

(** [get_approved_requests] *)
Definition get_approved_requests (fs : store) : list (gmap string json) :=
  filter (fun d => has_status "approved" d && negb (is_processed d))
         (snd <$> map_to_list fs).

(** [mark_as_processed] *)
Definition mark_as_processed (id now : string) (fs : store) : bool * store :=
  match fs !! id with
  | None => (false, fs)
  | Some request_data =>
      let d := <["processed_at" := JStr now]>
                 (<["processed" := JBool true]> request_data) in
      (true, <[id := d]> fs)
  end.

(** [approve_action.approve_request] and [approve_action.reject_request]
    without their prints: look the request up, refuse one that is missing
    (or empty) or not pending, otherwise store the decision. *)
Definition decide_request (decision id : string) (notes : option string)
           (now : string) (fs : store) : bool * store :=
  match get_request id fs with
  | None => (false, fs)
  | Some request =>
      if Nat.eqb (size request) 0 then (false, fs)
      else if negb (has_status "pending" request) then (false, fs)
      else update_request id decision notes now fs
  end.

Definition approve_request (id : string) (notes : option string) (now : string)
           (fs : store) : bool * store :=
  decide_request "approved" id notes now fs.

Definition reject_request (id : string) (notes : option string) (now : string)
           (fs : store) : bool * store :=
  decide_request "rejected" id notes now fs.

(** The operations that the command line tool and a resuming agent apply to
    stored requests. *)
Inductive op : Type :=
| Approve (id : string) (notes : option string) (now : string)
| Reject (id : string) (notes : option string) (now : string)
| MarkProcessed (id : string) (now : string).

Definition step (o : op) (fs : store) : store :=
  match o with
  | Approve id notes now => snd (approve_request id notes now fs)
  | Reject id notes now => snd (reject_request id notes now fs)
  | MarkProcessed id now => snd (mark_as_processed id now fs)
  end.

Definition steps (os : list op) (fs : store) : store :=
  fold_left (fun fs o => step o fs) os fs.

(** The status stored for a request. *)
Definition status_of (id : string) (fs : store) : option json :=
  match fs !! id with
  | Some d => d !! "status"
  | None => None
  end.

End ApprovalStore.

(** ** Phrases of a goal text *)

Module Phrase.








End Phrase.

(** ** Observations on a run *)

Definition is_submit (c : call) : bool :=
  match call_tool c with
  | submit_prompt_update => true
  | _ => false
  end.

(** How many times [submit_prompt_update] was invoked. *)
Definition count_submit (cs : list call) : nat := length (filter is_submit cs).

(** [m] relates the world before it to the world after it by [R], whether it
    returns or raises. *)
Definition preserves {A} (R : world -> world -> Prop) (m : M A) : Prop :=
  forall w, R w (snd (m w)).

(** No tool is invoked and the approval store is not touched. *)
Definition quiet_step (w w' : world) : Prop :=
  calls w' = calls w /\ files w' = files w.

(** The mutating tool is not invoked and the approval store is not touched. *)
Definition harmless_step (w w' : world) : Prop :=
  count_submit (calls w') = count_submit (calls w) /\ files w' = files w.

(** The approval store is not touched. *)
Definition same_files (w w' : world) : Prop := files w' = files w.

(** Every evaluation that succeeds scores [z]. *)
Definition evaluations_score (E : env) (z : Z) : Prop :=
  forall history question answer v,
    let r := Planner.tool_result E history
               (Call evaluate_response (EvalArgs question answer)) in
    Py.get r "success" = Ok v -> Py.truthy v = true ->
    Py.get r "score" = Ok (JInt z).

(** The prompt text that a pull request carries. *)
Definition prompt_for (eff : option string) : string :=
  if Py.truthy_str eff then default "" eff else Planner.default_prompt.

(** [comment[:100]] is defined for the comment of each evaluation. *)
Definition comments_sliceable (evaluations : list Planner.evaluation) : Prop :=
  Forall (fun ev => exists c, Py.slice_to 100 (Planner.ev_comment ev) = Ok c)
         evaluations.

(** When [m] returns, what it returns satisfies [P]. *)
Definition returns {A} (P : A -> Prop) (m : M A) : Prop :=
  forall w, match fst (m w) with Ok a => P a | Raise _ => True end.

(** ** Sample worlds, used where a statement is checked on an input *)

Module Sample.

Definition conversation (id : string) : json :=
  JObj [("id", JStr id); ("user_message", JStr "How do I reset my password?");
        ("bot_response", JStr "Use the reset link."); ("timestamp", JStr "2024-01-01T00:00:00")].

Definition is_eval (c : call) : bool :=
  match call_tool c with
  | evaluate_response => true
  | _ => false
  end.

(** A successful evaluation with the given score. *)
Definition scored (z : Z) : outcome json :=
  Ok (JObj [("success", JBool true); ("score", JInt z); ("comment", JStr "ok")]).

Definition conversations_of {A} (l : list A) : list json :=
  imap (fun i _ => conversation (Hybrid.conv_name i)) l.

(** The query tool returns one conversation per element of [answers]; the
    k-th evaluation is answered by the k-th element; the mutating tool
    reports a pull request. *)
Definition remote (answers : list (outcome json)) : env :=
  Env (fun history c =>
         match call_tool c with
         | query_conversations =>
             Ok (JObj [("success", JBool true);
                       ("count", JInt (Z.of_nat (length answers)));
                       ("conversations", JList (conversations_of answers))])
         | evaluate_response =>
             nth (length (filter is_eval history)) answers
                 (Raise (RemoteError "no answer"))
         | submit_prompt_update =>
             Ok (JObj [("success", JBool true);
                       ("pr_url", JStr "https://github.com/owner/repo/pull/1")])
         end)
      (fun _ => Raise (RemoteError "Expecting value")).


(** The query tool returns [n] conversations and every evaluation scores
    [z]. *)
Definition steady (n : nat) (z : Z) : env :=
  Env (fun _ c =>
         match call_tool c with
         | query_conversations =>
             Ok (JObj [("success", JBool true);
                       ("count", JInt (Z.of_nat n));
                       ("conversations", JList (conversations_of (seq 0 n)))])
         | evaluate_response => scored z
         | submit_prompt_update =>
             Ok (JObj [("success", JBool true);
                       ("pr_url", JStr "https://github.com/owner/repo/pull/1")])
         end)
      (fun _ => Raise (RemoteError "Expecting value")).

(** The query tool is unreachable. *)
Definition unreachable : env :=
  Env (fun _ _ => Raise (RemoteError "<urlopen error timed out>"))
      (fun _ => Raise (RemoteError "Expecting value")).


Definition agent0 : Planner.agent := Planner.Agent false None.

Definition fresh : world := World [] [] ∅.

Definition henv (h : Z) : Hybrid.henv :=
  Hybrid.HEnv (fun _ => h) "2024-01-01T00:00:00" "req_1700000000_ab12cd".

(** A store with one request, [req_1], in the given status. *)
Definition store_with (status : string) : store :=
  <["req_1" := <["status" := JStr status]>
                 (<["id" := JStr "req_1"]>
                    (<["action" := JStr "submit_prompt_update"]> ∅))]> ∅.

End Sample.

(** The lines that report an error. *)
Definition is_error_line (l : line) : bool :=
  match l with
  | LErrCreatingPR _ | LErrFetching _ | LErrExecuting _
  | LDbgErrExecuting _ | LTraceback _ => true
  | _ => false
  end.

(** ** The calls of a run *)

Definition is_evaluate (c : call) : Prop := call_tool c = evaluate_response.

(** Only the evaluate tool was invoked. *)
Definition evaluates_only (w w' : world) : Prop :=
  exists evs, calls w' = calls w ++ evs /\ Forall is_evaluate evs.

(** Nothing was invoked, or the mutating tool once, with the prompt [p] and
    the automated reason. *)
Definition submits_at_most_once (p : string) (w w' : world) : Prop :=
  calls w' = calls w
  \/ exists avg n,
       calls w' = calls w ++
         [Call submit_prompt_update (UpdateArgs p (AutomatedUpdate avg n))].

(** Evaluations, then at most one submission. *)
Definition evaluates_then_submits (p : string) (w w' : world) : Prop :=
  exists evs tail,
    calls w' = calls w ++ evs ++ tail /\ Forall is_evaluate evs /\
    (tail = [] \/
     exists avg n,
       tail = [Call submit_prompt_update (UpdateArgs p (AutomatedUpdate avg n))]).

(** The order in which a run invokes the tools: a direct submission alone,
    or the query, then evaluations, then at most one automated
    submission. *)
Definition run_protocol (direct : bool) (limit : Z) (p : string) (cs : list call)
  : Prop :=
  if direct then cs = [Call submit_prompt_update (UpdateArgs p ManualUpdate)]
  else exists evs tail,
      cs = Call query_conversations (QueryArgs limit) :: evs ++ tail /\
      Forall is_evaluate evs /\
      (tail = [] \/
       exists avg n,
         tail = [Call submit_prompt_update (UpdateArgs p (AutomatedUpdate avg n))]).

(** [conv[k]], where the key is present. *)
Definition field (k : string) (conv : json) : json :=
  match Py.subscript conv k with
  | Ok v => v
  | Raise _ => JNull
  end.

(** A conversation that has the keys that the evaluation loop reads. *)
Definition evaluable (conv : json) : Prop :=
  exists kv, conv = JObj kv /\
    Py.assoc "id" kv <> None /\
    Py.assoc "user_message" kv <> None /\
    Py.assoc "bot_response" kv <> None.

(** The call that evaluates a conversation. *)
Definition evaluation_of (conv : json) : call :=
  Call evaluate_response
       (EvalArgs (field "user_message" conv) (field "bot_response" conv)).

(** The statements of [execute_goal] that follow the query, as [run] has
    them. *)
Definition after_query (E : env) (A : Planner.agent) (stream : bool)
           (eff : option string) (goal_lower : string) (query_result : json)
  : M (list line) :=
  bind (lift (Py.get query_result "success")) (fun ok =>
    if negb (Py.truthy ok) then
      bind (lift (Py.get query_result "error")) (fun err =>
        bind (when stream (print [LErrFetching err])) (fun _ =>
          ret [LErrFetching err]))
    else
      bind (lift (Py.get_default query_result "conversations" (JList [])))
        (fun conversations =>
      bind (lift (Py.len conversations)) (fun n =>
      bind (when stream (print [LBlank; LRetrieved n])) (fun _ =>
      bind (when (Planner.debug A) (print [LDbgRetrieved n])) (fun _ =>
      bind (if Str.contains_any ["get"; "show"; "list"; "display"] goal_lower
            then
              bind (when stream (print [LBlank])) (fun _ =>
              bind (lift (Py.iter conversations)) (fun convs =>
                Planner.show_conversations stream convs [LRetrieved n]))
            else ret [LRetrieved n]) (fun results =>
        if Str.contains "review" goal_lower || Str.contains "evaluate" goal_lower
           || Str.contains "check" goal_lower
        then Planner.evaluate_step E A stream eff goal_lower conversations n results
        else ret results)))))).

(** Nothing was printed. *)
Definition same_stdout (w w' : world) : Prop := stdout w' = stdout w.

(** The prompt text that a run submits: the override of the call when it is
    not empty, else the custom prompt of the agent when it is not empty, else
    the default prompt. *)
Definition chosen_prompt (A : Planner.agent) (override : option string) : string :=
  match override with
  | Some (String a s) => String a s
  | _ =>
      match Planner.custom_prompt A with
      | Some (String a s) => String a s
      | _ => Planner.default_prompt
      end
  end.

(** ** mcp_query_server/lambda_function.py *)

Module QueryServer.

(** What the handlers return: the status code and the document that
    [json.dumps] writes into ["body"]; the headers are always
    [{'Content-Type': 'application/json'}]. *)
Record response : Type := Response { statusCode : Z; body : json }.

Section Handler.

(** [stamp i] is the ISO time of the [i]-th conversation, computed from the
    clock when the module is loaded; [loads] is [json.loads]. *)
Variable stamp : nat -> string.
Variable loads : string -> outcome json.

Definition conversation (i : nat) (id user_message bot_response : string) : json :=
  JObj [("id", JStr id); ("user_message", JStr user_message);
        ("bot_response", JStr bot_response);
        ("timestamp", JStr (stamp i +:+ "Z"))].

Definition CONVERSATIONS : list json := [
  conversation 0 "conv_001"
    "What is Python?"
    "Python is a high-level, interpreted programming language known for its simplicity and readability. It's widely used for web development, data science, automation, and more.";
  conversation 1 "conv_002"
    "How do I install packages in Python?"
    "Use pip.";
  conversation 2 "conv_003"
    "What is machine learning?"
    "Machine learning is a subset of artificial intelligence that enables systems to learn and improve from experience without being explicitly programmed. It uses algorithms to identify patterns in data.";
  conversation 3 "conv_004"
    "Explain Docker containers"
    "Docker containers are lightweight, standalone packages that include everything needed to run an application: code, runtime, system tools, libraries, and settings. They ensure consistency across different environments.";
  conversation 4 "conv_005"
    "What is REST API?"
    "REST API is an architectural style for designing networked applications. It uses HTTP requests to access and manipulate data. RESTful APIs are stateless and use standard HTTP methods like GET, POST, PUT, and DELETE.";
  conversation 5 "conv_006"
    "How does Git work?"
    "Git tracks changes.";
  conversation 6 "conv_007"
    "What is AWS Lambda?"
    "AWS Lambda is a serverless compute service that runs your code in response to events and automatically manages the underlying compute resources. You only pay for the compute time you consume.";
  conversation 7 "conv_008"
    "Explain SQL databases"
    "SQL databases are relational database management systems that use Structured Query Language (SQL) for defining and manipulating data. They organize data into tables with rows and columns.";
  conversation 8 "conv_009"
    "What is Kubernetes?"
    "Kubernetes is an open-source container orchestration platform that automates the deployment, scaling, and management of containerized applications across clusters of hosts.";
  conversation 9 "conv_010"
    "How do I debug Python code?"
    "Print statements."
].

(** [l[start:]] for a Python list. *)
Definition slice_from {A} (start : Z) (l : list A) : list A :=
  let n := Z.of_nat (length l) in
  let first := if start <? 0 then Z.max (start + n) 0 else Z.min start n in
  skipn (Z.to_nat first) l.

(** [query_conversations(limit)]: [CONVERSATIONS[-limit:]]. *)
Definition query_conversations (limit : Z) : list json :=
  slice_from (- limit) CONVERSATIONS.

(** The value of an [int] object, booleans included. *)
Definition int_value (v : json) : option Z :=
  match v with
  | JInt z => Some z
  | JBool b => Some (if b then 1 else 0)
  | _ => None
  end.

(** The first statements of [lambda_handler]: the dictionary that holds the
    parameters. *)
Definition request_body (key : string) (event : json) : outcome json :=
  match event with
  | JObj kv =>
      match Py.assoc "body" kv with
      | Some (JStr text) => loads text
      | Some b => Ok b
      | None =>
          match Py.assoc key kv with
          | Some _ => Ok event
          | None => Ok (JObj [])
          end
      end
  | _ => Ok (JObj [])
  end.

Definition invalid_limit : response :=
  Response 400
    (JObj [("error", JStr "Invalid limit parameter. Must be between 1 and 10.")]).

(** The statements of [lambda_handler] inside [try]. *)
Definition handle (event : json) : outcome response :=
  match request_body "limit" event with
  | Raise e => Raise e
  | Ok body =>
      match Py.get_default body "limit" (JInt 5) with
      | Raise e => Raise e
      | Ok limit =>
          match int_value limit with
          | None => Ok invalid_limit
          | Some n =>
              if (n <? 1) || (10 <? n) then Ok invalid_limit
              else
                let conversations := query_conversations n in
                Ok (Response 200
                      (JObj [("success", JBool true);
                             ("count", JInt (Z.of_nat (length conversations)));
                             ("conversations", JList conversations)]))
          end
      end
  end.

(** [lambda_handler] *)
Definition lambda_handler (event : json) : response :=
  match handle event with
  | Ok r => r
  | Raise e =>
      Response 500 (JObj [("success", JBool false); ("error", JStr (str_exn e))])
  end.

(** The limit that a request asks for: the integer under ["limit"] in the
    dictionary of parameters, 5 when the key is absent. *)
Definition requested_limit (event : json) : option Z :=
  match request_body "limit" event with
  | Ok (JObj kv) => int_value (default (JInt 5) (Py.assoc "limit" kv))
  | _ => None
  end.

End Handler.

End QueryServer.

(** ** mcp_evaluation_server/lambda_function.py *)

Module EvalServer.

(** What [json.loads] returns.  The grader's answer may hold any JSON
    number, so floats are kept apart from integers, with the two values that
    no rational stands for: [NaN] and the infinities. *)
#[warnings="-register-all"] Inductive value : Type :=
| VNull
| VBool (b : bool)
| VInt (z : Z)
| VFloat (q : Q)
| VNaN
| VInf (negative : bool)
| VStr (s : string)
| VList (l : list value)
| VObj (kv : list (string * value)).

(** The exceptions that the handler can meet, all subclasses of
    [Exception]; [Raised] is what [boto3] or [json.loads] raises, with its
    message. *)
Inductive error : Type :=
| KeyError (key : value)
| IndexError
| TypeError
| AttributeError
| ValueError
| OverflowError
| Raised (msg : string).

Inductive result (A : Type) : Type :=
| Return (a : A)
| Except (e : error).
Arguments Return {A} a.
Arguments Except {A} e.

Definition and_then {A B} (r : result A) (k : A -> result B) : result B :=
  match r with
  | Return a => k a
  | Except e => Except e
  end.

Fixpoint assoc (k : string) (kv : list (string * value)) : option value :=
  match kv with
  | [] => None
  | (k', v) :: kv' => if String.eqb k k' then Some v else assoc k kv'
  end.

(** [bool(v)] *)
Definition truthy (v : value) : bool :=
  match v with
  | VNull => false
  | VBool b => b
  | VInt z => negb (z =? 0)
  | VFloat q => negb (Qeq_bool q 0)
  | VNaN | VInf _ => true
  | VStr s => negb (String.eqb s "")
  | VList l => match l with [] => false | _ => true end
  | VObj kv => match kv with [] => false | _ => true end
  end.

(** [v.get(k, d)] *)
Definition get (v : value) (k : string) (d : value) : result value :=
  match v with
  | VObj kv => Return (default d (assoc k kv))
  | _ => Except AttributeError
  end.

(** [v[k]] for a string key [k]. *)
Definition subscript (v : value) (k : string) : result value :=
  match v with
  | VObj kv =>
      match assoc k kv with
      | Some x => Return x
      | None => Except (KeyError (VStr k))
      end
  | _ => Except TypeError
  end.

(** [v[0]] *)
Definition first (v : value) : result value :=
  match v with
  | VList (x :: _) => Return x
  | VStr (String a _) => Return (VStr (String a ""))
  | VList [] | VStr "" => Except IndexError
  | VObj _ => Except (KeyError (VInt 0))
  | _ => Except TypeError
  end.

(** [s.find(c)] for a character [c]: the index of its first occurrence,
    [-1] when there is none. *)
Fixpoint find_from (c : ascii) (s : string) (i : Z) : Z :=
  match s with
  | EmptyString => -1
  | String a s' => if Ascii.eqb a c then i else find_from c s' (i + 1)
  end.

Definition find (c : ascii) (s : string) : Z := find_from c s 0.

(** [s.rfind(c)]: the index of the last occurrence, [-1] when there is
    none. *)
Fixpoint rfind_from (c : ascii) (s : string) (i last : Z) : Z :=
  match s with
  | EmptyString => last
  | String a s' => rfind_from c s' (i + 1) (if Ascii.eqb a c then i else last)
  end.

Definition rfind (c : ascii) (s : string) : Z := rfind_from c s 0 (-1).

(** [s[start:stop]] for [0 <= start <= stop]. *)
Definition slice (start stop : Z) (s : string) : string :=
  String.substring (Z.to_nat start) (Z.to_nat (stop - start)) s.

(** [isinstance(v, (int, float))]; [bool] is a subclass of [int]. *)
Definition is_number (v : value) : bool :=
  match v with
  | VBool _ | VInt _ | VFloat _ | VNaN | VInf _ => true
  | _ => false
  end.

(** [v < n] and [v > n] for a number [v]; every comparison with [NaN] is
    false. *)
Definition lt_int (v : value) (n : Z) : bool :=
  match v with
  | VBool b => Z.b2z b <? n
  | VInt z => z <? n
  | VFloat q => Py.Qltb q (inject_Z n)
  | VInf negative => negative
  | _ => false
  end.

Definition gt_int (v : value) (n : Z) : bool :=
  match v with
  | VBool b => n <? Z.b2z b
  | VInt z => n <? z
  | VFloat q => Py.Qltb (inject_Z n) q
  | VInf negative => negb negative
  | _ => false
  end.

(** [int(v)] for a number [v]: a float is truncated towards zero.  The
    handler passes a number only. *)
Definition int_of_number (v : value) : result Z :=
  match v with
  | VBool b => Return (Z.b2z b)
  | VInt z => Return z
  | VFloat q => Return (Z.quot (Qnum q) (Z.pos (Qden q)))
  | VNaN => Except ValueError
  | VInf _ => Except OverflowError
  | _ => Except TypeError
  end.

(** The comment of an evaluation: a value, or the text
    [f'Evaluation error: {str(e)}']. *)
Inductive comment_text : Type :=
| Comment (v : value)
| EvaluationError (e : error).

(** The dictionary that [evaluate_response] returns. *)
Record evaluation : Type := Evaluation { score : Z; comment : comment_text }.

(** The body of the handler's answer, before [json.dumps]. *)
Inductive answer_body : Type :=
| Evaluated (question answer : value) (score : Z) (comment : comment_text)
    (* success: True *)
| Required
    (* error: 'Both question and answer are required' *)
| Failed (e : error).
    (* success: False, error: str(e) *)

Record response : Type := Response { statusCode : Z; body : answer_body }.

Section Handler.

(** [json.loads], and the grader: [invoke_model] followed by
    [response['body'].read()] for the prompt built from a question and an
    answer. *)
Variable loads : string -> result value.
Variable invoke_model : value -> value -> result string.

(** The statements of [evaluate_response] that follow the extraction of
    the text of the grader. *)
Definition parse_evaluation (content : string) : result evaluation :=
  let start_idx := find "{" content in
  let end_idx := rfind "}" content + 1 in
  if negb (start_idx =? -1) && (start_idx <? end_idx) then
    and_then (loads (slice start_idx end_idx content)) (fun evaluation =>
    and_then (get evaluation "score" (VInt 3)) (fun score =>
      let score :=
        if negb (is_number score) || lt_int score 1 || gt_int score 5
        then VInt 3 else score in
      and_then (int_of_number score) (fun n =>
      and_then (get evaluation "comment" (VStr "No comment provided")) (fun c =>
        Return (Evaluation n (Comment c))))))
  else
    Return (Evaluation 3 (Comment (VStr "Unable to parse evaluation response"))).

(** The statements of [evaluate_response] inside [try]. *)
Definition evaluate_try (question answer : value) : result evaluation :=
  and_then (invoke_model question answer) (fun text =>
  and_then (loads text) (fun response_body =>
  and_then (subscript response_body "content") (fun blocks =>
  and_then (first blocks) (fun block =>
  and_then (subscript block "text") (fun content =>
    match content with
    | VStr content => parse_evaluation content
    | _ => Except AttributeError
    end))))).

(** [evaluate_response], without the line that it prints on an error. *)
Definition evaluate_response (question answer : value) : evaluation :=
  match evaluate_try question answer with
  | Return e => e
  | Except e => Evaluation 3 (EvaluationError e)
  end.

(** The first statements of [lambda_handler]: the dictionary that holds the
    parameters. *)
Definition request_body (event : value) : result value :=
  match event with
  | VObj kv =>
      match assoc "body" kv with
      | Some (VStr text) => loads text
      | Some b => Return b
      | None =>
          match assoc "question" kv with
          | Some _ => Return event
          | None => Return (VObj [])
          end
      end
  | _ => Return (VObj [])
  end.

(** The statements of [lambda_handler] inside [try]. *)
Definition handle (event : value) : result response :=
  and_then (request_body event) (fun body =>
  and_then (get body "question" (VStr "")) (fun question =>
  and_then (get body "answer" (VStr "")) (fun answer =>
    if negb (truthy question) || negb (truthy answer)
    then Return (Response 400 Required)
    else
      let evaluation := evaluate_response question answer in
      Return (Response 200 (Evaluated question answer
                              (score evaluation) (comment evaluation)))))).

(** [lambda_handler] *)
Definition lambda_handler (event : value) : response :=
  match handle event with
  | Return r => r
  | Except e => Response 500 (Failed e)
  end.

(** The question and the answer that a request holds: the values under
    ["question"] and ["answer"] in the dictionary of parameters, the empty
    string for an absent key. *)
Definition request_of (event : value) : option (value * value) :=
  match request_body event with
  | Return (VObj kv) =>
      Some (default (VStr "") (assoc "question" kv),
            default (VStr "") (assoc "answer" kv))
  | _ => None
  end.

End Handler.

(** The text [s] has no character [c]. *)
Fixpoint lacks (c : ascii) (s : string) : Prop :=
  match s with
  | EmptyString => True
  | String a s' => a <> c /\ lacks c s'
  end.

End EvalServer.


(** Two worlds with the same calls and the same approval store: they differ
    in what was printed only. *)
Definition same_effects (w w' : world) : Prop :=
  calls w = calls w' /\ files w = files w'.

(** From worlds with the same effects, [m] and [m'] return the same (or
    raise the same) and leave worlds with the same effects. *)
Definition agree {A} (m m' : M A) : Prop :=
  forall w w', same_effects w w' ->
    fst (m w) = fst (m' w') /\ same_effects (snd (m w)) (snd (m' w')).

(** [conv['id']] does not raise. *)
Definition has_id (conv : json) : Prop :=
  exists id, Py.subscript conv "id" = Ok id.

(** Every conversation that the query tool returns has an ["id"]. *)
Definition ids_present (E : env) : Prop :=
  forall history limit v convs,
    Py.get_default
      (Planner.tool_result E history (Call query_conversations (QueryArgs limit)))
      "conversations" (JList []) = Ok v ->
    Py.iter v = Ok convs -> Forall has_id convs.

(** A conversation that has the four keys that the planner reads. *)
Definition complete (conv : json) : Prop :=
  exists kv, conv = JObj kv /\
    Py.assoc "id" kv <> None /\
    Py.assoc "timestamp" kv <> None /\
    Py.assoc "user_message" kv <> None /\
    Py.assoc "bot_response" kv <> None.

(** The request that carries a limit, as the local tests of the query server
    build it. *)
Definition limit_event (limit : Z) : json := JObj [("limit", JInt limit)].

(** * Properties *)

(** ** Strings and the matcher *)

Example search_count_examples :
  map (Re.search_group1 Re.count_re)
      ["review the last 12 conversations"; "x12 chats"; "1 2 chats"; "5chats"]
  = [Some "12"; Some "12"; Some "2"; None].
Proof. reflexivity. Qed.

Example search_threshold_examples :
  map (Re.search_group1 Re.threshold_re)
      ["if score is below 4"; "if  score is below 4"; "if any score is below 3.5.7";
       "if avg score < 2."; "if any scores are below 3"]
  = [None; Some "4"; Some "3.5"; Some "2"; None].
Proof. reflexivity. Qed.

Example search_score_examples :
  map (Re.search_group1 Re.score_re)
      ["update prompt if scores are below 3.5"; "score is less than 2";
       "scores below 3"]
  = [Some "3.5"; Some "2"; None].
Proof. reflexivity. Qed.

Lemma app_assoc_s (a b c : string) : (a +:+ b) +:+ c = a +:+ (b +:+ c).
Proof. induction a as [|x a IH]; simpl; [reflexivity | now rewrite IH]. Qed.

Lemma length_app_s (a b : string) :
  String.length (a +:+ b) = (String.length a + String.length b)%nat.
Proof. induction a as [|x a IH]; simpl; [reflexivity | now rewrite IH]. Qed.




Section MatcherFacts.
Context {T : Type}.
Implicit Types (k : string -> option string -> option T).









End MatcherFacts.




(** ** The conversation count *)

















(** ** The per-item threshold *)

Section ThresholdClause.










End ThresholdClause.

(** ** What a run can change *)

Section Preservation.
Variable R : world -> world -> Prop.
Hypothesis R_refl : forall w, R w w.
Hypothesis R_trans : forall w1 w2 w3, R w1 w2 -> R w2 w3 -> R w1 w3.
Hypothesis R_stdout :
  forall w l, R w (World (calls w) (stdout w ++ l) (files w)).

Lemma preserves_ret {A} (a : A) : preserves R (ret a).
Proof. intros w; apply R_refl. Qed.

Lemma preserves_lift {A} (o : outcome A) : preserves R (lift o).
Proof. intros w; apply R_refl. Qed.

Lemma preserves_print l : preserves R (print l).
Proof. intros w; apply R_stdout. Qed.

Lemma preserves_when b m : preserves R m -> preserves R (when b m).
Proof. destruct b; simpl; auto using preserves_ret. Qed.

Lemma preserves_bind {A B} (m : M A) (f : A -> M B) :
  preserves R m -> (forall a, preserves R (f a)) -> preserves R (bind m f).
Proof.
  intros Hm Hf w; unfold bind.
  specialize (Hm w); destruct (m w) as [[a|e] w']; simpl in *.
  - eapply R_trans; [exact Hm | apply Hf].
  - exact Hm.
Qed.
End Preservation.

Lemma quiet_refl w : quiet_step w w.
Proof. split; reflexivity. Qed.

Lemma quiet_trans w1 w2 w3 : quiet_step w1 w2 -> quiet_step w2 w3 -> quiet_step w1 w3.
Proof. intros [H1 H2] [H3 H4]; split; congruence. Qed.

Lemma quiet_stdout w l : quiet_step w (World (calls w) (stdout w ++ l) (files w)).
Proof. split; reflexivity. Qed.

Lemma harmless_refl w : harmless_step w w.
Proof. split; reflexivity. Qed.

Lemma harmless_trans w1 w2 w3 :
  harmless_step w1 w2 -> harmless_step w2 w3 -> harmless_step w1 w3.
Proof. intros [H1 H2] [H3 H4]; split; congruence. Qed.

Lemma harmless_stdout w l :
  harmless_step w (World (calls w) (stdout w ++ l) (files w)).
Proof. split; reflexivity. Qed.

Lemma same_files_refl w : same_files w w.
Proof. reflexivity. Qed.

Lemma same_files_trans w1 w2 w3 :
  same_files w1 w2 -> same_files w2 w3 -> same_files w1 w3.
Proof. unfold same_files; congruence. Qed.

Lemma same_files_stdout w l :
  same_files w (World (calls w) (stdout w ++ l) (files w)).
Proof. reflexivity. Qed.

Lemma quiet_harmless {A} (m : M A) : preserves quiet_step m -> preserves harmless_step m.
Proof. intros H w; destruct (H w) as [E1 E2]; split; congruence. Qed.

Lemma harmless_same_files {A} (m : M A) :
  preserves harmless_step m -> preserves same_files m.
Proof. intros H w; now destruct (H w). Qed.

Lemma count_submit_app cs cs' :
  count_submit (cs ++ cs') = (count_submit cs + count_submit cs')%nat.
Proof. unfold count_submit; now rewrite filter_app, List.length_app. Qed.

Lemma MCPTool_call_files E t a : preserves same_files (Planner.MCPTool_call E t a).
Proof. intros w; reflexivity. Qed.

Lemma MCPTool_call_harmless E t a :
  t <> submit_prompt_update -> preserves harmless_step (Planner.MCPTool_call E t a).
Proof.
  intros Ht w; split; [|reflexivity]; simpl.
  rewrite count_submit_app; unfold count_submit at 2; simpl.
  unfold is_submit; simpl; destruct t; simpl; try lia; congruence.
Qed.

Create HintDb preserve discriminated.

#[local] Hint Resolve quiet_refl quiet_trans quiet_stdout
  harmless_refl harmless_trans harmless_stdout
  same_files_refl same_files_trans same_files_stdout : preserve.

(** Walk through a computation built from [bind], [ret], [lift], [print]
    and [when]. *)
Ltac preserve_step :=
  first
    [ apply preserves_ret; solve [eauto with preserve]
    | apply preserves_lift; solve [eauto with preserve]
    | apply preserves_print; solve [eauto with preserve]
    | apply preserves_when; [solve [eauto with preserve] |]
    | apply preserves_bind; [solve [eauto with preserve] | | intros] ].

Ltac preserve_case :=
  match goal with
  | |- preserves _ (if ?b then _ else _) => destruct b
  | |- preserves _ (match ?x with _ => _ end) => destruct x
  end.

Ltac preserve := repeat first [preserve_step | preserve_case]; eauto with preserve.

(** ** The steps of [execute_goal] *)

Lemma choose_prompt_quiet stream eff :
  preserves quiet_step (Planner.choose_prompt stream eff).
Proof. unfold Planner.choose_prompt; preserve. Qed.

Lemma show_conversations_quiet stream convs : forall results,
  preserves quiet_step (Planner.show_conversations stream convs results).
Proof. induction convs as [|conv rest IH]; intros results; simpl; preserve. Qed.

Lemma show_scores_quiet stream evaluations : forall results,
  preserves quiet_step (Planner.show_scores stream evaluations results).
Proof.
  induction evaluations as [|ev rest IH]; intros results; simpl; preserve.
Qed.

#[local] Hint Resolve choose_prompt_quiet show_conversations_quiet
  show_scores_quiet quiet_harmless harmless_same_files
  MCPTool_call_files : preserve.

(** The evaluation loop invokes the evaluate tool only. *)
Lemma evaluate_all_harmless E A stream total convs : forall i scores evaluations,
  preserves harmless_step
    (Planner.evaluate_all E A stream total i convs scores evaluations).
Proof.
  induction convs as [|conv rest IH]; intros i scores evaluations; simpl.
  - preserve.
  - repeat first
      [ apply MCPTool_call_harmless; discriminate
      | apply IH
      | preserve_step
      | preserve_case ]; eauto with preserve.
Qed.

Lemma evaluate_all_files E A stream total convs i scores evaluations :
  preserves same_files
    (Planner.evaluate_all E A stream total i convs scores evaluations).
Proof. apply harmless_same_files, evaluate_all_harmless. Qed.

#[local] Hint Resolve evaluate_all_harmless evaluate_all_files : preserve.

(** No step of a run touches the approval store. *)
Lemma run_files E A goal stream override :
  preserves same_files (Planner.run E A goal stream override).
Proof.
  unfold Planner.run, Planner.direct_pr, Planner.evaluate_step,
    Planner.report_and_decide, Planner.create_pr.
  preserve.
Qed.

Lemma execute_goal_files E A goal stream override w :
  files (snd (Planner.execute_goal E A goal stream override w)) = files w.
Proof.
  unfold Planner.execute_goal.
  set (w0 := Planner.announce A goal w).
  assert (files w0 = files w) as E0 by (unfold w0, Planner.announce; destruct (Planner.debug A); reflexivity).
  pose proof (run_files E A goal stream override w0) as H.
  unfold same_files in H.
  destruct (Planner.run E A goal stream override w0) as [[text|e] w1];
    simpl in *; [congruence|].
  destruct (Planner.debug A); simpl; congruence.
Qed.

Lemma choose_prompt_ok stream eff w :
  exists w', Planner.choose_prompt stream eff w = (Ok (prompt_for eff), w')
             /\ calls w' = calls w /\ files w' = files w.
Proof.
  unfold Planner.choose_prompt, prompt_for.
  destruct (Py.truthy_str eff), stream; simpl; eauto.
Qed.

Lemma when_print_ok b l w :
  exists w', when b (print l) w = (Ok tt, w')
             /\ calls w' = calls w /\ files w' = files w.
Proof. destruct b; simpl; eauto. Qed.

Lemma bind_ok {A B} (m : M A) (f : A -> M B) w a w' :
  m w = (Ok a, w') -> bind m f w = f a w'.
Proof. unfold bind; now intros ->. Qed.

Lemma MCPTool_call_eq E t a w :
  Planner.MCPTool_call E t a w =
  (Ok (Planner.tool_result E (calls w) (Call t a)),
   World (calls w ++ [Call t a]) (stdout w) (files w)).
Proof. reflexivity. Qed.

(** What follows the call of the mutating tool invokes nothing more. *)
Lemma after_submit_quiet stream (pr_result : json) (ok_lines err_lines : json -> list line)
      (ok_text err_text : json -> list line) :
  preserves quiet_step
    (bind (lift (Py.get pr_result "success")) (fun ok =>
       if Py.truthy ok then
         bind (lift (Py.get pr_result "pr_url")) (fun url =>
           bind (when stream (print (ok_lines url))) (fun _ => ret (ok_text url)))
       else
         bind (lift (Py.get pr_result "error")) (fun err =>
           bind (when stream (print (err_lines err))) (fun _ => ret (err_text err))))).
Proof. preserve. Qed.

(** The direct branch invokes the mutating tool, once. *)
Lemma direct_pr_calls E stream eff w :
  let w' := snd (Planner.direct_pr E stream eff w) in
  calls w' = calls w ++
    [Call submit_prompt_update (UpdateArgs (prompt_for eff) ManualUpdate)]
  /\ files w' = files w.
Proof.
  unfold Planner.direct_pr.
  destruct (when_print_ok stream [LBlank; LCreatingDirect] w) as (w1 & E1 & C1 & F1).
  rewrite (bind_ok _ _ _ _ _ E1).
  destruct (choose_prompt_ok stream eff w1) as (w2 & E2 & C2 & F2).
  rewrite (bind_ok _ _ _ _ _ E2).
  rewrite (bind_ok _ _ _ _ _ (MCPTool_call_eq _ _ _ _)).
  set (w3 := World _ _ _).
  destruct (after_submit_quiet stream
              (Planner.tool_result E (calls w2)
                 (Call submit_prompt_update (UpdateArgs (prompt_for eff) ManualUpdate)))
              (fun url => [LCreatedPR url]) (fun err => [LErrCreatingPR err])
              (fun url => [LCreatedPR url]) (fun err => [LErrCreatingPR err]) w3)
    as [Hc Hf].
  cbv zeta; rewrite Hc, Hf; unfold w3; simpl. split; congruence.
Qed.

(** The branch [if should_create_pr:] invokes the mutating tool, once. *)
Lemma create_pr_calls E A stream eff zs avg results w :
  let w' := snd (Planner.create_pr E A stream eff zs avg results w) in
  calls w' = calls w ++
    [Call submit_prompt_update
          (UpdateArgs (prompt_for eff) (AutomatedUpdate avg (Planner.below3 zs)))]
  /\ files w' = files w.
Proof.
  unfold Planner.create_pr.
  destruct (when_print_ok (Planner.debug A) [LBlank; LDbgLow avg] w) as (w1 & E1 & C1 & F1).
  rewrite (bind_ok _ _ _ _ _ E1).
  destruct (when_print_ok stream [LBlank; LCreatingPR avg] w1) as (w2 & E2 & C2 & F2).
  rewrite (bind_ok _ _ _ _ _ E2).
  destruct (choose_prompt_ok stream eff w2) as (w3 & E3 & C3 & F3).
  rewrite (bind_ok _ _ _ _ _ E3).
  rewrite (bind_ok _ _ _ _ _ (MCPTool_call_eq _ _ _ _)).
  set (w4 := World _ _ _).
  destruct (after_submit_quiet stream
              (Planner.tool_result E (calls w3)
                 (Call submit_prompt_update
                    (UpdateArgs (prompt_for eff) (AutomatedUpdate avg (Planner.below3 zs)))))
              (fun url => [LBlank; LCreatedPR url]) (fun err => [LBlank; LErrCreatingPR err])
              (fun url => results ++ [LBlank; LCreatedPR url])
              (fun err => results ++ [LBlank; LErrCreatingPR err]) w4)
    as [Hc Hf].
  cbv zeta; rewrite Hc, Hf; unfold w4; simpl. split; congruence.
Qed.

Lemma show_scores_ok stream evaluations : forall results w,
  comments_sliceable evaluations ->
  exists r w', Planner.show_scores stream evaluations results w = (Ok r, w')
               /\ calls w' = calls w /\ files w' = files w.
Proof.
  induction evaluations as [|ev rest IH]; intros results w Hs; simpl.
  - eauto.
  - inversion Hs as [|? ? (c & Hc) Hrest]; subst.
    rewrite Hc; unfold lift at 1.
    rewrite (bind_ok _ _ _ _ _ eq_refl).
    destruct (when_print_ok stream
                [LBlank; LScoreLine (Planner.ev_id ev) (Planner.ev_score ev);
                 LCommentLine c] w) as (w1 & E1 & C1 & F1).
    rewrite (bind_ok _ _ _ _ _ E1).
    destruct (IH (results ++ [LBlank; LScoreLine (Planner.ev_id ev) (Planner.ev_score ev);
                              LCommentLine c]) w1 Hrest)
      as (r & w2 & E2 & C2 & F2).
    exists r, w2; repeat split; congruence.
Qed.

(** With scores at hand and the decision taken, the block [if scores:]
    invokes the mutating tool itself. *)
Lemma report_and_decide_submits E A stream eff goal_lower scores evaluations results w zs :
  scores <> [] -> Py.numbers scores = Ok zs ->
  comments_sliceable evaluations ->
  Planner.should_create_pr goal_lower zs (Py.mean zs) = true ->
  let w' := snd (Planner.report_and_decide E A stream eff goal_lower scores
                                           evaluations results w) in
  calls w' = calls w ++
    [Call submit_prompt_update
          (UpdateArgs (prompt_for eff)
                      (AutomatedUpdate (Py.mean zs) (Planner.below3 zs)))]
  /\ files w' = files w.
Proof.
  intros Hne Hnum Hsl Hshould.
  unfold Planner.report_and_decide.
  destruct scores as [|s0 scores]; [congruence|].
  rewrite Hnum.
  rewrite (bind_ok (lift (Ok zs)) _ w zs w eq_refl).
  destruct (when_print_ok stream [LBlank; LEvalHeader; LAverage (Py.mean zs)] w)
    as (w1 & E1 & C1 & F1).
  rewrite (bind_ok _ _ _ _ _ E1).
  destruct (show_scores_ok stream evaluations
              (results ++ [LBlank; LEvalHeader; LAverage (Py.mean zs)]) w1 Hsl)
    as (r & w2 & E2 & C2 & F2).
  rewrite (bind_ok _ _ _ _ _ E2).
  match goal with |- context [when ?b (print ?l)] =>
    destruct (when_print_ok b l w2) as (w3 & E3 & C3 & F3)
  end.
  rewrite (bind_ok _ _ _ _ _ E3), Hshould.
  destruct (create_pr_calls E A stream eff zs (Py.mean zs) r w3) as [Hc Hf].
  cbv zeta; rewrite Hc, Hf; split; congruence.
Qed.

Lemma returns_bind {A B} (m : M A) (f : A -> M B) P :
  (forall a, returns P (f a)) -> returns P (bind m f).
Proof.
  intros Hf w; unfold bind.
  destruct (m w) as [[a|e] w']; simpl; [apply Hf | exact I].
Qed.

Lemma returns_ret {A} (a : A) (P : A -> Prop) : P a -> returns P (ret a).
Proof. intros H w; exact H. Qed.

Lemma direct_pr_text E stream eff :
  returns (fun text => (exists url, text = [LCreatedPR url])
                       \/ (exists err, text = [LErrCreatingPR err]))
          (Planner.direct_pr E stream eff).
Proof.
  unfold Planner.direct_pr.
  repeat (apply returns_bind; intros).
  destruct (Py.truthy _);
    repeat (apply returns_bind; intros); apply returns_ret; eauto.
Qed.

(** A direct-PR goal: the run is the direct branch. *)
Lemma execute_goal_direct E A goal stream override w :
  Planner.is_direct_pr (Str.lower goal) = true ->
  let r := Planner.execute_goal E A goal stream override w in
  calls (snd r) = calls w ++
    [Call submit_prompt_update
          (UpdateArgs (prompt_for (Planner.effective_custom_prompt A override))
                      ManualUpdate)]
  /\ ((exists url, fst r = [LCreatedPR url])
      \/ (exists err, fst r = [LErrCreatingPR err])
      \/ (exists e, fst r = [LErrExecuting e])).
Proof.
  intros Hd; unfold Planner.execute_goal, Planner.run; rewrite Hd.
  set (w0 := Planner.announce A goal w).
  assert (calls w0 = calls w) as E0
      by (unfold w0, Planner.announce; destruct (Planner.debug A); reflexivity).
  pose proof (direct_pr_calls E stream (Planner.effective_custom_prompt A override) w0)
    as [Hc _].
  pose proof (direct_pr_text E stream (Planner.effective_custom_prompt A override) w0)
    as Ht.
  destruct (Planner.direct_pr E stream (Planner.effective_custom_prompt A override) w0)
    as [[text|e] w1]; simpl in *.
  - split; [congruence|]. destruct Ht as [H|H]; auto.
  - split; [destruct (Planner.debug A); simpl; congruence | eauto].
Qed.

(** ** The hybrid workflow *)

Lemma invoke_update_waits H params :
  exists st, Hybrid.invoke H "update_workflow" params
             = Hybrid.WaitingApproval (Some (Hybrid.new_approval_id H)) st.
Proof. unfold Hybrid.invoke; simpl; eauto. Qed.

Lemma invoke_review_waits H params :
  Hybrid.check_update_needed
    (Hybrid.evaluate_responses H
       (Hybrid.with_conversations params (Hybrid.query_conversations H params)))
  = Hybrid.needs_update ->
  exists st, Hybrid.invoke H "review_workflow" params
             = Hybrid.WaitingApproval (Some (Hybrid.new_approval_id H)) st.
Proof. unfold Hybrid.invoke; simpl; intros ->; eauto. Qed.

(** ** C1 *)

(** C1, as the code has it.  When [PlannerAgent.execute_goal] decides that a
    mutation is required, it invokes [submit_prompt_update] itself, once and
    in that same run: for a direct-PR goal the run's only call is that one
    and the text returned is the pull-request line (or an error line); in
    the block [if scores:], once the decision is taken, the call is made
    with the automated reason.  No run touches the approval store, so no
    approval request is created.  Only the workflows of the hybrid example
    stop with a waiting status and a request identifier. *)
Theorem C1_mutation_is_invoked_in_the_run :
  (forall E A goal stream override w,
      Planner.is_direct_pr (Str.lower goal) = true ->
      let r := Planner.execute_goal E A goal stream override w in
      calls (snd r) = calls w ++
        [Call submit_prompt_update
              (UpdateArgs (prompt_for (Planner.effective_custom_prompt A override))
                          ManualUpdate)]
      /\ ((exists url, fst r = [LCreatedPR url])
          \/ (exists err, fst r = [LErrCreatingPR err])
          \/ (exists e, fst r = [LErrExecuting e])))
  /\
  (forall E A stream eff goal_lower scores evaluations results w zs,
      scores <> [] -> Py.numbers scores = Ok zs ->
      comments_sliceable evaluations ->
      Planner.should_create_pr goal_lower zs (Py.mean zs) = true ->
      let w' := snd (Planner.report_and_decide E A stream eff goal_lower scores
                                               evaluations results w) in
      calls w' = calls w ++
        [Call submit_prompt_update
              (UpdateArgs (prompt_for eff)
                          (AutomatedUpdate (Py.mean zs) (Planner.below3 zs)))])
  /\
  (forall E A goal stream override w,
      files (snd (Planner.execute_goal E A goal stream override w)) = files w)
  /\
  (forall H params,
      (exists st, Hybrid.invoke H "update_workflow" params
                  = Hybrid.WaitingApproval (Some (Hybrid.new_approval_id H)) st)
      /\
      (Hybrid.check_update_needed
         (Hybrid.evaluate_responses H
            (Hybrid.with_conversations params (Hybrid.query_conversations H params)))
       = Hybrid.needs_update ->
       exists st, Hybrid.invoke H "review_workflow" params
                  = Hybrid.WaitingApproval (Some (Hybrid.new_approval_id H)) st)).
Proof.
  split; [|split; [|split]].
  - intros; now apply execute_goal_direct.
  - intros E A stream eff gl scores evs results w zs H1 H2 H3 H4.
    now destruct (report_and_decide_submits E A stream eff gl scores evs results w zs
                    H1 H2 H3 H4).
  - intros; apply execute_goal_files.
  - intros; split; [apply invoke_update_waits | apply invoke_review_waits].
Qed.

Lemma C1_witness :
  (let r := Planner.execute_goal (Sample.remote []) Sample.agent0
              "Create PR for the prompt" false None Sample.fresh in
   calls (snd r) =
     [Call submit_prompt_update (UpdateArgs Planner.default_prompt ManualUpdate)]
   /\ ((exists url, fst r = [LCreatedPR url])
       \/ (exists err, fst r = [LErrCreatingPR err])
       \/ (exists e, fst r = [LErrExecuting e])))
  /\
  calls (snd (Planner.report_and_decide (Sample.remote []) Sample.agent0 false None
                "review 2 chats" [JInt 2; JInt 3] [] [] Sample.fresh))
  = [Call submit_prompt_update
          (UpdateArgs Planner.default_prompt (AutomatedUpdate (Py.mean [2; 3]) 1))]
  /\
  exists st, Hybrid.invoke (Sample.henv 0) "review_workflow"
               (Hybrid.set_update_required true Hybrid.empty_state)
             = Hybrid.WaitingApproval (Some "req_1700000000_ab12cd") st.
Proof.
  destruct C1_mutation_is_invoked_in_the_run as (Hdirect & Hdecide & _ & Hhybrid).
  split; [|split].
  - apply (Hdirect (Sample.remote []) Sample.agent0 "Create PR for the prompt"
                   false None Sample.fresh).
    reflexivity.
  - apply (Hdecide (Sample.remote []) Sample.agent0 false None "review 2 chats"
                   [JInt 2; JInt 3] [] [] Sample.fresh [2; 3]).
    + discriminate.
    + reflexivity.
    + constructor.
    + reflexivity.
  - apply (proj2 (Hhybrid (Sample.henv 0)
                          (Hybrid.set_update_required true Hybrid.empty_state))).
    reflexivity.
Defined.

(** C1 fails as stated: for a direct-update goal the run invokes
    [submit_prompt_update] at once, returns the pull-request line and leaves
    the approval store empty; and when the evaluation of a review goal finds
    low scores, the same run ends with the pull request created. *)
Lemma C1_counterexample :
  (let goal := "Create PR for the prompt" in
   fst (Hybrid._classify_intent (Str.lower goal)) = Hybrid.direct_update /\
   Planner.is_direct_pr (Str.lower goal) = true /\
   let r := Planner.execute_goal (Sample.remote []) Sample.agent0 goal
                                 false None Sample.fresh in
   count_submit (calls (snd r)) = 1%nat /\
   fst r = [LCreatedPR (JStr "https://github.com/owner/repo/pull/1")] /\
   files (snd r) = ∅)
  /\
  (let r := Planner.execute_goal (Sample.steady 5 2) Sample.agent0
              "Review the last 5 conversations" false None Sample.fresh in
   count_submit (calls (snd r)) = 1%nat /\
   last (fst r) = Some (LCreatedPR (JStr "https://github.com/owner/repo/pull/1")) /\
   files (snd r) = ∅).
Proof. repeat split. Qed.

(** ** The approval store *)

Section StoreFacts.
Import ApprovalStore.

Lemma has_status_true s d :
  has_status s d = true <-> d !! "status" = Some (JStr s).
Proof.
  unfold has_status; destruct (d !! "status") as [v|]; [|split; discriminate].
  destruct v; simpl; try (split; discriminate).
  rewrite String.eqb_eq; split; [now intros -> | now inversion 1].
Qed.

Lemma update_request_found id status notes now fs d :
  fs !! id = Some d ->
  exists d', update_request id status notes now fs = (true, <[id := d']> fs)
             /\ d' !! "status" = Some (JStr status).
Proof.
  intros Hd; unfold update_request; rewrite Hd.
  eexists; split; [reflexivity|].
  destruct (Py.truthy_str notes); now simplify_map_eq.
Qed.

Lemma mark_as_processed_found id now fs d :
  fs !! id = Some d ->
  exists d', mark_as_processed id now fs = (true, <[id := d']> fs)
             /\ d' !! "status" = d !! "status"
             /\ d' !! "processed" = Some (JBool true).
Proof.
  intros Hd; unfold mark_as_processed; rewrite Hd.
  eexists; split; [reflexivity|]; split; now simplify_map_eq.
Qed.

(** A decision on a request that is not pending is refused. *)
Lemma decide_request_refuses decision id notes now fs d :
  fs !! id = Some d -> has_status "pending" d = false ->
  decide_request decision id notes now fs = (false, fs).
Proof.
  intros Hd Hs; unfold decide_request, get_request; rewrite Hd, Hs; simpl.
  now destruct (size d =? 0)%nat.
Qed.

(** What a decision does to the stored statuses. *)
Lemma decide_request_status decision id' notes now fs id :
  status_of id (snd (decide_request decision id' notes now fs)) = status_of id fs
  \/ (id = id' /\ status_of id fs = Some (JStr "pending")
      /\ status_of id (snd (decide_request decision id' notes now fs))
         = Some (JStr decision)).
Proof.
  unfold decide_request, get_request.
  destruct (fs !! id') as [d|] eqn:Hd; [|now left].
  destruct (size d =? 0)%nat; [now left|].
  destruct (has_status "pending" d) eqn:Hs; simpl; [|now left].
  destruct (update_request_found id' decision notes now fs d Hd) as (d' & -> & Hd').
  simpl; unfold status_of.
  destruct (decide (id = id')) as [->|Hne].
  - right; rewrite lookup_insert_eq, Hd; repeat split; auto.
    now apply has_status_true.
  - left; now rewrite lookup_insert_ne by congruence.
Qed.

Lemma mark_as_processed_status id' now fs id :
  status_of id (snd (mark_as_processed id' now fs)) = status_of id fs.
Proof.
  unfold mark_as_processed.
  destruct (fs !! id') as [d|] eqn:Hd; [|reflexivity]; simpl.
  unfold status_of.
  destruct (decide (id = id')) as [->|Hne].
  - rewrite lookup_insert_eq, Hd; now simplify_map_eq.
  - now rewrite lookup_insert_ne by congruence.
Qed.

(** One operation changes a status only from pending, and only to approved
    or rejected. *)
Lemma step_status o fs id :
  status_of id (step o fs) = status_of id fs
  \/ (status_of id fs = Some (JStr "pending")
      /\ (status_of id (step o fs) = Some (JStr "approved")
          \/ status_of id (step o fs) = Some (JStr "rejected"))).
Proof.
  destruct o as [id' notes now|id' notes now|id' now]; simpl.
  - destruct (decide_request_status "approved" id' notes now fs id)
      as [H|(_ & H1 & H2)]; auto.
  - destruct (decide_request_status "rejected" id' notes now fs id)
      as [H|(_ & H1 & H2)]; auto.
  - left; apply mark_as_processed_status.
Qed.

(** Once a request has left pending, no sequence of operations changes its
    status. *)
Lemma steps_status_final os : forall fs id v,
  status_of id fs = Some v -> v <> JStr "pending" ->
  status_of id (steps os fs) = Some v.
Proof.
  induction os as [|o os IH]; intros fs id v Hv Hne; simpl; [assumption|].
  apply IH; [|assumption].
  destruct (step_status o fs id) as [H|[H _]]; congruence.
Qed.
End StoreFacts.

(** ** C2 *)

(** C2, as the code has it.  The check of the current status is in the
    command line tool: for a stored request whose status is not pending,
    [approve_request] and [reject_request] return [False] and leave the store
    as it is.  Under the operations on stored requests (approve, reject,
    mark as processed) a status changes only from pending, only to approved
    or rejected, and never again once it has left pending.
    ([ApprovalStore.update_request] itself checks nothing.) *)
Theorem C2_decisions_leave_pending_once :
  (forall fs id d notes now,
      fs !! id = Some d -> ApprovalStore.has_status "pending" d = false ->
      ApprovalStore.approve_request id notes now fs = (false, fs) /\
      ApprovalStore.reject_request id notes now fs = (false, fs))
  /\
  (forall o fs id,
      ApprovalStore.status_of id (ApprovalStore.step o fs)
      <> ApprovalStore.status_of id fs ->
      ApprovalStore.status_of id fs = Some (JStr "pending") /\
      (ApprovalStore.status_of id (ApprovalStore.step o fs) = Some (JStr "approved")
       \/ ApprovalStore.status_of id (ApprovalStore.step o fs) = Some (JStr "rejected")))
  /\
  (forall os fs id v,
      ApprovalStore.status_of id fs = Some v -> v <> JStr "pending" ->
      ApprovalStore.status_of id (ApprovalStore.steps os fs) = Some v).
Proof.
  split; [|split].
  - intros fs id d notes now Hd Hs; split;
      eapply decide_request_refuses; eauto.
  - intros o fs id Hne.
    destruct (step_status o fs id) as [H|H]; [congruence|exact H].
  - intros; now apply steps_status_final.
Qed.

Lemma C2_witness :
  (ApprovalStore.approve_request "req_1" (Some "late") "2024-01-02T00:00:00"
     (Sample.store_with "rejected") = (false, Sample.store_with "rejected") /\
   ApprovalStore.reject_request "req_1" (Some "late") "2024-01-02T00:00:00"
     (Sample.store_with "rejected") = (false, Sample.store_with "rejected"))
  /\
  (ApprovalStore.status_of "req_1" (Sample.store_with "pending")
   = Some (JStr "pending") /\
   (ApprovalStore.status_of "req_1"
      (ApprovalStore.step (ApprovalStore.Approve "req_1" None "2024-01-02T00:00:00")
                          (Sample.store_with "pending")) = Some (JStr "approved")
    \/ ApprovalStore.status_of "req_1"
      (ApprovalStore.step (ApprovalStore.Approve "req_1" None "2024-01-02T00:00:00")
                          (Sample.store_with "pending")) = Some (JStr "rejected")))
  /\
  ApprovalStore.status_of "req_1"
    (ApprovalStore.steps
       [ApprovalStore.Reject "req_1" None "2024-01-02T00:00:00";
        ApprovalStore.MarkProcessed "req_1" "2024-01-03T00:00:00";
        ApprovalStore.Approve "req_1" None "2024-01-04T00:00:00"]
       (Sample.store_with "approved"))
  = Some (JStr "approved").
Proof.
  destruct C2_decisions_leave_pending_once as (Hrefuse & Hstep & Hfinal).
  split; [|split].
  - apply (Hrefuse (Sample.store_with "rejected") "req_1"
                   (<["status" := JStr "rejected"]>
                      (<["id" := JStr "req_1"]>
                         (<["action" := JStr "submit_prompt_update"]> ∅)))).
    + reflexivity.
    + reflexivity.
  - apply Hstep.
    intros H; vm_compute in H; discriminate.
  - apply Hfinal.
    + reflexivity.
    + discriminate.
Defined.

(** C2 fails as stated: [update_request] on a request that is already
    approved succeeds and overwrites the status. *)
Lemma C2_counterexample :
  ApprovalStore.status_of "req_1" (Sample.store_with "approved")
  = Some (JStr "approved") /\
  let r := ApprovalStore.update_request "req_1" "rejected" None
             "2024-01-02T00:00:00" (Sample.store_with "approved") in
  fst r = true /\
  ApprovalStore.status_of "req_1" (snd r) = Some (JStr "rejected").
Proof. repeat split. Qed.

(** ** C3 *)

(** C3, as the code has it.  [mark_as_processed] checks neither the status
    nor the flag: for every stored request, whatever its status and whether
    or not it was processed before, the call returns [True], sets
    [processed] and leaves the status alone, and a second call returns
    [True] again; it returns [False] only for a request that is not
    stored.  A request that was marked is no longer among
    [get_approved_requests]. *)
Theorem C3_mark_as_processed_always_succeeds :
  (forall fs id d now,
      fs !! id = Some d ->
      exists fs' d',
        ApprovalStore.mark_as_processed id now fs = (true, fs') /\
        fs' !! id = Some d' /\
        ApprovalStore.is_processed d' = true /\
        d' !! "status" = d !! "status" /\
        (d' ∉ ApprovalStore.get_approved_requests fs') /\
        forall now', fst (ApprovalStore.mark_as_processed id now' fs') = true)
  /\
  (forall fs id now,
      fs !! id = None -> ApprovalStore.mark_as_processed id now fs = (false, fs)).
Proof.
  split.
  - intros fs id d now Hd.
    destruct (mark_as_processed_found id now fs d Hd) as (d' & E & Hs & Hp).
    exists (<[id := d']> fs), d'.
    assert (ApprovalStore.is_processed d' = true) as Hproc
        by (unfold ApprovalStore.is_processed; now rewrite Hp).
    repeat split; auto.
    + now rewrite lookup_insert_eq.
    + unfold ApprovalStore.get_approved_requests.
      intros Hin; apply list_elem_of_filter in Hin as [Hin _].
      rewrite Hproc in Hin; simpl in Hin.
      rewrite andb_false_r in Hin; exact Hin.
    + intros now'.
      destruct (mark_as_processed_found id now' (<[id := d']> fs) d')
        as (d'' & E' & _); [now rewrite lookup_insert_eq|].
      now rewrite E'.
  - intros fs id now Hd; unfold ApprovalStore.mark_as_processed; now rewrite Hd.
Qed.

Lemma C3_witness :
  (exists fs' d',
      ApprovalStore.mark_as_processed "req_1" "2024-01-03T00:00:00"
        (Sample.store_with "pending") = (true, fs') /\
      fs' !! "req_1" = Some d' /\
      ApprovalStore.is_processed d' = true /\
      d' !! "status" = Some (JStr "pending") /\
      (d' ∉ ApprovalStore.get_approved_requests fs') /\
      forall now', fst (ApprovalStore.mark_as_processed "req_1" now' fs') = true)
  /\
  ApprovalStore.mark_as_processed "req_2" "2024-01-03T00:00:00"
    (Sample.store_with "pending") = (false, Sample.store_with "pending").
Proof.
  destruct C3_mark_as_processed_always_succeeds as (Hfound & Hmissing).
  split.
  - exact (Hfound (Sample.store_with "pending") "req_1"
                  (<["status" := JStr "pending"]>
                     (<["id" := JStr "req_1"]>
                        (<["action" := JStr "submit_prompt_update"]> ∅)))
                  "2024-01-03T00:00:00" eq_refl).
  - apply Hmissing; reflexivity.
Defined.

(** C3 fails as stated: on an approved request the second
    [mark_as_processed] returns [True] as the first did, and on a pending
    request the call returns [True] as well. *)
Lemma C3_counterexample :
  let first := ApprovalStore.mark_as_processed "req_1" "2024-01-03T00:00:00"
                 (Sample.store_with "approved") in
  fst first = true /\
  fst (ApprovalStore.mark_as_processed "req_1" "2024-01-04T00:00:00" (snd first))
  = true /\
  fst (ApprovalStore.mark_as_processed "req_1" "2024-01-03T00:00:00"
         (Sample.store_with "pending")) = true.
Proof. repeat split. Qed.

(** ** The decision *)

Lemma Qltb_lt x y : Py.Qltb x y = true <-> (x < y)%Q.
Proof.
  unfold Py.Qltb; rewrite negb_true_iff; split.
  - intros H; apply Qnot_le_lt; intros Hle.
    apply Qle_bool_iff in Hle; congruence.
  - intros H; destruct (Qle_bool y x) eqn:E; [|reflexivity].
    apply Qle_bool_iff in E; exfalso; exact (Qlt_not_le _ _ H E).
Qed.

Lemma Qltb_ge x y : Py.Qltb x y = false <-> (y <= x)%Q.
Proof.
  unfold Py.Qltb; rewrite negb_false_iff; apply Qle_bool_iff.
Qed.


(** ** C6 *)




(** ** Runs in which every evaluation has the same score *)

Lemma returns_lift_bind {A B} (o : outcome A) (f : A -> M B) P :
  (forall a, o = Ok a -> returns P (f a)) -> returns P (bind (lift o) f).
Proof.
  intros Hf w; unfold bind, lift.
  destruct o as [a|e]; simpl; [now apply Hf | exact I].
Qed.

Lemma returns_call_bind {B} E t a (f : json -> M B) P :
  (forall history, returns P (f (Planner.tool_result E history (Call t a)))) ->
  returns P (bind (Planner.MCPTool_call E t a) f).
Proof. intros Hf w; unfold bind; simpl; apply Hf. Qed.

Lemma preserves_bind_returns {A B} R (m : M A) (f : A -> M B) (P : A -> Prop) :
  (forall w1 w2 w3, R w1 w2 -> R w2 w3 -> R w1 w3) ->
  preserves R m -> returns P m ->
  (forall a, P a -> preserves R (f a)) -> preserves R (bind m f).
Proof.
  intros Rt Hm HP Hf w; unfold bind.
  specialize (Hm w); specialize (HP w).
  destruct (m w) as [[a|e] w']; simpl in *.
  - eapply Rt; [exact Hm | now apply Hf].
  - exact Hm.
Qed.

(** When every successful evaluation scores [z], the scores that the loop
    collects are copies of [z]. *)
Lemma evaluate_all_scores E A stream total z convs :
  evaluations_score E z ->
  forall i scores evaluations,
    returns (fun se => exists k, fst se = scores ++ repeat (JInt z) k)
            (Planner.evaluate_all E A stream total i convs scores evaluations).
Proof.
  intros Hz; induction convs as [|conv rest IH]; intros i scores evaluations; simpl.
  - apply returns_ret; exists 0%nat; simpl; now rewrite app_nil_r.
  - apply returns_bind; intros _.
    apply returns_bind; intros _.
    apply returns_bind; intros question.
    apply returns_bind; intros answer.
    apply returns_call_bind; intros history.
    apply returns_lift_bind; intros ok Hok.
    destruct (Py.truthy ok) eqn:Ht.
    + rewrite (Hz history question answer ok Hok Ht).
      apply returns_lift_bind; intros score Hscore; inversion Hscore; subst score.
      apply returns_lift_bind; intros comment _.
      apply returns_lift_bind; intros id _.
      apply returns_bind; intros _.
      apply returns_bind; intros _.
      intros w.
      specialize (IH (S i) (scores ++ [JInt z])
                     (evaluations ++ [Planner.Evaluation id (JInt z) comment]) w).
      destruct (fst _) as [se|]; [|exact I].
      destruct IH as (k & ->); exists (S k); simpl.
      now rewrite <- app_assoc.
    + apply IH.
Qed.

Lemma numbers_repeat z k : Py.numbers (repeat (JInt z) k) = Ok (repeat z k).
Proof. induction k as [|k IH]; simpl; [reflexivity | now rewrite IH]. Qed.

Lemma sum_repeat z k : Py.sum (repeat z k) = z * Z.of_nat k.
Proof.
  induction k as [|k IH]; [simpl; lia|].
  change (Py.sum (repeat z (S k))) with (z + Py.sum (repeat z k)).
  rewrite IH; lia.
Qed.

(** The mean of [k+1] copies of [z] is [z]. *)
Lemma mean_repeat z k : (Py.mean (repeat z (S k)) == inject_Z z)%Q.
Proof.
  unfold Py.mean; rewrite sum_repeat, repeat_length.
  unfold Qeq, Qdiv, Qmult, Qinv, inject_Z; simpl.
  destruct (Z.of_nat (S k)) as [|p|p] eqn:E; simpl; lia.
Qed.

Lemma preserves_lift_ok {A B} R (a : A) (f : A -> M B) :
  preserves R (f a) -> preserves R (bind (lift (Ok a)) f).
Proof. intros H w; unfold bind, lift; simpl; apply H. Qed.

(** With copies of [z] as scores, a goal that names no threshold and asks
    for no update, and [z] at least 3.5, the block [if scores:] creates no
    pull request. *)
Lemma report_and_decide_good E A stream eff goal_lower z k evaluations results :
  Planner.custom_threshold goal_lower = None ->
  Str.contains "update prompt" goal_lower
  || Str.contains "create pr" goal_lower
  || Str.contains "pull request" goal_lower = false ->
  (7 # 2 <= inject_Z z)%Q ->
  preserves harmless_step
    (Planner.report_and_decide E A stream eff goal_lower (repeat (JInt z) k)
                               evaluations results).
Proof.
  intros Hct Hkw Hz; unfold Planner.report_and_decide.
  destruct k as [|k]; [simpl; preserve|].
  change (match repeat (JInt z) (S k) with [] => ?a | _ :: _ => ?b end) with b.
  rewrite numbers_repeat.
  apply preserves_lift_ok; cbv beta zeta.
  assert (Planner.should_create_pr goal_lower (repeat z (S k))
                                   (Py.mean (repeat z (S k))) = false) as ->.
  { unfold Planner.should_create_pr, Planner.default_trigger.
    rewrite Hct; simpl Planner.below_custom; cbv iota.
    apply orb_false_iff in Hkw as [Hkw H3].
    apply orb_false_iff in Hkw as [H1 H2].
    rewrite H1, H2, H3, !orb_false_r.
    apply Qltb_ge; now rewrite mean_repeat. }
  preserve.
Qed.

(** Scenario A for the planner: every evaluation scores 4. *)
Lemma execute_goal_all_four E A stream override w :
  evaluations_score E 4 ->
  harmless_step w
    (snd (Planner.execute_goal E A "Review the last 5 conversations"
                               stream override w)).
Proof.
  intros H4.
  assert (preserves harmless_step
            (Planner.run E A "Review the last 5 conversations" stream override))
    as Hrun.
  { unfold Planner.run.
    set (gl := Str.lower "Review the last 5 conversations").
    replace (Planner.is_direct_pr gl) with false by reflexivity.
    replace (Str.contains_any ["get"; "show"; "list"; "display"] gl)
      with false by reflexivity.
    replace (Str.contains "review" gl || Str.contains "evaluate" gl
             || Str.contains "check" gl) with true by reflexivity.
    unfold Planner.evaluate_step.
    repeat first
      [ apply MCPTool_call_harmless; discriminate
      | eapply (preserves_bind_returns harmless_step
                  (Planner.evaluate_all _ _ _ _ _ _ _ _));
        [ exact harmless_trans
        | apply evaluate_all_harmless
        | apply (evaluate_all_scores E A stream _ 4); exact H4
        | intros se (k & ->); apply report_and_decide_good;
          [reflexivity | reflexivity | discriminate] ]
      | preserve_step
      | preserve_case ]; eauto with preserve. }
  unfold Planner.execute_goal.
  set (w0 := Planner.announce A _ w).
  assert (harmless_step w w0) as H0
      by (unfold w0, Planner.announce; destruct (Planner.debug A); split; reflexivity).
  specialize (Hrun w0).
  destruct (Planner.run E A "Review the last 5 conversations" stream override w0)
    as [[text|e] w1]; simpl in *.
  - eapply harmless_trans; eauto.
  - destruct (Planner.debug A); simpl;
      (eapply harmless_trans; [exact H0|]);
      (eapply harmless_trans; [exact Hrun|]); split; reflexivity.
Qed.

(** ** C4 *)

Lemma classify_threshold_default goal_lower :
  Re.search_group1 Re.score_re goal_lower = None ->
  Hybrid.score_threshold (snd (Hybrid._classify_intent goal_lower)) = Some 3%Q.
Proof.
  intros H; unfold Hybrid._classify_intent; rewrite H.
  repeat match goal with |- context [if ?b then _ else _] => destruct b end;
    reflexivity.
Qed.

Lemma check_update_needed_iff st avg t :
  Hybrid.average_score st = Some avg -> Hybrid.score_threshold st = Some t ->
  Hybrid.check_update_needed st = Hybrid.needs_update
  <-> (avg < t)%Q \/ Hybrid.update_required st = Some true.
Proof.
  intros Ha Ht; unfold Hybrid.check_update_needed; rewrite Ha, Ht; simpl.
  destruct (Py.Qltb avg t) eqn:E; simpl.
  - split; [intros _; left; now apply Qltb_lt | reflexivity].
  - apply Qltb_ge in E.
    destruct (Hybrid.update_required st) as [[|]|]; simpl; split;
      try reflexivity; try discriminate; auto;
      intros [H|H]; try discriminate; exfalso; exact (Qlt_not_le _ _ H E).
Qed.

Lemma should_create_pr_default goal_lower zs avg :
  Planner.custom_threshold goal_lower = None ->
  Planner.should_create_pr goal_lower zs avg = true
  <-> (avg < 7 # 2)%Q
      \/ Str.contains "update prompt" goal_lower = true
      \/ Str.contains "create pr" goal_lower = true
      \/ Str.contains "pull request" goal_lower = true.
Proof.
  intros Hct; unfold Planner.should_create_pr, Planner.default_trigger.
  rewrite Hct; simpl Planner.below_custom; cbv iota.
  rewrite !orb_true_iff, Qltb_lt; tauto.
Qed.

(** Scenario A for the hybrid workflow: every simulated score is 4. *)
Lemma process_goal_all_four H :
  (forall id, Hybrid.hash H id mod 3 = 2) ->
  Hybrid.process_goal H Hybrid.demo_workflows "Review the last 5 conversations"
  = Hybrid.Completed.
Proof.
  intros Hh; unfold Hybrid.process_goal.
  replace (Hybrid._classify_intent (Str.lower "Review the last 5 conversations"))
    with (Hybrid.review_only,
          Hybrid.State (Some 5) (Some 3%Q) None None None None None None None None)
    by reflexivity.
  unfold Hybrid._orchestrate_workflow.
  replace (Hybrid.demo_workflows !! "review_workflow") with (Some "review_workflow")
    by reflexivity.
  unfold Hybrid.invoke, Hybrid.evaluate_responses, Hybrid.check_update_needed,
    Hybrid.query_conversations, Hybrid.evaluate_one, Hybrid.simulated_score; simpl.
  now rewrite !Hh.
Qed.

(** C4, as the code has it.  Without a threshold phrase in the goal, the
    hybrid classifier sets [score_threshold] to 3.0 and its decision node asks
    for an update exactly when the average is below 3.0 or an update is
    required; the planner has no such parameter: its aggregate trigger is the
    fixed comparison average < 3.5, next to the keywords "update prompt",
    "create pr" and "pull request".  For the goal "Review the last 5
    conversations" with every evaluation scoring 4, neither path mutates:
    the planner does not invoke [submit_prompt_update] and does not touch the
    approval store, and the hybrid workflow completes without an approval
    request. *)
Theorem C4_aggregate_thresholds :
  (forall goal_lower,
      Re.search_group1 Re.score_re goal_lower = None ->
      Hybrid.score_threshold (snd (Hybrid._classify_intent goal_lower)) = Some 3%Q)
  /\
  (forall st avg,
      Hybrid.average_score st = Some avg -> Hybrid.score_threshold st = Some 3%Q ->
      Hybrid.check_update_needed st = Hybrid.needs_update
      <-> (avg < 3)%Q \/ Hybrid.update_required st = Some true)
  /\
  (forall goal_lower zs avg,
      Planner.custom_threshold goal_lower = None ->
      Planner.should_create_pr goal_lower zs avg = true
      <-> (avg < 7 # 2)%Q
          \/ Str.contains "update prompt" goal_lower = true
          \/ Str.contains "create pr" goal_lower = true
          \/ Str.contains "pull request" goal_lower = true)
  /\
  (forall E A stream override w,
      evaluations_score E 4 ->
      let w' := snd (Planner.execute_goal E A "Review the last 5 conversations"
                                          stream override w) in
      count_submit (calls w') = count_submit (calls w) /\ files w' = files w)
  /\
  (forall H,
      (forall id, Hybrid.hash H id mod 3 = 2) ->
      Hybrid.process_goal H Hybrid.demo_workflows "Review the last 5 conversations"
      = Hybrid.Completed).
Proof.
  split; [|split; [|split; [|split]]].
  - exact classify_threshold_default.
  - intros st avg Ha Ht; now apply check_update_needed_iff.
  - exact should_create_pr_default.
  - intros E A stream override w H4; now apply execute_goal_all_four.
  - exact process_goal_all_four.
Qed.

Lemma C4_witness :
  Hybrid.score_threshold
    (snd (Hybrid._classify_intent "review the last 5 conversations")) = Some 3%Q
  /\
  (Hybrid.check_update_needed
     (Hybrid.State None (Some 3%Q) (Some false) None None (Some 4%Q)
                   None None None None) = Hybrid.needs_update
   <-> (4 < 3)%Q \/ Some false = Some true)
  /\
  (Planner.should_create_pr "review the last 5 conversations" [4; 4; 4; 4; 4] 4%Q
   = true
   <-> (4 < 7 # 2)%Q
       \/ Str.contains "update prompt" "review the last 5 conversations" = true
       \/ Str.contains "create pr" "review the last 5 conversations" = true
       \/ Str.contains "pull request" "review the last 5 conversations" = true)
  /\
  (let w' := snd (Planner.execute_goal (Sample.steady 5 4) Sample.agent0
                    "Review the last 5 conversations" false None Sample.fresh) in
   count_submit (calls w') = count_submit (calls Sample.fresh)
   /\ files w' = files Sample.fresh)
  /\
  Hybrid.process_goal (Sample.henv 2) Hybrid.demo_workflows
    "Review the last 5 conversations" = Hybrid.Completed.
Proof.
  destruct C4_aggregate_thresholds as (H1 & H2 & H3 & H4 & H5).
  split; [|split; [|split; [|split]]].
  - apply H1; reflexivity.
  - apply (H2 (Hybrid.State None (Some 3%Q) (Some false) None None (Some 4%Q)
                            None None None None) 4%Q); reflexivity.
  - apply H3; reflexivity.
  - apply (H4 (Sample.steady 5 4) Sample.agent0 false None Sample.fresh).
    intros history question answer v r Hv Ht; reflexivity.
  - apply H5; reflexivity.
Defined.

(** C4 fails as stated: the goal names no threshold and every evaluation
    scores 3, so that the average, 3.0, is not below 3.0; the planner
    creates the pull request all the same, its threshold being 3.5. *)
Lemma C4_counterexample :
  let goal := "Review the last 5 conversations" in
  let scores := [3; 3; 3; 3; 3] in
  Re.search_group1 Re.score_re (Str.lower goal) = None /\
  Planner.custom_threshold (Str.lower goal) = None /\
  (Py.mean scores == 3)%Q /\
  ~ (Py.mean scores < 3)%Q /\
  let r := Planner.execute_goal (Sample.steady 5 3) Sample.agent0 goal
                                false None Sample.fresh in
  count_submit (calls (snd r)) = 1%nat /\
  last (fst r) = Some (LCreatedPR (JStr "https://github.com/owner/repo/pull/1")).
Proof.
  repeat split.
  intros H; vm_compute in H; discriminate.
Qed.

(** ** C5 *)

#[local] Arguments Planner.tool_result : simpl never.

(** A run whose query succeeds and returns no conversation: nothing is
    evaluated and nothing is decided. *)
Lemma execute_goal_no_conversations E A goal stream override w :
  Planner.is_direct_pr (Str.lower goal) = false ->
  let c := Call query_conversations (QueryArgs (Planner.limit_of (Str.lower goal))) in
  let r := Planner.tool_result E (calls w) c in
  (exists v, Py.get r "success" = Ok v /\ Py.truthy v = true) ->
  Py.get_default r "conversations" (JList []) = Ok (JList []) ->
  fst (Planner.execute_goal E A goal stream override w) = [LRetrieved 0] /\
  calls (snd (Planner.execute_goal E A goal stream override w)) = calls w ++ [c].
Proof.
  intros Hd c r (v & Hs & Ht) Hc.
  unfold Planner.execute_goal, Planner.announce, Planner.run,
    Planner.evaluate_step; rewrite Hd.
  subst c r.
  set (display := Str.contains_any _ _).
  set (review := _ || _ || _).
  set (limit := Planner.limit_of _) in *.
  destruct (Planner.debug A), stream, display, review;
    unfold bind, when, print, lift, ret, Planner.MCPTool_call; simpl;
    rewrite Hs; simpl; rewrite Ht; simpl; rewrite Hc; simpl;
    split; reflexivity.
Qed.

(** An average of 0 is below every positive threshold. *)
Lemma check_update_needed_zero st t :
  Hybrid.average_score st = Some 0%Q -> Hybrid.score_threshold st = Some t ->
  (0 < t)%Q -> Hybrid.check_update_needed st = Hybrid.needs_update.
Proof.
  intros Ha Ht Hpos.
  apply (check_update_needed_iff st 0%Q t Ha Ht); now left.
Qed.

(** The review workflow over no conversation asks for approval, whatever the
    intent. *)
Lemma invoke_review_empty H params t :
  Hybrid.conversation_count params = Some 0 ->
  Hybrid.score_threshold params = Some t -> (0 < t)%Q ->
  exists st, Hybrid.invoke H "review_workflow" params
             = Hybrid.WaitingApproval (Some (Hybrid.new_approval_id H)) st.
Proof.
  intros Hc Ht Hpos; apply invoke_review_waits.
  apply (check_update_needed_zero _ t); [|exact Ht|exact Hpos].
  unfold Hybrid.evaluate_responses, Hybrid.with_conversations,
    Hybrid.query_conversations; rewrite Hc; reflexivity.
Qed.

(** C5, as the code has it.  For a non-empty list of scores both the planner
    and the hybrid workflow compute sum/len.  The hybrid workflow defines the
    average of no score as 0, which is below every positive threshold, so
    that its decision node asks for an update whatever the intent, a pure
    review included.  The planner guards the whole decision by [if scores:]:
    without a score no average is computed and nothing is decided, so that a
    run whose query returns no conversation ends after the line that counts
    them, with the query as its only call. *)
Theorem C5_average_and_no_scores :
  (forall zs, zs <> [] ->
      Py.mean zs = (inject_Z (Py.sum zs) / inject_Z (Z.of_nat (length zs)))%Q /\
      Hybrid.average zs = (inject_Z (Py.sum zs) / inject_Z (Z.of_nat (length zs)))%Q)
  /\
  Hybrid.average [] = 0%Q
  /\
  (forall H params t,
      Hybrid.conversation_count params = Some 0 ->
      Hybrid.score_threshold params = Some t -> (0 < t)%Q ->
      exists st, Hybrid.invoke H "review_workflow" params
                 = Hybrid.WaitingApproval (Some (Hybrid.new_approval_id H)) st)
  /\
  (forall E A stream eff goal_lower evaluations results w,
      Planner.report_and_decide E A stream eff goal_lower [] evaluations results w
      = (Ok results, w))
  /\
  (forall E A goal stream override w,
      Planner.is_direct_pr (Str.lower goal) = false ->
      let c := Call query_conversations
                    (QueryArgs (Planner.limit_of (Str.lower goal))) in
      let r := Planner.tool_result E (calls w) c in
      (exists v, Py.get r "success" = Ok v /\ Py.truthy v = true) ->
      Py.get_default r "conversations" (JList []) = Ok (JList []) ->
      fst (Planner.execute_goal E A goal stream override w) = [LRetrieved 0] /\
      calls (snd (Planner.execute_goal E A goal stream override w))
      = calls w ++ [c]).
Proof.
  split; [|split; [|split; [|split]]].
  - intros zs Hne; split; [reflexivity|].
    destruct zs; [congruence | reflexivity].
  - reflexivity.
  - exact invoke_review_empty.
  - reflexivity.
  - exact execute_goal_no_conversations.
Qed.

Lemma C5_witness :
  let zs := [2; 3; 4] in
  (Py.mean zs = (inject_Z (Py.sum zs) / inject_Z (Z.of_nat (length zs)))%Q /\
   Hybrid.average zs = (inject_Z (Py.sum zs) / inject_Z (Z.of_nat (length zs)))%Q)
  /\
  (exists st, Hybrid.invoke (Sample.henv 2) "review_workflow"
                (Hybrid.State (Some 0) (Some 3%Q) (Some false) None None None
                              None None None None)
              = Hybrid.WaitingApproval (Some "req_1700000000_ab12cd") st)
  /\
  (fst (Planner.execute_goal (Sample.steady 0 4) Sample.agent0
          "Review 5 chats and update prompt" false None Sample.fresh)
   = [LRetrieved 0] /\
   calls (snd (Planner.execute_goal (Sample.steady 0 4) Sample.agent0
                 "Review 5 chats and update prompt" false None Sample.fresh))
   = [Call query_conversations (QueryArgs 5)]).
Proof.
  destruct C5_average_and_no_scores as (Hmean & _ & Hhybrid & _ & Hrun).
  intros zs; split; [|split].
  - apply (Hmean [2; 3; 4]); discriminate.
  - apply (Hhybrid (Sample.henv 2)
             (Hybrid.State (Some 0) (Some 3%Q) (Some false) None None None
                           None None None None) 3%Q); reflexivity.
  - apply (Hrun (Sample.steady 0 4) Sample.agent0
                "Review 5 chats and update prompt" false None Sample.fresh).
    + reflexivity.
    + exists (JBool true); split; reflexivity.
    + reflexivity.
Defined.

(** C5 fails as stated: the goal asks for a review and an update (it is not
    a pure read), the query returns no conversation, and the planner creates
    no pull request. *)
Lemma C5_counterexample :
  let goal := "Review 5 chats and update prompt" in
  fst (Hybrid._classify_intent (Str.lower goal)) = Hybrid.review_and_update /\
  Planner.is_direct_pr (Str.lower goal) = false /\
  let r := Planner.execute_goal (Sample.steady 0 4) Sample.agent0 goal
                                false None Sample.fresh in
  fst r = [LRetrieved 0] /\ count_submit (calls (snd r)) = 0%nat.
Proof. repeat split. Qed.

(** ** C9 *)

(** C9.  In a run that queries the conversations (the goal is not a direct
    pull-request goal), when the query tool returns a result whose
    ["success"] is false, [execute_goal] ends at once: the text returned is
    the line "Error fetching conversations" with the error of the result,
    the query is the only tool call of the run, so that nothing is evaluated
    and nothing is submitted, and the approval store is left as it was. *)
Theorem C9_query_failure_ends_the_run E A goal stream override w v :
  Planner.is_direct_pr (Str.lower goal) = false ->
  let c := Call query_conversations (QueryArgs (Planner.limit_of (Str.lower goal))) in
  let r := Planner.tool_result E (calls w) c in
  Py.get r "success" = Ok v -> Py.truthy v = false ->
  let res := Planner.execute_goal E A goal stream override w in
  (exists err, Py.get r "error" = Ok err /\ fst res = [LErrFetching err]) /\
  calls (snd res) = calls w ++ [c] /\
  files (snd res) = files w.
Proof.
  intros Hd c r Hs Ht res.
  split; [|split; [|apply execute_goal_files]].
  - assert (exists err, Py.get r "error" = Ok err) as (err & He).
    { unfold Py.get, Py.get_default in *. destruct r; try discriminate; eauto. }
    exists err; split; [exact He|].
    subst res c r.
    unfold Planner.execute_goal, Planner.announce, Planner.run; rewrite Hd.
    set (limit := Planner.limit_of _) in *.
    destruct (Planner.debug A), stream;
      unfold bind, when, print, lift, ret, Planner.MCPTool_call; simpl;
      rewrite Hs; simpl; rewrite Ht; simpl; rewrite He; reflexivity.
  - assert (exists err, Py.get r "error" = Ok err) as (err & He).
    { unfold Py.get, Py.get_default in *. destruct r; try discriminate; eauto. }
    subst res c r.
    unfold Planner.execute_goal, Planner.announce, Planner.run; rewrite Hd.
    set (limit := Planner.limit_of _) in *.
    destruct (Planner.debug A), stream;
      unfold bind, when, print, lift, ret, Planner.MCPTool_call; simpl;
      rewrite Hs; simpl; rewrite Ht; simpl; rewrite He; reflexivity.
Qed.

Lemma C9_witness :
  let res := Planner.execute_goal Sample.unreachable Sample.agent0
               "Review the last 5 conversations" false None Sample.fresh in
  (exists err,
      Py.get (Planner.tool_result Sample.unreachable []
                (Call query_conversations (QueryArgs 5))) "error" = Ok err
      /\ fst res = [LErrFetching err]) /\
  calls (snd res) = [Call query_conversations (QueryArgs 5)] /\
  files (snd res) = ∅.
Proof.
  apply (C9_query_failure_ends_the_run Sample.unreachable Sample.agent0
           "Review the last 5 conversations" false None Sample.fresh (JBool false)).
  - reflexivity.
  - reflexivity.
  - reflexivity.
Defined.

(** ** C10 *)



(** ** C8 *)

(** C8 on an input: the evaluate tool fails for the first of two
    conversations and scores the second 4.  The failed item is skipped and
    the second conversation is evaluated, the average being that of the one
    score; but neither the text returned nor the output printed while
    streaming holds a line for the failure. *)
Lemma C8_failed_evaluation_leaves_no_line :
  let E := Sample.remote [Raise (RemoteError "timed out"); Sample.scored 4] in
  let res := Planner.execute_goal E Sample.agent0 "Review the last 2 conversations"
                                  true None Sample.fresh in
  let first :=
    Call evaluate_response (EvalArgs (JStr "How do I reset my password?")
                                     (JStr "Use the reset link.")) in
  Planner.tool_result E [Call query_conversations (QueryArgs 2)] first
  = JObj [("success", JBool false);
          ("error", JStr "Error calling evaluate_response: timed out")] /\
  calls (snd res) = [Call query_conversations (QueryArgs 2); first; first] /\
  fst res = [LRetrieved 2; LBlank; LEvalHeader; LAverage (Py.mean [4]);
             LBlank; LScoreLine (JStr "conv_002") (JInt 4); LCommentLine (JStr "ok");
             LBlank; LScoresGood] /\
  stdout (snd res)
  = [LBlank; LRetrieved 2; LBlank; LEvaluating 2;
     LEvaluatingConv (JStr "conv_001");
     LEvaluatingConv (JStr "conv_002"); LScore (JInt 4);
     LBlank; LEvalHeader; LAverage (Py.mean [4]);
     LBlank; LScoreLine (JStr "conv_002") (JInt 4); LCommentLine (JStr "ok");
     LBlank; LScoresGood] /\
  existsb is_error_line (fst res ++ stdout (snd res)) = false.
Proof. repeat split. Qed.

(** * Further properties of the code *)

(** ** The approval store: listings *)

Lemma elem_of_get_pending_requests fs d :
  d ∈ ApprovalStore.get_pending_requests fs
  <-> exists id, fs !! id = Some d /\ ApprovalStore.has_status "pending" d = true.
Proof.
  unfold ApprovalStore.get_pending_requests.
  rewrite list_elem_of_filter, list_elem_of_fmap; split.
  - intros (Hs & [id d'] & -> & Hin).
    apply elem_of_map_to_list in Hin.
    exists id; split; [exact Hin | now apply Is_true_true].
  - intros (id & Hd & Hs); split; [now apply Is_true_true|].
    exists (id, d); split; [reflexivity | now apply elem_of_map_to_list].
Qed.

Lemma elem_of_get_approved_requests fs d :
  d ∈ ApprovalStore.get_approved_requests fs
  <-> exists id, fs !! id = Some d /\ ApprovalStore.has_status "approved" d = true
                 /\ ApprovalStore.is_processed d = false.
Proof.
  unfold ApprovalStore.get_approved_requests.
  rewrite list_elem_of_filter, list_elem_of_fmap; split.
  - intros (Hs & [id d'] & -> & Hin).
    apply elem_of_map_to_list in Hin.
    apply Is_true_true, andb_true_iff in Hs as [H1 H2].
    exists id; repeat split; auto. now apply negb_true_iff.
  - intros (id & Hd & Hs & Hp); split.
    + apply Is_true_true, andb_true_iff; split; [exact Hs | now rewrite Hp].
    + exists (id, d); split; [reflexivity | now apply elem_of_map_to_list].
Qed.

(** X1.  [get_pending_requests] lists exactly the stored requests whose
    status is "pending", [get_approved_requests] exactly those whose status
    is "approved" and that are not marked as processed; no request is in
    both listings. *)
Theorem store_listings (fs : store) (d : gmap string json) :
  (d ∈ ApprovalStore.get_pending_requests fs
   <-> exists id, fs !! id = Some d /\ d !! "status" = Some (JStr "pending"))
  /\
  (d ∈ ApprovalStore.get_approved_requests fs
   <-> exists id, fs !! id = Some d /\ d !! "status" = Some (JStr "approved")
                  /\ ApprovalStore.is_processed d = false)
  /\
  ~ (d ∈ ApprovalStore.get_pending_requests fs
     /\ d ∈ ApprovalStore.get_approved_requests fs).
Proof.
  split; [|split].
  - rewrite elem_of_get_pending_requests.
    split; intros (id & Hd & Hs); exists id; split; auto;
      now apply has_status_true.
  - rewrite elem_of_get_approved_requests.
    split; intros (id & Hd & Hs & Hp); exists id; repeat split; auto;
      now apply has_status_true.
  - intros [Hp Ha].
    apply elem_of_get_pending_requests in Hp as (_ & _ & Hp).
    apply elem_of_get_approved_requests in Ha as (_ & _ & Ha & _).
    apply has_status_true in Hp, Ha; congruence.
Qed.

Lemma store_listings_witness :
  let d : gmap string json :=
    <["status" := JStr "approved"]>
      (<["id" := JStr "req_1"]> (<["action" := JStr "submit_prompt_update"]> ∅)) in
  d ∈ ApprovalStore.get_approved_requests (Sample.store_with "approved")
  /\ ~ d ∈ ApprovalStore.get_pending_requests (Sample.store_with "approved").
Proof.
  intros d.
  destruct (store_listings (Sample.store_with "approved") d) as (Hp & Ha & _).
  split.
  - apply Ha; exists "req_1"; repeat split.
  - intros H; apply Hp in H as (id & _ & Hs); vm_compute in Hs; discriminate.
Defined.

(** ** The approval store: creating a request *)

Lemma create_request_stores
        (seconds hex6 now : string) (data : gmap string json) (fs : store) :
  let r := ApprovalStore.create_request seconds hex6 now data fs in
  fst r = "req_" +:+ seconds +:+ "_" +:+ hex6 /\
  exists d,
    ApprovalStore.get_request (fst r) (snd r) = Some d /\
    d !! "id" = Some (JStr (fst r)) /\
    d !! "status" = Some (JStr "pending") /\
    d !! "created_at" = Some (JStr now) /\
    (forall k, k <> "id" -> k <> "status" -> k <> "created_at" ->
               d !! k = data !! k) /\
    (forall id', id' <> fst r ->
                 ApprovalStore.get_request id' (snd r)
                 = ApprovalStore.get_request id' fs) /\
    d ∈ ApprovalStore.get_pending_requests (snd r).
Proof.
  unfold ApprovalStore.create_request, ApprovalStore.get_request; simpl.
  split; [reflexivity|].
  eexists; split; [apply lookup_insert_eq|].
  split; [now simplify_map_eq|].
  split; [now simplify_map_eq|].
  split; [now simplify_map_eq|].
  split; [intros k H1 H2 H3; now simplify_map_eq|].
  split; [intros id' Hne; now rewrite lookup_insert_ne by congruence|].
  apply elem_of_get_pending_requests.
  eexists; split; [apply lookup_insert_eq|].
  apply has_status_true; now simplify_map_eq.
Qed.

(** X2.  [create_request] stores the request under the identifier that it
    returns: looking that identifier up gives the caller's dictionary with
    ["id"] set to the identifier, ["status"] to "pending" (whatever the
    caller had put there) and ["created_at"] to the time of the call; every
    other key of the dictionary and every other stored request are as
    before, and the new request is listed as pending. *)
Theorem create_request_round_trip
        (seconds hex6 now : string) (data : gmap string json) (fs : store) :
  let r := ApprovalStore.create_request seconds hex6 now data fs in
  fst r = "req_" +:+ seconds +:+ "_" +:+ hex6 /\
  exists d,
    ApprovalStore.get_request (fst r) (snd r) = Some d /\
    d !! "id" = Some (JStr (fst r)) /\
    d !! "status" = Some (JStr "pending") /\
    d !! "created_at" = Some (JStr now) /\
    (forall k, k <> "id" -> k <> "status" -> k <> "created_at" ->
               d !! k = data !! k) /\
    (forall id', id' <> fst r ->
                 ApprovalStore.get_request id' (snd r)
                 = ApprovalStore.get_request id' fs) /\
    d ∈ ApprovalStore.get_pending_requests (snd r).
Proof. exact (create_request_stores seconds hex6 now data fs). Qed.

Lemma create_request_round_trip_witness :
  let data : gmap string json :=
    <["status" := JStr "approved"]> (<["reason" := JStr "low scores"]> ∅) in
  let r := ApprovalStore.create_request "1700000000" "ab12cd" "2024-01-01T00:00:00"
             data (Sample.store_with "approved") in
  exists d,
    ApprovalStore.get_request "req_1700000000_ab12cd" (snd r) = Some d /\
    d !! "status" = Some (JStr "pending") /\
    d !! "reason" = Some (JStr "low scores") /\
    ApprovalStore.get_request "req_1" (snd r)
    = ApprovalStore.get_request "req_1" (Sample.store_with "approved").
Proof.
  intros data r.
  destruct (create_request_round_trip "1700000000" "ab12cd" "2024-01-01T00:00:00"
              data (Sample.store_with "approved"))
    as (_ & d & Hd & _ & Hs & _ & Hk & Hother & _).
  exists d; split; [exact Hd|]; split; [exact Hs|]; split.
  - rewrite Hk by discriminate. reflexivity.
  - apply Hother; discriminate.
Defined.

(** ** The approval store: updating a request *)

Lemma update_request_cases
        (id status : string) (notes : option string) (now : string) (fs : store) :
  (fs !! id = None ->
   ApprovalStore.update_request id status notes now fs = (false, fs))
  /\
  (forall d, fs !! id = Some d ->
     exists d',
       ApprovalStore.update_request id status notes now fs = (true, <[id := d']> fs) /\
       d' !! "status" = Some (JStr status) /\
       d' !! "updated_at" = Some (JStr now) /\
       d' !! "notes" = (if Py.truthy_str notes then Some (JStr (default "" notes))
                        else d !! "notes") /\
       (forall k, k <> "status" -> k <> "updated_at" -> k <> "notes" ->
                  d' !! k = d !! k)).
Proof.
  split.
  - intros Hd; unfold ApprovalStore.update_request; now rewrite Hd.
  - intros d Hd; unfold ApprovalStore.update_request; rewrite Hd.
    eexists; split; [reflexivity|].
    destruct (Py.truthy_str notes).
    + split; [now simplify_map_eq|].
      split; [now simplify_map_eq|].
      split; [now simplify_map_eq|].
      intros k H1 H2 H3; now simplify_map_eq.
    + split; [now simplify_map_eq|].
      split; [now simplify_map_eq|].
      split; [now simplify_map_eq|].
      intros k H1 H2 H3; now simplify_map_eq.
Qed.

(** X3.  [update_request] returns [False] and changes nothing when the
    request is not stored.  Otherwise it returns [True] and rewrites that one
    request: ["status"] and ["updated_at"] are set, ["notes"] is set only
    when non-empty notes are given (without notes, earlier notes stay), and
    every other key of the request and every other request are as before. *)
Theorem update_request_frame
        (id status : string) (notes : option string) (now : string) (fs : store) :
  (fs !! id = None ->
   ApprovalStore.update_request id status notes now fs = (false, fs))
  /\
  (forall d, fs !! id = Some d ->
     exists d',
       ApprovalStore.update_request id status notes now fs = (true, <[id := d']> fs) /\
       d' !! "status" = Some (JStr status) /\
       d' !! "updated_at" = Some (JStr now) /\
       d' !! "notes" = (if Py.truthy_str notes then Some (JStr (default "" notes))
                        else d !! "notes") /\
       (forall k, k <> "status" -> k <> "updated_at" -> k <> "notes" ->
                  d' !! k = d !! k)).
Proof. exact (update_request_cases id status notes now fs). Qed.

Lemma update_request_frame_witness :
  ApprovalStore.update_request "req_9" "approved" None "2024-01-02T00:00:00"
    (Sample.store_with "pending") = (false, Sample.store_with "pending")
  /\
  exists d',
    ApprovalStore.update_request "req_1" "approved" (Some "") "2024-01-02T00:00:00"
      (Sample.store_with "pending")
    = (true, <["req_1" := d']> (Sample.store_with "pending")) /\
    d' !! "status" = Some (JStr "approved") /\
    d' !! "notes" = None /\
    d' !! "action" = Some (JStr "submit_prompt_update").
Proof.
  destruct (update_request_frame "req_9" "approved" None "2024-01-02T00:00:00"
              (Sample.store_with "pending")) as [Hmissing _].
  destruct (update_request_frame "req_1" "approved" (Some "") "2024-01-02T00:00:00"
              (Sample.store_with "pending")) as [_ Hfound].
  split; [apply Hmissing; reflexivity|].
  destruct (Hfound (<["status" := JStr "pending"]>
                      (<["id" := JStr "req_1"]>
                         (<["action" := JStr "submit_prompt_update"]> ∅))) eq_refl)
    as (d' & E & Hs & _ & Hn & Hk).
  exists d'; split; [exact E|]; split; [exact Hs|]; split.
  - exact Hn.
  - rewrite Hk by discriminate; reflexivity.
Defined.

(** ** The command line tool: one decision per request *)

Lemma decide_request_accepts decision id notes now fs d :
  fs !! id = Some d -> d <> ∅ -> d !! "status" = Some (JStr "pending") ->
  exists d',
    ApprovalStore.decide_request decision id notes now fs = (true, <[id := d']> fs) /\
    d' !! "status" = Some (JStr decision) /\
    (forall k, k <> "status" -> k <> "updated_at" -> k <> "notes" ->
               d' !! k = d !! k).
Proof.
  intros Hd Hne Hs.
  unfold ApprovalStore.decide_request, ApprovalStore.get_request; rewrite Hd.
  destruct (size d =? 0)%nat eqn:Esz.
  { apply Nat.eqb_eq, map_size_empty_iff in Esz; contradiction. }
  apply has_status_true in Hs; rewrite Hs; simpl.
  destruct (update_request_cases id decision notes now fs) as [_ Hfound].
  destruct (Hfound d Hd) as (d' & E & Hs' & _ & _ & Hk).
  exists d'; auto.
Qed.

Lemma approve_request_effect
        (id : string) (notes : option string) (now : string) (fs : store)
        (d : gmap string json) :
  fs !! id = Some d -> d <> ∅ -> d !! "status" = Some (JStr "pending") ->
  exists d',
    ApprovalStore.approve_request id notes now fs = (true, <[id := d']> fs) /\
    d' !! "status" = Some (JStr "approved") /\
    (forall k, k <> "status" -> k <> "updated_at" -> k <> "notes" ->
               d' !! k = d !! k) /\
    (ApprovalStore.is_processed d = false ->
     d' ∈ ApprovalStore.get_approved_requests (<[id := d']> fs)) /\
    ~ d' ∈ ApprovalStore.get_pending_requests (<[id := d']> fs) /\
    (forall notes' now',
        ApprovalStore.approve_request id notes' now' (<[id := d']> fs)
        = (false, <[id := d']> fs) /\
        ApprovalStore.reject_request id notes' now' (<[id := d']> fs)
        = (false, <[id := d']> fs)).
Proof.
  intros Hd Hne Hs.
  destruct (decide_request_accepts "approved" id notes now fs d Hd Hne Hs)
    as (d' & E & Hs' & Hk).
  exists d'; split; [exact E|]; split; [exact Hs'|]; split; [exact Hk|].
  assert (ApprovalStore.has_status "pending" d' = false) as Hnp.
  { destruct (ApprovalStore.has_status "pending" d') eqn:Ep; [|reflexivity].
    apply has_status_true in Ep; congruence. }
  split; [|split].
  - intros Hp; apply elem_of_get_approved_requests.
    exists id; split; [apply lookup_insert_eq|]; split.
    + now apply has_status_true.
    + unfold ApprovalStore.is_processed in *.
      now rewrite (Hk "processed") by discriminate.
  - intros Hin; apply elem_of_get_pending_requests in Hin as (id' & _ & Hp).
    congruence.
  - intros notes' now'; split;
      (apply (decide_request_refuses _ id notes' now' _ d');
       [apply lookup_insert_eq | exact Hnp]).
Qed.

(** X4.  For a stored, pending request [approve_request] returns [True],
    stores the status "approved" and keeps the payload of the request;
    from then on the request is among [get_approved_requests] (unless it
    was already marked as processed), no longer among
    [get_pending_requests], and a further [approve_request] or
    [reject_request] returns [False] and changes nothing. *)
Theorem approve_request_once
        (id : string) (notes : option string) (now : string) (fs : store)
        (d : gmap string json) :
  fs !! id = Some d -> d <> ∅ -> d !! "status" = Some (JStr "pending") ->
  exists d',
    ApprovalStore.approve_request id notes now fs = (true, <[id := d']> fs) /\
    d' !! "status" = Some (JStr "approved") /\
    (forall k, k <> "status" -> k <> "updated_at" -> k <> "notes" ->
               d' !! k = d !! k) /\
    (ApprovalStore.is_processed d = false ->
     d' ∈ ApprovalStore.get_approved_requests (<[id := d']> fs)) /\
    ~ d' ∈ ApprovalStore.get_pending_requests (<[id := d']> fs) /\
    (forall notes' now',
        ApprovalStore.approve_request id notes' now' (<[id := d']> fs)
        = (false, <[id := d']> fs) /\
        ApprovalStore.reject_request id notes' now' (<[id := d']> fs)
        = (false, <[id := d']> fs)).
Proof. exact (approve_request_effect id notes now fs d). Qed.

Lemma approve_request_once_witness :
  exists d',
    ApprovalStore.approve_request "req_1" (Some "ok") "2024-01-02T00:00:00"
      (Sample.store_with "pending")
    = (true, <["req_1" := d']> (Sample.store_with "pending")) /\
    d' !! "status" = Some (JStr "approved") /\
    d' ∈ ApprovalStore.get_approved_requests
           (<["req_1" := d']> (Sample.store_with "pending")) /\
    ApprovalStore.reject_request "req_1" None "2024-01-03T00:00:00"
      (<["req_1" := d']> (Sample.store_with "pending"))
    = (false, <["req_1" := d']> (Sample.store_with "pending")).
Proof.
  destruct (approve_request_once "req_1" (Some "ok") "2024-01-02T00:00:00"
              (Sample.store_with "pending")
              (<["status" := JStr "pending"]>
                 (<["id" := JStr "req_1"]>
                    (<["action" := JStr "submit_prompt_update"]> ∅))))
    as (d' & E & Hs & _ & Hin & _ & Hagain).
  - reflexivity.
  - intros H; apply (f_equal (fun m : gmap string json => m !! "id")) in H.
    vm_compute in H; discriminate.
  - reflexivity.
  - exists d'; split; [exact E|]; split; [exact Hs|]; split.
    + apply Hin; reflexivity.
    + apply Hagain.
Defined.

(** ** The approval store: the life of a request *)

(** X5.  A request that is created (from a dictionary that is not already
    flagged as processed), approved and then marked as processed: each step
    succeeds; after the approval the request is among
    [get_approved_requests], after [mark_as_processed] it is not, and its
    status is still "approved". *)
Theorem request_life_cycle
        (seconds hex6 t0 t1 t2 : string) (notes : option string)
        (data : gmap string json) (fs : store) :
  ApprovalStore.is_processed data = false ->
  let created := ApprovalStore.create_request seconds hex6 t0 data fs in
  let id := fst created in
  let approved := ApprovalStore.approve_request id notes t1 (snd created) in
  let processed := ApprovalStore.mark_as_processed id t2 (snd approved) in
  fst approved = true /\
  (exists d, snd approved !! id = Some d
             /\ d ∈ ApprovalStore.get_approved_requests (snd approved)) /\
  fst processed = true /\
  (exists d, snd processed !! id = Some d
             /\ d !! "status" = Some (JStr "approved")
             /\ ~ d ∈ ApprovalStore.get_approved_requests (snd processed)).
Proof.
  intros Hdata created id approved processed.
  destruct (create_request_stores seconds hex6 t0 data fs)
    as (_ & d0 & Hd0 & Hid & Hs0 & _ & Hk0 & _ & _).
  fold created in Hd0, Hid; fold id in Hd0, Hid.
  unfold ApprovalStore.get_request in Hd0.
  assert (d0 <> ∅) as Hne.
  { intros ->; rewrite lookup_empty in Hid; discriminate. }
  assert (ApprovalStore.is_processed d0 = false) as Hp0.
  { unfold ApprovalStore.is_processed in *.
    now rewrite (Hk0 "processed") by discriminate. }
  destruct (approve_request_effect id notes t1 (snd created) d0 Hd0 Hne Hs0)
    as (d1 & E1 & Hs1 & _ & Hin1 & _ & _).
  fold approved in E1.
  assert (snd approved !! id = Some d1) as Hd1
      by (rewrite E1; apply lookup_insert_eq).
  destruct (mark_as_processed_found id t2 (snd approved) d1 Hd1)
    as (d2 & E2 & Hs2 & Hp2).
  fold processed in E2.
  split; [now rewrite E1|].
  split; [exists d1; split; [exact Hd1 | rewrite E1; now apply Hin1]|].
  split; [now rewrite E2|].
  exists d2; split; [rewrite E2; apply lookup_insert_eq|].
  split; [congruence|].
  intros Hin; apply elem_of_get_approved_requests in Hin as (_ & _ & _ & Hp).
  unfold ApprovalStore.is_processed in Hp; rewrite Hp2 in Hp; discriminate.
Qed.

Lemma request_life_cycle_witness :
  let data : gmap string json :=
    <["action" := JStr "submit_prompt_update"]> (<["reason" := JStr "low scores"]> ∅) in
  let created := ApprovalStore.create_request "1700000000" "ab12cd"
                   "2024-01-01T00:00:00" data ∅ in
  let approved := ApprovalStore.approve_request (fst created) None
                    "2024-01-02T00:00:00" (snd created) in
  let processed := ApprovalStore.mark_as_processed (fst created)
                     "2024-01-03T00:00:00" (snd approved) in
  fst approved = true /\ fst processed = true /\
  exists d, snd processed !! fst created = Some d
            /\ d !! "status" = Some (JStr "approved")
            /\ ~ d ∈ ApprovalStore.get_approved_requests (snd processed).
Proof.
  intros data created approved processed.
  destruct (request_life_cycle "1700000000" "ab12cd" "2024-01-01T00:00:00"
              "2024-01-02T00:00:00" "2024-01-03T00:00:00" None data ∅ eq_refl)
    as (H1 & _ & H2 & H3).
  split; [exact H1|]; split; [exact H2 | exact H3].
Defined.

(** ** The approval store: what the operations never do *)

Lemma dom_insert_found (fs : store) id d d' :
  fs !! id = Some d -> dom (<[id := d']> fs) = dom fs.
Proof. intros Hd; apply dom_insert_lookup_L; eauto. Qed.

Lemma update_request_dom id status notes now fs :
  dom (snd (ApprovalStore.update_request id status notes now fs)) = dom fs.
Proof.
  unfold ApprovalStore.update_request.
  destruct (fs !! id) as [d|] eqn:Hd; [|reflexivity].
  simpl; eapply dom_insert_found; eauto.
Qed.

Lemma decide_request_dom decision id notes now fs :
  dom (snd (ApprovalStore.decide_request decision id notes now fs)) = dom fs.
Proof.
  unfold ApprovalStore.decide_request, ApprovalStore.get_request.
  destruct (fs !! id) as [d|]; [|reflexivity].
  destruct (size d =? 0)%nat; [reflexivity|].
  destruct (negb _); [reflexivity | apply update_request_dom].
Qed.

(** X6.  No operation on stored requests deletes a request or adds one:
    after [approve_request], [reject_request], [mark_as_processed] or
    [update_request] the store holds the same identifiers as before, whether
    the call succeeds or not; [create_request] adds the identifier that it
    returns and no other. *)
Theorem operations_keep_the_requests :
  (forall o fs, dom (ApprovalStore.step o fs) = dom fs)
  /\
  (forall id status notes now fs,
      dom (snd (ApprovalStore.update_request id status notes now fs)) = dom fs)
  /\
  (forall seconds hex6 now data fs,
      let r := ApprovalStore.create_request seconds hex6 now data fs in
      dom (snd r) = {[fst r]} ∪ dom fs).
Proof.
  split; [|split].
  - intros [id notes now|id notes now|id now] fs; simpl.
    + apply decide_request_dom.
    + apply decide_request_dom.
    + unfold ApprovalStore.mark_as_processed.
      destruct (fs !! id) as [d|] eqn:Hd; [|reflexivity].
      simpl; eapply dom_insert_found; eauto.
  - exact update_request_dom.
  - intros; unfold ApprovalStore.create_request; simpl.
    now rewrite dom_insert_L.
Qed.

(** X7.  A rejected request is never handed out for execution: once the
    status of a request is "rejected", after any sequence of approvals,
    rejections and processed marks the request is neither among
    [get_approved_requests] nor among [get_pending_requests]. *)
Theorem rejected_request_is_never_listed
        (os : list ApprovalStore.op) (fs : store) (id : string)
        (d : gmap string json) :
  ApprovalStore.status_of id fs = Some (JStr "rejected") ->
  ApprovalStore.steps os fs !! id = Some d ->
  ~ d ∈ ApprovalStore.get_approved_requests (ApprovalStore.steps os fs) /\
  ~ d ∈ ApprovalStore.get_pending_requests (ApprovalStore.steps os fs).
Proof.
  intros Hs Hd.
  assert (d !! "status" = Some (JStr "rejected")) as Hrej.
  { pose proof (steps_status_final os fs id (JStr "rejected") Hs) as H.
    unfold ApprovalStore.status_of in H; rewrite Hd in H.
    apply H; discriminate. }
  split; intros Hin.
  - apply elem_of_get_approved_requests in Hin as (_ & _ & Ha & _).
    apply has_status_true in Ha; congruence.
  - apply elem_of_get_pending_requests in Hin as (_ & _ & Hp).
    apply has_status_true in Hp; congruence.
Qed.

Lemma rejected_request_is_never_listed_witness :
  let os := [ApprovalStore.Approve "req_1" (Some "changed my mind") "2024-01-03T00:00:00";
             ApprovalStore.MarkProcessed "req_1" "2024-01-04T00:00:00"] in
  exists d, ApprovalStore.steps os (Sample.store_with "rejected") !! "req_1" = Some d /\
            ~ d ∈ ApprovalStore.get_approved_requests
                    (ApprovalStore.steps os (Sample.store_with "rejected")).
Proof.
  intros os.
  eexists; split; [reflexivity|].
  eapply (proj1 (rejected_request_is_never_listed os (Sample.store_with "rejected")
                   "req_1" _ eq_refl eq_refl)).
Defined.

(** ** The planner: the order of the tool calls *)

Lemma preserves_bind_seq {A B} (R1 R2 R3 : world -> world -> Prop)
      (m : M A) (f : A -> M B) :
  (forall w1 w2 w3, R1 w1 w2 -> R2 w2 w3 -> R3 w1 w3) ->
  (forall w1 w2, R1 w1 w2 -> R3 w1 w2) ->
  preserves R1 m -> (forall a, preserves R2 (f a)) -> preserves R3 (bind m f).
Proof.
  intros Hcomp Hweak Hm Hf w; unfold bind.
  specialize (Hm w); destruct (m w) as [[a|e] w']; simpl in *.
  - eapply Hcomp; [exact Hm | apply Hf].
  - now apply Hweak.
Qed.

Lemma preserves_weaken {A} (R1 R2 : world -> world -> Prop) (m : M A) :
  (forall w1 w2, R1 w1 w2 -> R2 w1 w2) -> preserves R1 m -> preserves R2 m.
Proof. intros H Hm w; apply H, Hm. Qed.

Lemma evaluates_only_refl w : evaluates_only w w.
Proof. exists []; split; [now rewrite app_nil_r | constructor]. Qed.

Lemma evaluates_only_trans w1 w2 w3 :
  evaluates_only w1 w2 -> evaluates_only w2 w3 -> evaluates_only w1 w3.
Proof.
  intros (e1 & E1 & F1) (e2 & E2 & F2); exists (e1 ++ e2); split.
  - now rewrite E2, E1, app_assoc.
  - now apply Forall_app.
Qed.

Lemma evaluates_only_stdout w l :
  evaluates_only w (World (calls w) (stdout w ++ l) (files w)).
Proof. exists []; split; [simpl; now rewrite app_nil_r | constructor]. Qed.

#[local] Hint Resolve evaluates_only_refl evaluates_only_trans
  evaluates_only_stdout : preserve.

Lemma MCPTool_call_evaluates E a :
  preserves evaluates_only (Planner.MCPTool_call E evaluate_response a).
Proof.
  intros w; exists [Call evaluate_response a]; split; [reflexivity|].
  repeat constructor.
Qed.

(** The evaluation loop invokes the evaluate tool, and nothing else. *)
Lemma evaluate_all_evaluates E A stream total convs : forall i scores evaluations,
  preserves evaluates_only
    (Planner.evaluate_all E A stream total i convs scores evaluations).
Proof.
  induction convs as [|conv rest IH]; intros i scores evaluations; simpl.
  - preserve.
  - repeat first
      [ apply MCPTool_call_evaluates
      | apply IH
      | preserve_step
      | preserve_case ]; eauto with preserve.
Qed.

Lemma quiet_then_submits p w1 w2 w3 :
  quiet_step w1 w2 -> submits_at_most_once p w2 w3 -> submits_at_most_once p w1 w3.
Proof.
  intros [Hc _] [H|(avg & n & H)]; [left | right; exists avg, n]; congruence.
Qed.

Lemma quiet_submits p w1 w2 : quiet_step w1 w2 -> submits_at_most_once p w1 w2.
Proof. intros [Hc _]; now left. Qed.

Lemma create_pr_submits E A stream eff zs avg results :
  preserves (submits_at_most_once (prompt_for eff))
            (Planner.create_pr E A stream eff zs avg results).
Proof.
  intros w; right; exists avg, (Planner.below3 zs).
  now destruct (create_pr_calls E A stream eff zs avg results w).
Qed.

(** A quiet step followed by steps that submit at most once. *)
Ltac quiet_first p :=
  eapply (preserves_bind_seq quiet_step (submits_at_most_once p)
                             (submits_at_most_once p));
  [ apply quiet_then_submits | apply quiet_submits | | intros ].

Lemma report_and_decide_submits_once E A stream eff goal_lower scores evaluations results :
  preserves (submits_at_most_once (prompt_for eff))
    (Planner.report_and_decide E A stream eff goal_lower scores evaluations results).
Proof.
  unfold Planner.report_and_decide.
  destruct scores as [|s0 scores].
  - apply (preserves_weaken quiet_step); [apply quiet_submits | preserve].
  - quiet_first (prompt_for eff); [preserve|].
    quiet_first (prompt_for eff); [preserve|].
    quiet_first (prompt_for eff); [apply show_scores_quiet|].
    quiet_first (prompt_for eff); [preserve|].
    destruct (Planner.should_create_pr _ _ _).
    + apply create_pr_submits.
    + apply (preserves_weaken quiet_step); [apply quiet_submits | preserve].
Qed.

Lemma quiet_then_evaluates_submits p w1 w2 w3 :
  quiet_step w1 w2 -> evaluates_then_submits p w2 w3 ->
  evaluates_then_submits p w1 w3.
Proof.
  intros [Hc _] (evs & tail & E & F & T); exists evs, tail.
  repeat split; auto; congruence.
Qed.

Lemma quiet_evaluates_submits p w1 w2 :
  quiet_step w1 w2 -> evaluates_then_submits p w1 w2.
Proof.
  intros [Hc _]; exists [], []; simpl.
  split; [now rewrite app_nil_r|]; split; [constructor | now left].
Qed.

Lemma evaluates_then_submits_compose p w1 w2 w3 :
  evaluates_only w1 w2 -> submits_at_most_once p w2 w3 ->
  evaluates_then_submits p w1 w3.
Proof.
  intros (evs & E & F) [H|(avg & n & H)].
  - exists evs, []; rewrite app_nil_r.
    split; [congruence|]; split; [assumption | now left].
  - exists evs, [Call submit_prompt_update
                      (UpdateArgs p (AutomatedUpdate avg n))].
    split; [rewrite H, E; now rewrite app_assoc|].
    split; [assumption | right; eauto].
Qed.

Lemma evaluates_only_weak p w1 w2 :
  evaluates_only w1 w2 -> evaluates_then_submits p w1 w2.
Proof.
  intros (evs & E & F); exists evs, []; rewrite app_nil_r.
  split; [assumption|]; split; [assumption | now left].
Qed.

Ltac quiet_first_es p :=
  eapply (preserves_bind_seq quiet_step (evaluates_then_submits p)
                             (evaluates_then_submits p));
  [ apply quiet_then_evaluates_submits | apply quiet_evaluates_submits | | intros ].

Lemma evaluate_step_protocol E A stream eff goal_lower conversations n results :
  preserves (evaluates_then_submits (prompt_for eff))
    (Planner.evaluate_step E A stream eff goal_lower conversations n results).
Proof.
  unfold Planner.evaluate_step.
  quiet_first_es (prompt_for eff); [preserve|].
  quiet_first_es (prompt_for eff); [preserve|].
  quiet_first_es (prompt_for eff); [preserve|].
  eapply (preserves_bind_seq evaluates_only
            (submits_at_most_once (prompt_for eff))
            (evaluates_then_submits (prompt_for eff))).
  - apply evaluates_then_submits_compose.
  - apply evaluates_only_weak.
  - apply evaluate_all_evaluates.
  - intros se; apply report_and_decide_submits_once.
Qed.

(** [run] is the query followed by [after_query]. *)
Lemma run_after_query E A goal stream override :
  Planner.is_direct_pr (Str.lower goal) = false ->
  Planner.run E A goal stream override
  = bind (when (Planner.debug A)
               (print [LDbgCallingQuery (Planner.limit_of (Str.lower goal))]))
      (fun _ =>
         bind (Planner.MCPTool_call E query_conversations
                 (QueryArgs (Planner.limit_of (Str.lower goal))))
              (after_query E A stream (Planner.effective_custom_prompt A override)
                           (Str.lower goal))).
Proof. intros Hd; unfold Planner.run; rewrite Hd; reflexivity. Qed.

(** After the query: evaluations, then at most one submission. *)
Lemma after_query_protocol E A stream eff goal_lower (query_result : json) :
  preserves (evaluates_then_submits (prompt_for eff))
            (after_query E A stream eff goal_lower query_result).
Proof.
  unfold after_query.
  quiet_first_es (prompt_for eff); [preserve|].
  destruct (negb _).
  - apply (preserves_weaken quiet_step); [apply quiet_evaluates_submits | preserve].
  - quiet_first_es (prompt_for eff); [preserve|].
    quiet_first_es (prompt_for eff); [preserve|].
    quiet_first_es (prompt_for eff); [preserve|].
    quiet_first_es (prompt_for eff); [preserve|].
    quiet_first_es (prompt_for eff); [preserve|].
    destruct (_ || _ || _).
    + apply evaluate_step_protocol.
    + apply (preserves_weaken quiet_step); [apply quiet_evaluates_submits | preserve].
Qed.

(** After the query of a goal that asks for no review, nothing is invoked. *)
Lemma after_query_quiet E A stream eff goal_lower (query_result : json) :
  Str.contains "review" goal_lower || Str.contains "evaluate" goal_lower
  || Str.contains "check" goal_lower = false ->
  preserves quiet_step (after_query E A stream eff goal_lower query_result).
Proof. intros Hk; unfold after_query; rewrite Hk; preserve. Qed.

(** The world after the query call of a run. *)
Lemma run_query_step E A goal stream override w :
  Planner.is_direct_pr (Str.lower goal) = false ->
  exists w2,
    calls w2 = calls w ++ [Call query_conversations
                                (QueryArgs (Planner.limit_of (Str.lower goal)))] /\
    files w2 = files w /\
    Planner.run E A goal stream override w
    = after_query E A stream (Planner.effective_custom_prompt A override)
                  (Str.lower goal)
                  (Planner.tool_result E (calls w)
                     (Call query_conversations
                           (QueryArgs (Planner.limit_of (Str.lower goal))))) w2.
Proof.
  intros Hd; rewrite (run_after_query _ _ _ _ _ Hd).
  destruct (when_print_ok (Planner.debug A)
              [LDbgCallingQuery (Planner.limit_of (Str.lower goal))] w)
    as (w1 & E1 & C1 & F1).
  rewrite (bind_ok _ _ _ _ _ E1).
  rewrite (bind_ok _ _ _ _ _ (MCPTool_call_eq _ _ _ _)).
  eexists; split; [|split; [|rewrite C1; reflexivity]]; simpl; congruence.
Qed.

Lemma run_protocol_holds E A goal stream override w :
  exists cs,
    calls (snd (Planner.run E A goal stream override w)) = calls w ++ cs /\
    run_protocol (Planner.is_direct_pr (Str.lower goal))
                 (Planner.limit_of (Str.lower goal))
                 (prompt_for (Planner.effective_custom_prompt A override)) cs.
Proof.
  unfold run_protocol.
  destruct (Planner.is_direct_pr (Str.lower goal)) eqn:Hd.
  - unfold Planner.run; rewrite Hd.
    eexists; split; [|reflexivity].
    now destruct (direct_pr_calls E stream
                    (Planner.effective_custom_prompt A override) w).
  - destruct (run_query_step E A goal stream override w Hd) as (w2 & C2 & _ & ->).
    destruct (after_query_protocol E A stream
                (Planner.effective_custom_prompt A override) (Str.lower goal)
                (Planner.tool_result E (calls w)
                   (Call query_conversations
                         (QueryArgs (Planner.limit_of (Str.lower goal))))) w2)
      as (evs & tail & Hc & Hf & Ht).
    exists (Call query_conversations (QueryArgs (Planner.limit_of (Str.lower goal)))
            :: evs ++ tail); split.
    + rewrite Hc, C2; now rewrite <- app_assoc.
    + exists evs, tail; auto.
Qed.

Lemma execute_goal_protocol E A goal stream override w :
  exists cs,
    calls (snd (Planner.execute_goal E A goal stream override w)) = calls w ++ cs /\
    run_protocol (Planner.is_direct_pr (Str.lower goal))
                 (Planner.limit_of (Str.lower goal))
                 (prompt_for (Planner.effective_custom_prompt A override)) cs.
Proof.
  destruct (run_protocol_holds E A goal stream override (Planner.announce A goal w))
    as (cs & Hc & Hp).
  exists cs; split; [|exact Hp].
  unfold Planner.execute_goal.
  assert (calls (Planner.announce A goal w) = calls w) as E0
      by (unfold Planner.announce; destruct (Planner.debug A); reflexivity).
  destruct (Planner.run E A goal stream override (Planner.announce A goal w))
    as [[text|e] w1]; simpl in *; [congruence|].
  destruct (Planner.debug A); simpl; congruence.
Qed.

(** X8.  The tool calls of a run follow one of two shapes.  For a direct
    pull-request goal the run makes one call, [submit_prompt_update] with
    the manual reason.  Otherwise the run begins with one
    [query_conversations] call carrying the extracted count, continues with
    [evaluate_response] calls only, and ends with at most one
    [submit_prompt_update] call, carrying the automated reason.  So a run
    never queries twice, never evaluates before it has queried, never
    evaluates after it has submitted, and never submits twice. *)
Theorem execute_goal_call_order E A goal stream override w :
  exists cs,
    calls (snd (Planner.execute_goal E A goal stream override w)) = calls w ++ cs /\
    run_protocol (Planner.is_direct_pr (Str.lower goal))
                 (Planner.limit_of (Str.lower goal))
                 (prompt_for (Planner.effective_custom_prompt A override)) cs /\
    (count_submit cs <= 1)%nat.
Proof.
  destruct (execute_goal_protocol E A goal stream override w) as (cs & Hc & Hp).
  exists cs; split; [exact Hc|split; [exact Hp|]].
  - unfold run_protocol in Hp.
    destruct (Planner.is_direct_pr (Str.lower goal)).
    + subst cs; reflexivity.
    + destruct Hp as (evs & tail & -> & Hf & Ht).
      change (Call query_conversations ?a :: evs ++ tail)
        with ([Call query_conversations a] ++ evs ++ tail).
      rewrite !count_submit_app.
      assert (count_submit evs = 0%nat) as ->.
      { clear -Hf; induction Hf as [|c evs Hc _ IH]; [reflexivity|].
        unfold count_submit in *; rewrite filter_cons_False; [exact IH|].
        unfold is_submit, is_evaluate in *; rewrite Hc; simpl; auto. }
      assert (forall a, count_submit [Call query_conversations a] = 0%nat)
        as -> by reflexivity.
      destruct Ht as [-> | (avg & n & ->)]; [now auto|].
      assert (forall a, count_submit [Call submit_prompt_update a] = 1%nat)
        as -> by reflexivity.
      lia.
Qed.

Lemma announce_calls A goal w :
  calls (Planner.announce A goal w) = calls w
  /\ files (Planner.announce A goal w) = files w.
Proof. unfold Planner.announce; destruct (Planner.debug A); split; reflexivity. Qed.

Lemma execute_goal_calls E A goal stream override w :
  calls (snd (Planner.execute_goal E A goal stream override w))
  = calls (snd (Planner.run E A goal stream override (Planner.announce A goal w))).
Proof.
  unfold Planner.execute_goal.
  destruct (Planner.run E A goal stream override (Planner.announce A goal w))
    as [[text|e] w1]; simpl; [reflexivity|].
  destruct (Planner.debug A); reflexivity.
Qed.

(** ** The planner: goals that ask for no review *)

(** X9.  A goal that is not a direct pull-request goal and contains none of
    the words "review", "evaluate" and "check" only queries: the one
    [query_conversations] call is all that the run invokes, whatever the
    tools answer, so that nothing is evaluated and no pull request is
    created. *)
Theorem goal_without_review_only_queries E A goal stream override w :
  Planner.is_direct_pr (Str.lower goal) = false ->
  Str.contains "review" (Str.lower goal) || Str.contains "evaluate" (Str.lower goal)
  || Str.contains "check" (Str.lower goal) = false ->
  calls (snd (Planner.execute_goal E A goal stream override w))
  = calls w ++ [Call query_conversations
                     (QueryArgs (Planner.limit_of (Str.lower goal)))].
Proof.
  intros Hd Hk.
  rewrite execute_goal_calls.
  destruct (run_query_step E A goal stream override (Planner.announce A goal w) Hd)
    as (w2 & C2 & _ & ->).
  destruct (after_query_quiet E A stream
              (Planner.effective_custom_prompt A override) (Str.lower goal)
              (Planner.tool_result E (calls (Planner.announce A goal w))
                 (Call query_conversations
                       (QueryArgs (Planner.limit_of (Str.lower goal))))) Hk w2)
    as [Hc _].
  rewrite Hc, C2. now destruct (announce_calls A goal w) as [-> _].
Qed.

Lemma goal_without_review_only_queries_witness :
  calls (snd (Planner.execute_goal (Sample.steady 3 1) Sample.agent0
                "Show the last 3 chats and update the prompt" true None Sample.fresh))
  = [Call query_conversations (QueryArgs 3)].
Proof.
  apply (goal_without_review_only_queries (Sample.steady 3 1) Sample.agent0
           "Show the last 3 chats and update the prompt" true None Sample.fresh);
    reflexivity.
Defined.

(** ** The planner: one evaluation per conversation *)

Lemma evaluable_fields conv :
  evaluable conv ->
  exists id, Py.subscript conv "id" = Ok id /\
             Py.subscript conv "user_message" = Ok (field "user_message" conv) /\
             Py.subscript conv "bot_response" = Ok (field "bot_response" conv).
Proof.
  intros (kv & -> & Hi & Hq & Ha); unfold field; simpl.
  destruct (Py.assoc "id" kv) as [id|]; [|congruence].
  destruct (Py.assoc "user_message" kv); [|congruence].
  destruct (Py.assoc "bot_response" kv); [|congruence].
  eauto.
Qed.

Lemma evaluate_all_calls E A stream total convs :
  Forall evaluable convs ->
  (forall history c, exists kv, Planner.tool_result E history c = JObj kv) ->
  forall i scores evaluations w,
  exists se w',
    Planner.evaluate_all E A stream total i convs scores evaluations w = (Ok se, w') /\
    calls w' = calls w ++ map evaluation_of convs /\
    (length (fst se) <= length scores + length convs)%nat /\
    files w' = files w.
Proof.
  intros Hconvs Hdict.
  induction Hconvs as [|conv rest Hconv _ IH]; intros i scores evaluations w; simpl.
  - exists (scores, evaluations), w; simpl.
    rewrite app_nil_r; repeat split; lia.
  - destruct (evaluable_fields conv Hconv) as (id & Hid & Hq & Ha).
    destruct (when_print_ok (Planner.debug A) [LDbgEvaluatingConv i total] w)
      as (w1 & E1 & C1 & F1).
    rewrite (bind_ok _ _ _ _ _ E1).
    assert (exists w2,
               (if stream
                then bind (lift (Py.subscript conv "id"))
                          (fun id => print [LEvaluatingConv id])
                else ret tt) w1 = (Ok tt, w2)
               /\ calls w2 = calls w1 /\ files w2 = files w1)
      as (w2 & E2 & C2 & F2).
    { destruct stream; [rewrite Hid|]; simpl; eauto. }
    rewrite (bind_ok _ _ _ _ _ E2).
    rewrite Hq, Ha.
    rewrite (bind_ok (lift (Ok _)) _ w2 _ w2 eq_refl).
    rewrite (bind_ok (lift (Ok _)) _ w2 _ w2 eq_refl).
    rewrite (bind_ok _ _ _ _ _ (MCPTool_call_eq _ _ _ _)).
    set (w3 := World _ _ _).
    set (r := Planner.tool_result _ _ _).
    destruct (Hdict (calls w2)
                (Call evaluate_response
                      (EvalArgs (field "user_message" conv) (field "bot_response" conv))))
      as (kv & Hkv).
    fold r in Hkv.
    assert (forall k, Py.get r k = Ok (default JNull (Py.assoc k kv))) as Hget.
    { intros k; rewrite Hkv; reflexivity. }
    rewrite (Hget "success").
    rewrite (bind_ok (lift (Ok _)) _ w3 _ w3 eq_refl).
    assert (calls w3 = calls w ++ [evaluation_of conv]) as C3
        by (unfold w3, evaluation_of; simpl; congruence).
    assert (files w3 = files w) as F3 by (unfold w3; simpl; congruence).
    destruct (Py.truthy _).
    + rewrite (Hget "score"), (Hget "comment"), Hid.
      rewrite (bind_ok (lift (Ok _)) _ w3 _ w3 eq_refl).
      rewrite (bind_ok (lift (Ok _)) _ w3 _ w3 eq_refl).
      rewrite (bind_ok (lift (Ok _)) _ w3 _ w3 eq_refl).
      match goal with |- context [when stream (print ?l)] =>
        destruct (when_print_ok stream l w3) as (w4 & E4 & C4 & F4)
      end.
      rewrite (bind_ok _ _ _ _ _ E4).
      match goal with |- context [when (Planner.debug A) (print ?l)] =>
        destruct (when_print_ok (Planner.debug A) l w4) as (w5 & E5 & C5 & F5)
      end.
      rewrite (bind_ok _ _ _ _ _ E5).
      match goal with |- context [Planner.evaluate_all E A stream total ?i' rest ?s' ?e'] =>
        destruct (IH i' s' e' w5) as (se & w' & E' & C' & L' & F')
      end.
      exists se, w'; split; [exact E'|]; split; [|split].
      * rewrite C', C5, C4, C3; now rewrite <- app_assoc.
      * rewrite length_app in L'; simpl in L'; lia.
      * congruence.
    + destruct (IH (S i) scores evaluations w3) as (se & w' & E' & C' & L' & F').
      exists se, w'; split; [exact E'|]; split; [|split].
      * rewrite C', C3; now rewrite <- app_assoc.
      * lia.
      * congruence.
Qed.

(** X10.  When every conversation has the keys ["id"], ["user_message"] and
    ["bot_response"] and every answer of the evaluate tool is a dictionary,
    the evaluation loop returns, and it has invoked [evaluate_response]
    exactly once per conversation, in the order of the conversations, each
    time with the question and the answer of that conversation; a failed
    evaluation is not retried, and no more scores are collected than there
    are conversations. *)
Theorem evaluate_all_one_call_each E A stream total convs :
  Forall evaluable convs ->
  (forall history c, exists kv, Planner.tool_result E history c = JObj kv) ->
  forall i scores evaluations w,
  exists se w',
    Planner.evaluate_all E A stream total i convs scores evaluations w = (Ok se, w') /\
    calls w' = calls w ++ map evaluation_of convs /\
    (length (fst se) <= length scores + length convs)%nat /\
    files w' = files w.
Proof. exact (evaluate_all_calls E A stream total convs). Qed.

Lemma evaluate_all_one_call_each_witness :
  exists se w',
    Planner.evaluate_all (Sample.steady 2 4) Sample.agent0 false 2 1
      [Sample.conversation "conv_001"; Sample.conversation "conv_002"] [] []
      Sample.fresh = (Ok se, w') /\
    calls w' = [evaluation_of (Sample.conversation "conv_001");
                evaluation_of (Sample.conversation "conv_002")] /\
    (length (fst se) <= 2)%nat.
Proof.
  destruct (evaluate_all_one_call_each (Sample.steady 2 4) Sample.agent0 false 2
              [Sample.conversation "conv_001"; Sample.conversation "conv_002"])
    with (i := 1%nat) (scores := @nil json) (evaluations := @nil Planner.evaluation)
         (w := Sample.fresh)
    as (se & w' & E & C & L & _).
  - repeat constructor; eexists; (split; [reflexivity|]); repeat split; discriminate.
  - intros history [t a]; destruct t; eexists; reflexivity.
  - exists se, w'; split; [exact E|]; split; [exact C | exact L].
Defined.

(** ** The planner: the prompt of a pull request *)

Lemma prompt_for_chosen A override :
  prompt_for (Planner.effective_custom_prompt A override) = chosen_prompt A override.
Proof.
  unfold prompt_for, Planner.effective_custom_prompt, chosen_prompt.
  destruct override as [[|a s]|]; simpl;
    destruct (Planner.custom_prompt A) as [[|b t]|]; reflexivity.
Qed.

(** X11.  Every [submit_prompt_update] call of a run carries a prompt text
    that is not empty: the override given to [execute_goal] when it is not
    empty, else the custom prompt of the agent when that is not empty, else
    the default prompt. *)
Theorem submitted_prompt_is_chosen E A goal stream override w cs c :
  calls (snd (Planner.execute_goal E A goal stream override w)) = calls w ++ cs ->
  In c cs -> call_tool c = submit_prompt_update ->
  chosen_prompt A override <> "" /\
  exists why, call_args c = UpdateArgs (chosen_prompt A override) why.
Proof.
  intros Hcs Hin Ht; split.
  { unfold chosen_prompt.
    destruct override as [[|a s]|];
      destruct (Planner.custom_prompt A) as [[|b t]|]; discriminate. }
  destruct (execute_goal_protocol E A goal stream override w)
    as (cs' & Hcs' & Hp).
  rewrite Hcs in Hcs'; apply app_inv_head in Hcs'; subst cs'.
  rewrite prompt_for_chosen in Hp; unfold run_protocol in Hp.
  destruct (Planner.is_direct_pr (Str.lower goal)).
  - subst cs; destruct Hin as [<-|[]]; eauto.
  - destruct Hp as (evs & tail & -> & Hf & Htail).
    destruct Hin as [<-|Hin]; [discriminate|].
    apply in_app_or in Hin as [Hin|Hin].
    + rewrite Forall_forall in Hf.
      apply list_elem_of_In, Hf in Hin; unfold is_evaluate in Hin; congruence.
    + destruct Htail as [-> | (avg & n & ->)]; [destruct Hin|].
      destruct Hin as [<-|[]]; eauto.
Qed.

Lemma submitted_prompt_is_chosen_witness :
  let A := Planner.Agent false (Some "Be brief.") in
  chosen_prompt A (Some "") = "Be brief." /\
  exists why,
    call_args (Call submit_prompt_update (UpdateArgs "Be brief." ManualUpdate))
    = UpdateArgs (chosen_prompt A (Some "")) why.
Proof.
  intros A; split; [reflexivity|].
  apply (submitted_prompt_is_chosen (Sample.remote []) A "Create PR for the prompt"
           false (Some "") Sample.fresh
           [Call submit_prompt_update (UpdateArgs "Be brief." ManualUpdate)]).
  - reflexivity.
  - left; reflexivity.
  - reflexivity.
Defined.

(** ** The planner: what is printed *)

Lemma same_stdout_refl w : same_stdout w w.
Proof. reflexivity. Qed.

Lemma same_stdout_trans w1 w2 w3 :
  same_stdout w1 w2 -> same_stdout w2 w3 -> same_stdout w1 w3.
Proof. unfold same_stdout; congruence. Qed.

Lemma MCPTool_call_stdout E t a : preserves same_stdout (Planner.MCPTool_call E t a).
Proof. intros w; reflexivity. Qed.

(** Walk through a computation that prints nothing. *)
Ltac hush :=
  repeat first
    [ apply preserves_ret; exact same_stdout_refl
    | apply preserves_lift; exact same_stdout_refl
    | apply MCPTool_call_stdout
    | apply preserves_bind; [exact same_stdout_trans | | intros]
    | preserve_case ].

Lemma show_conversations_silent convs : forall results,
  preserves same_stdout (Planner.show_conversations false convs results).
Proof.
  induction convs as [|conv rest IH]; intros results; simpl; hush; apply IH.
Qed.

Lemma show_scores_silent evaluations : forall results,
  preserves same_stdout (Planner.show_scores false evaluations results).
Proof.
  induction evaluations as [|ev rest IH]; intros results; simpl; hush; apply IH.
Qed.

Lemma evaluate_all_silent E A total convs :
  Planner.debug A = false ->
  forall i scores evaluations,
    preserves same_stdout
      (Planner.evaluate_all E A false total i convs scores evaluations).
Proof.
  intros Hd; induction convs as [|conv rest IH]; intros i scores evaluations;
    simpl; rewrite ?Hd; simpl; hush; apply IH.
Qed.

Lemma choose_prompt_silent eff : preserves same_stdout (Planner.choose_prompt false eff).
Proof. unfold Planner.choose_prompt; simpl; hush. Qed.

Lemma run_silent E A goal override :
  Planner.debug A = false ->
  preserves same_stdout (Planner.run E A goal false override).
Proof.
  intros Hd.
  unfold Planner.run, Planner.direct_pr, Planner.choose_prompt,
    Planner.evaluate_step, Planner.report_and_decide, Planner.create_pr.
  rewrite Hd; simpl.
  hush;
    first [ apply show_conversations_silent
          | apply show_scores_silent
          | apply choose_prompt_silent
          | now apply evaluate_all_silent ].
Qed.

(** X12.  With [stream=False] and without the debug flag (the way [main]
    runs a goal given on the command line), [execute_goal] prints nothing:
    all that the run has to say is in the text that it returns. *)
Theorem execute_goal_prints_nothing E A goal override w :
  Planner.debug A = false ->
  stdout (snd (Planner.execute_goal E A goal false override w)) = stdout w.
Proof.
  intros Hd.
  pose proof (run_silent E A goal override Hd (Planner.announce A goal w)) as H.
  unfold Planner.execute_goal, same_stdout in *.
  destruct (Planner.run E A goal false override (Planner.announce A goal w))
    as [[text|e] w1]; simpl in *;
    unfold Planner.announce in *; rewrite Hd in *; exact H.
Qed.

Lemma execute_goal_prints_nothing_witness :
  stdout (snd (Planner.execute_goal (Sample.steady 5 2) Sample.agent0
                 "Review the last 5 conversations" false None Sample.fresh)) = [].
Proof.
  apply (execute_goal_prints_nothing (Sample.steady 5 2) Sample.agent0
           "Review the last 5 conversations" None Sample.fresh).
  reflexivity.
Defined.

(** ** The query server *)

Section QueryServerFacts.
Variable stamp : nat -> string.
Variable loads : string -> outcome json.

Let CONVERSATIONS := QueryServer.CONVERSATIONS stamp.
Let query_conversations := QueryServer.query_conversations stamp.
Let lambda_handler := QueryServer.lambda_handler stamp loads.

Lemma CONVERSATIONS_length : length CONVERSATIONS = 10%nat.
Proof. reflexivity. Qed.

Lemma query_conversations_recent limit :
  1 <= limit <= 10 ->
  query_conversations limit = skipn (10 - Z.to_nat limit) CONVERSATIONS.
Proof.
  intros Hl; unfold query_conversations, QueryServer.query_conversations,
               QueryServer.slice_from.
  fold CONVERSATIONS; rewrite CONVERSATIONS_length.
  destruct (- limit <? 0) eqn:E; [|apply Z.ltb_ge in E; lia].
  f_equal; lia.
Qed.

(** X13.  [query_conversations(limit)] is the slice [CONVERSATIONS[-limit:]]:
    for a limit from 1 to 10 it returns the [limit] most recent of the ten
    conversations, oldest first; for a limit above 10 it returns all ten;
    and for the limit 0 it returns all ten as well, not none; a negative
    limit [-k] drops the [k] oldest. *)
Theorem query_conversations_slice (limit : Z) :
  (1 <= limit <= 10 ->
   query_conversations limit = skipn (10 - Z.to_nat limit) CONVERSATIONS /\
   length (query_conversations limit) = Z.to_nat limit)
  /\
  (limit = 0 \/ 10 <= limit -> query_conversations limit = CONVERSATIONS)
  /\
  (limit < 0 -> query_conversations limit = skipn (Z.to_nat (- limit)) CONVERSATIONS).
Proof.
  split; [|split].
  - intros Hl; rewrite (query_conversations_recent limit Hl); split; [reflexivity|].
    rewrite length_skipn, CONVERSATIONS_length; lia.
  - intros Hl; unfold query_conversations, QueryServer.query_conversations,
                 QueryServer.slice_from.
    fold CONVERSATIONS; rewrite CONVERSATIONS_length.
    destruct Hl as [-> | Hl]; [reflexivity|].
    destruct (- limit <? 0) eqn:E; [|apply Z.ltb_ge in E; lia].
    replace (Z.to_nat (Z.max (- limit + Z.of_nat 10) 0)) with 0%nat by lia.
    reflexivity.
  - intros Hl; unfold query_conversations, QueryServer.query_conversations,
                 QueryServer.slice_from.
    fold CONVERSATIONS; rewrite CONVERSATIONS_length.
    destruct (- limit <? 0) eqn:E; [apply Z.ltb_lt in E; lia|].
    destruct (Z.le_gt_cases (- limit) 10) as [H|H].
    + f_equal; lia.
    + rewrite !skipn_all2; [reflexivity | |]; rewrite CONVERSATIONS_length; lia.
Qed.

(** Every stored conversation has the keys that the planner reads. *)
Lemma CONVERSATIONS_evaluable : Forall evaluable CONVERSATIONS.
Proof.
  repeat constructor; eexists; (split; [reflexivity|]);
    repeat split; discriminate.
Qed.

Lemma query_conversations_evaluable limit :
  Forall evaluable (query_conversations limit).
Proof.
  unfold query_conversations, QueryServer.query_conversations,
    QueryServer.slice_from.
  apply Forall_drop, CONVERSATIONS_evaluable.
Qed.

Let requested_limit := QueryServer.requested_limit loads.

Lemma handle_cases event :
  match requested_limit event with
  | Some n =>
      if (n <? 1) || (10 <? n)
      then lambda_handler event = QueryServer.invalid_limit
      else lambda_handler event
           = QueryServer.Response 200
               (JObj [("success", JBool true);
                      ("count", JInt (Z.of_nat (length (query_conversations n))));
                      ("conversations", JList (query_conversations n))])
  | None => QueryServer.statusCode (lambda_handler event) <> 200
  end.
Proof.
  unfold requested_limit, QueryServer.requested_limit, lambda_handler,
    QueryServer.lambda_handler, QueryServer.handle.
  destruct (QueryServer.request_body loads "limit" event) as [b|e];
    [|simpl; discriminate].
  destruct b; simpl; try discriminate.
  destruct (QueryServer.int_value _) as [n|]; [|simpl; discriminate].
  destruct ((n <? 1) || (10 <? n)); reflexivity.
Qed.

(** X14.  The handler answers 200 exactly when the request holds an integer
    limit from 1 to 10, or no limit (then 5 is taken).  The answer then
    carries the [limit] most recent conversations, the newest ([conv_010])
    last, and a count equal to their number, and each conversation has the
    keys ["id"], ["user_message"] and ["bot_response"].  Every other answer
    carries neither ["conversations"] nor a true ["success"]. *)
Theorem lambda_handler_validates_limit (event : json) :
  (forall n, requested_limit event = Some n -> 1 <= n <= 10 ->
     lambda_handler event
     = QueryServer.Response 200
         (JObj [("success", JBool true);
                ("count", JInt n);
                ("conversations", JList (skipn (10 - Z.to_nat n) CONVERSATIONS))])
     /\ length (skipn (10 - Z.to_nat n) CONVERSATIONS) = Z.to_nat n
     /\ last (skipn (10 - Z.to_nat n) CONVERSATIONS) = last CONVERSATIONS
     /\ Forall evaluable (skipn (10 - Z.to_nat n) CONVERSATIONS))
  /\
  (QueryServer.statusCode (lambda_handler event) = 200 ->
   exists n, requested_limit event = Some n /\ 1 <= n <= 10)
  /\
  (QueryServer.statusCode (lambda_handler event) <> 200 ->
   Py.assoc "conversations"
     (match QueryServer.body (lambda_handler event) with JObj kv => kv | _ => [] end)
   = None /\
   exists v, Py.get (QueryServer.body (lambda_handler event)) "success" = Ok v
             /\ Py.truthy v = false).
Proof.
  pose proof (handle_cases event) as H.
  split; [|split].
  - intros n Hn Hr; rewrite Hn in H.
    replace ((n <? 1) || (10 <? n)) with false in H by lia.
    pose proof (query_conversations_recent n Hr) as Eq.
    assert (length (query_conversations n) = Z.to_nat n) as Len
        by (rewrite Eq, length_skipn, CONVERSATIONS_length; lia).
    rewrite Eq in H; rewrite Eq in Len.
    rewrite Len in H.
    replace (Z.of_nat (Z.to_nat n)) with n in H by lia.
    split; [exact H|]; split; [exact Len|]; split.
    + assert (exists k, (k <= 9)%nat /\ (10 - Z.to_nat n = k)%nat) as (k & Hk & ->)
          by (exists (10 - Z.to_nat n)%nat; lia).
      do 10 (destruct k as [|k]; [reflexivity|]); lia.
    + rewrite <- Eq; apply query_conversations_evaluable.
  - intros Hc.
    destruct (requested_limit event) as [n|]; [|contradiction].
    destruct ((n <? 1) || (10 <? n)) eqn:E.
    + rewrite H in Hc; discriminate.
    + exists n; split; [reflexivity | lia].
  - intros Hc.
    destruct (requested_limit event) as [n|] eqn:En.
    + destruct ((n <? 1) || (10 <? n)) eqn:E.
      * rewrite H; simpl; split; [reflexivity | eexists; split; reflexivity].
      * rewrite H in Hc; simpl in Hc; congruence.
    + clear H; unfold lambda_handler, QueryServer.lambda_handler,
        QueryServer.handle, requested_limit, QueryServer.requested_limit in *.
      destruct (QueryServer.request_body loads "limit" event) as [b|e];
        [|simpl; split; [reflexivity | eexists; split; reflexivity]].
      destruct b; simpl;
        try (split; [reflexivity | eexists; split; reflexivity]).
      destruct (QueryServer.int_value _) as [n|]; [discriminate|].
      simpl; split; [reflexivity | eexists; split; reflexivity].
Qed.

End QueryServerFacts.

Lemma query_conversations_slice_witness :
  let stamp := fun _ : nat => "2024-01-01T00:00:00" in
  QueryServer.query_conversations stamp 0 = QueryServer.CONVERSATIONS stamp /\
  length (QueryServer.query_conversations stamp 3) = 3%nat /\
  QueryServer.query_conversations stamp (-8)
  = skipn 8 (QueryServer.CONVERSATIONS stamp).
Proof.
  intros stamp.
  destruct (query_conversations_slice stamp 0) as (_ & H0 & _).
  destruct (query_conversations_slice stamp 3) as (H3 & _ & _).
  destruct (query_conversations_slice stamp (-8)) as (_ & _ & H8).
  split; [apply H0; left; reflexivity|]; split.
  - apply H3; lia.
  - apply H8; lia.
Defined.

Lemma lambda_handler_validates_limit_witness :
  let stamp := fun _ : nat => "2024-01-01T00:00:00" in
  let loads := fun _ : string => @Raise json (RemoteError "Expecting value") in
  QueryServer.statusCode (QueryServer.lambda_handler stamp loads (limit_event 3)) = 200
  /\
  Py.assoc "conversations"
    (match QueryServer.body (QueryServer.lambda_handler stamp loads (limit_event 11))
     with JObj kv => kv | _ => [] end) = None.
Proof.
  intros stamp loads.
  destruct (lambda_handler_validates_limit stamp loads (limit_event 3))
    as (Hok & _ & _).
  destruct (lambda_handler_validates_limit stamp loads (limit_event 11))
    as (_ & _ & Hbad).
  split.
  - destruct (Hok 3 eq_refl) as (-> & _); [lia | reflexivity].
  - apply Hbad; vm_compute; discriminate.
Defined.

(** ** The planner in front of the query server *)

Lemma complete_evaluable conv : complete conv -> evaluable conv.
Proof.
  intros (kv & -> & Hi & _ & Hq & Ha); exists kv; auto.
Qed.

Lemma CONVERSATIONS_complete stamp : Forall complete (QueryServer.CONVERSATIONS stamp).
Proof.
  repeat constructor; eexists; (split; [reflexivity|]);
    repeat split; discriminate.
Qed.

Lemma show_conversations_ok stream convs :
  Forall complete convs ->
  forall results w,
  exists r w', Planner.show_conversations stream convs results w = (Ok r, w')
               /\ calls w' = calls w /\ files w' = files w.
Proof.
  induction 1 as [|conv rest (kv & -> & Hi & Ht & Hq & Ha) _ IH];
    intros results w; simpl; [eauto|].
  destruct (Py.assoc "id" kv) as [id|]; [|congruence].
  destruct (Py.assoc "timestamp" kv) as [ts|]; [|congruence].
  destruct (Py.assoc "user_message" kv) as [q|]; [|congruence].
  destruct (Py.assoc "bot_response" kv) as [a|]; [|congruence].
  rewrite !(bind_ok (lift (Ok _)) _ w _ w eq_refl).
  destruct (when_print_ok stream [LConvHeader id ts; LConvQ q; LConvA a; LBlank] w)
    as (w1 & E1 & C1 & F1).
  rewrite (bind_ok _ _ _ _ _ E1).
  destruct (IH (results ++ [LConvHeader id ts; LConvQ q; LConvA a; LBlank]) w1)
    as (r & w' & E' & C' & F').
  exists r, w'; repeat split; congruence.
Qed.

(** After a query that failed, the run is over. *)
Lemma after_query_failure E A stream eff goal_lower r v err w :
  Py.get r "success" = Ok v -> Py.truthy v = false -> Py.get r "error" = Ok err ->
  exists w', after_query E A stream eff goal_lower r w = (Ok [LErrFetching err], w')
             /\ calls w' = calls w.
Proof.
  intros Hs Ht He; unfold after_query.
  rewrite Hs, (bind_ok (lift (Ok v)) _ w v w eq_refl), Ht; cbn [negb].
  rewrite He, (bind_ok (lift (Ok err)) _ w err w eq_refl).
  destruct (when_print_ok stream [LErrFetching err] w) as (w1 & E1 & C1 & _).
  rewrite (bind_ok _ _ _ _ _ E1); eauto.
Qed.

(** After a query that returned complete conversations, a goal that asks
    for a review has each of them evaluated, in order. *)
Lemma after_query_success E A stream eff goal_lower r v convs w :
  Py.get r "success" = Ok v -> Py.truthy v = true ->
  Py.get_default r "conversations" (JList []) = Ok (JList convs) ->
  Forall complete convs ->
  (forall history c, exists kv, Planner.tool_result E history c = JObj kv) ->
  Str.contains "review" goal_lower || Str.contains "evaluate" goal_lower
  || Str.contains "check" goal_lower = true ->
  exists tail,
    calls (snd (after_query E A stream eff goal_lower r w))
    = calls w ++ map evaluation_of convs ++ tail /\
    (tail = [] \/
     exists avg n,
       tail = [Call submit_prompt_update
                    (UpdateArgs (prompt_for eff) (AutomatedUpdate avg n))]).
Proof.
  intros Hs Ht Hc Hconvs Hdict Hk; unfold after_query.
  rewrite Hs, (bind_ok (lift (Ok v)) _ w v w eq_refl), Ht; cbn [negb].
  rewrite Hc, (bind_ok (lift (Ok _)) _ w _ w eq_refl).
  simpl Py.len.
  rewrite (bind_ok (lift (Ok _)) _ w _ w eq_refl).
  destruct (when_print_ok stream [LBlank; LRetrieved (length convs)] w)
    as (w1 & E1 & C1 & F1).
  rewrite (bind_ok _ _ _ _ _ E1).
  destruct (when_print_ok (Planner.debug A) [LDbgRetrieved (length convs)] w1)
    as (w2 & E2 & C2 & F2).
  rewrite (bind_ok _ _ _ _ _ E2).
  assert (exists results w3,
             (if Str.contains_any ["get"; "show"; "list"; "display"] goal_lower
              then
                bind (when stream (print [LBlank])) (fun _ =>
                bind (lift (Py.iter (JList convs))) (fun cs =>
                  Planner.show_conversations stream cs [LRetrieved (length convs)]))
              else ret [LRetrieved (length convs)]) w2 = (Ok results, w3)
             /\ calls w3 = calls w2) as (results & w3 & E3 & C3).
  { destruct (Str.contains_any _ _); [|simpl; eauto].
    destruct (when_print_ok stream [LBlank] w2) as (w' & E' & C' & F').
    rewrite (bind_ok _ _ _ _ _ E'); simpl Py.iter.
    rewrite (bind_ok (lift (Ok _)) _ w' _ w' eq_refl).
    destruct (show_conversations_ok stream convs Hconvs
                [LRetrieved (length convs)] w') as (r' & w'' & E'' & C'' & _).
    exists r', w''; split; [exact E'' | congruence]. }
  rewrite (bind_ok _ _ _ _ _ E3), Hk.
  unfold Planner.evaluate_step.
  destruct (when_print_ok (Planner.debug A) [LDbgEvaluating (length convs)] w3)
    as (w4 & E4 & C4 & F4).
  rewrite (bind_ok _ _ _ _ _ E4).
  destruct (when_print_ok stream [LBlank; LEvaluating (length convs)] w4)
    as (w5 & E5 & C5 & F5).
  rewrite (bind_ok _ _ _ _ _ E5); simpl Py.iter.
  rewrite (bind_ok (lift (Ok _)) _ w5 _ w5 eq_refl).
  destruct (evaluate_all_calls E A stream (length convs) convs
              (Forall_impl _ _ _ Hconvs complete_evaluable) Hdict
              1%nat [] [] w5) as (se & w6 & E6 & C6 & _ & _).
  rewrite (bind_ok _ _ _ _ _ E6).
  destruct (report_and_decide_submits_once E A stream eff goal_lower
              (fst se) (snd se) results w6) as [Hq | (avg & n & Hq)].
  - exists []; rewrite app_nil_r; split; [|now left].
    rewrite Hq, C6, C5, C4, C3, C2, C1; reflexivity.
  - eexists; split; [|right; eauto].
    rewrite Hq, C6, C5, C4, C3, C2, C1, <- app_assoc; reflexivity.
Qed.

(** X15.  The planner in front of the query server.  The planner passes the
    count that it reads in the goal to the server unchanged, without
    bounding it.  When the query tool hands the planner the body that
    [lambda_handler] answers to that count: a count outside 1..10 ends the
    run with the line "Error fetching conversations: Invalid limit
    parameter. Must be between 1 and 10." and the query as its only call;
    for a count within 1..10 and a goal that asks for a review, the run
    evaluates exactly the [count] most recent conversations, oldest first
    (provided that the tools answer with dictionaries), and then submits at
    most once. *)
Theorem planner_over_query_server
        (stamp : nat -> string) (loads : string -> outcome json)
        E A goal stream override w :
  let limit := Planner.limit_of (Str.lower goal) in
  let query := Call query_conversations (QueryArgs limit) in
  let run := Planner.execute_goal E A goal stream override w in
  Planner.is_direct_pr (Str.lower goal) = false ->
  (forall history,
      Planner.tool_result E history query
      = QueryServer.body (QueryServer.lambda_handler stamp loads (limit_event limit))) ->
  (limit < 1 \/ 10 < limit ->
   fst run = [LErrFetching (JStr "Invalid limit parameter. Must be between 1 and 10.")]
   /\ calls (snd run) = calls w ++ [query])
  /\
  (1 <= limit <= 10 ->
   (forall history c, exists kv, Planner.tool_result E history c = JObj kv) ->
   Str.contains "review" (Str.lower goal) || Str.contains "evaluate" (Str.lower goal)
   || Str.contains "check" (Str.lower goal) = true ->
   exists tail,
     calls (snd run)
     = calls w ++ query ::
         map evaluation_of
             (skipn (10 - Z.to_nat limit) (QueryServer.CONVERSATIONS stamp)) ++ tail
     /\ length (skipn (10 - Z.to_nat limit) (QueryServer.CONVERSATIONS stamp))
        = Z.to_nat limit
     /\ (tail = [] \/
         exists avg n,
           tail = [Call submit_prompt_update
                        (UpdateArgs (prompt_for (Planner.effective_custom_prompt A override))
                                    (AutomatedUpdate avg n))])).
Proof.
  intros limit query run Hd Hserver.
  destruct (run_query_step E A goal stream override (Planner.announce A goal w) Hd)
    as (w2 & C2 & _ & Hrun).
  fold limit in C2, Hrun; fold query in C2, Hrun.
  rewrite Hserver in Hrun.
  destruct (announce_calls A goal w) as [C0 _]; rewrite C0 in C2.
  pose proof (handle_cases stamp loads (limit_event limit)) as Hh.
  change (QueryServer.requested_limit loads (limit_event limit)) with (Some limit) in Hh.
  cbv iota in Hh.
  split.
  - intros Hl.
    replace ((limit <? 1) || (10 <? limit)) with true in Hh by lia.
    rewrite Hh in Hrun.
    destruct (after_query_failure E A stream (Planner.effective_custom_prompt A override)
                (Str.lower goal) (QueryServer.body QueryServer.invalid_limit)
                JNull (JStr "Invalid limit parameter. Must be between 1 and 10.") w2
                eq_refl eq_refl eq_refl) as (w' & Ew & Cw).
    subst run; unfold Planner.execute_goal; rewrite Hrun, Ew; simpl.
    split; [reflexivity | congruence].
  - intros Hl Hdict Hk.
    replace ((limit <? 1) || (10 <? limit)) with false in Hh by lia.
    rewrite (query_conversations_recent stamp limit Hl) in Hh.
    rewrite Hh in Hrun.
    match type of Hrun with
    | _ = after_query _ _ _ _ _ ?r _ =>
        destruct (after_query_success E A stream
                    (Planner.effective_custom_prompt A override)
                    (Str.lower goal) r (JBool true)
                    (skipn (10 - Z.to_nat limit) (QueryServer.CONVERSATIONS stamp)) w2
                    eq_refl eq_refl eq_refl
                    (Forall_drop _ _ _ (CONVERSATIONS_complete stamp)) Hdict Hk)
          as (tail & Hc & Ht)
    end.
    exists tail; split; [|split; [|exact Ht]].
    + subst run; rewrite execute_goal_calls, Hrun, Hc, C2, <- app_assoc.
      reflexivity.
    + rewrite length_skipn, (CONVERSATIONS_length stamp); lia.
Qed.

Lemma planner_over_query_server_witness :
  let stamp := fun _ : nat => "2024-01-01T00:00:00" in
  let loads := fun _ : string => @Raise json (RemoteError "Expecting value") in
  let server := fun limit =>
    Env (fun _ c =>
           match call_tool c with
           | query_conversations =>
               Ok (QueryServer.body
                     (QueryServer.lambda_handler stamp loads (limit_event limit)))
           | _ => Sample.scored 4
           end) loads in
  fst (Planner.execute_goal (server 20) Sample.agent0
         "Review the last 20 conversations" false None Sample.fresh)
  = [LErrFetching (JStr "Invalid limit parameter. Must be between 1 and 10.")]
  /\
  exists tail,
    calls (snd (Planner.execute_goal (server 2) Sample.agent0
                  "Review the last 2 conversations" false None Sample.fresh))
    = Call query_conversations (QueryArgs 2) ::
        map evaluation_of (skipn 8 (QueryServer.CONVERSATIONS stamp)) ++ tail.
Proof.
  intros stamp loads server; split.
  - destruct (planner_over_query_server stamp loads (server 20) Sample.agent0
                "Review the last 20 conversations" false None Sample.fresh)
      as [Hbad _]; [reflexivity | intros history; reflexivity |].
    apply Hbad; right; vm_compute; reflexivity.
  - destruct (planner_over_query_server stamp loads (server 2) Sample.agent0
                "Review the last 2 conversations" false None Sample.fresh)
      as [_ Hgood]; [reflexivity | intros history; reflexivity |].
    destruct Hgood as (tail & Hc & _ & _).
    + vm_compute; split; discriminate.
    + intros history [[] a]; eexists; reflexivity.
    + reflexivity.
    + exists tail; exact Hc.
Defined.

(** ** The evaluation server *)

Section EvalServerFacts.
Variable loads : string -> EvalServer.result EvalServer.value.
Variable invoke_model :
  EvalServer.value -> EvalServer.value -> EvalServer.result string.

Let parse_evaluation := EvalServer.parse_evaluation loads.
Let evaluate_response := EvalServer.evaluate_response loads invoke_model.
Let lambda_handler := EvalServer.lambda_handler loads invoke_model.
Let request_of := EvalServer.request_of loads.

(** A float from 1 to 5 truncates to an integer from 1 to 5. *)
Lemma truncation_in_range (q : Q) :
  Py.Qltb q (inject_Z 1) = false -> Py.Qltb (inject_Z 5) q = false ->
  1 <= Z.quot (Qnum q) (Z.pos (Qden q)) <= 5.
Proof.
  intros Hlo Hhi; apply Qltb_ge in Hlo, Hhi.
  destruct q as [n d]; unfold Qle in *; simpl in *.
  rewrite Z.quot_div_nonneg by lia.
  split.
  - apply Z.div_le_lower_bound; lia.
  - apply Z.div_le_upper_bound; lia.
Qed.

(** The score that passed the validation converts to an integer from 1 to
    5, or does not convert at all (NaN). *)
Lemma validated_score (v : EvalServer.value) (n : Z) :
  EvalServer.int_of_number
    (if negb (EvalServer.is_number v) || EvalServer.lt_int v 1
        || EvalServer.gt_int v 5
     then EvalServer.VInt 3 else v) = EvalServer.Return n ->
  1 <= n <= 5.
Proof.
  destruct v as [|b|z|q| |neg|s|l|kv]; simpl;
    try (intros [= <-]; lia); try discriminate.
  - destruct b; simpl; intros [= <-]; lia.
  - destruct (z <? 1) eqn:E1; simpl; [intros [= <-]; lia|].
    destruct (5 <? z) eqn:E5; simpl; intros [= <-]; lia.
  - destruct (Py.Qltb q (inject_Z 1)) eqn:E1; simpl; [intros [= <-]; lia|].
    destruct (Py.Qltb (inject_Z 5) q) eqn:E5; simpl; intros [= <-];
      [lia | now apply truncation_in_range].
  - destruct neg; simpl; intros [= <-]; lia.
Qed.

Lemma parse_evaluation_score content ev :
  parse_evaluation content = EvalServer.Return ev ->
  1 <= EvalServer.score ev <= 5 /\ exists v, EvalServer.comment ev = EvalServer.Comment v.
Proof.
  unfold parse_evaluation, EvalServer.parse_evaluation.
  destruct (_ && _); [|intros [= <-]; simpl; split; [lia | eauto]].
  destruct (loads _) as [evaluation|e]; simpl; [|discriminate].
  destruct (EvalServer.get evaluation "score" _) as [v|e]; simpl; [|discriminate].
  destruct (EvalServer.int_of_number _) as [n|e] eqn:En; simpl; [|discriminate].
  destruct (EvalServer.get evaluation "comment" _) as [c|e]; simpl; [|discriminate].
  intros [= <-]; simpl; split; [exact (validated_score v n En) | eauto].
Qed.

Lemma evaluate_response_cases (question answer : EvalServer.value) :
  let r := evaluate_response question answer in
  1 <= EvalServer.score r <= 5 /\
  (forall e, EvalServer.comment r = EvalServer.EvaluationError e ->
             EvalServer.score r = 3) /\
  (forall e, invoke_model question answer = EvalServer.Except e ->
             r = EvalServer.Evaluation 3 (EvalServer.EvaluationError e)).
Proof.
  unfold evaluate_response, EvalServer.evaluate_response.
  destruct (EvalServer.evaluate_try loads invoke_model question answer)
    as [ev|e] eqn:Et; simpl.
  - assert (1 <= EvalServer.score ev <= 5 /\
            exists v, EvalServer.comment ev = EvalServer.Comment v) as [Hr [v Hv]].
    { unfold EvalServer.evaluate_try in Et.
      destruct (invoke_model question answer) as [text|?]; simpl in Et; [|discriminate].
      destruct (loads text) as [body|?]; simpl in Et; [|discriminate].
      destruct (EvalServer.subscript body "content") as [blocks|?]; simpl in Et;
        [|discriminate].
      destruct (EvalServer.first blocks) as [block|?]; simpl in Et; [|discriminate].
      destruct (EvalServer.subscript block "text") as [content|?]; simpl in Et;
        [|discriminate].
      destruct content; try discriminate.
      now apply (parse_evaluation_score s). }
    split; [exact Hr|]; split.
    + intros e He; congruence.
    + intros e He; unfold EvalServer.evaluate_try in Et; rewrite He in Et;
        discriminate.
  - split; [lia|]; split; [reflexivity|].
    intros e' He; unfold EvalServer.evaluate_try in Et; rewrite He in Et.
    simpl in Et; congruence.
Qed.

(** X16.  [evaluate_response] never raises and always returns an integer
    score from 1 to 5, whatever the grader answers: a score that is missing,
    not a number, or outside 1..5 becomes 3, a float is truncated, and
    every failure (of the grader, of the parsing, of the conversion of NaN)
    gives the score 3 with the comment "Evaluation error: ...". *)
Theorem evaluate_response_score_in_range (question answer : EvalServer.value) :
  let r := evaluate_response question answer in
  1 <= EvalServer.score r <= 5 /\
  (forall e, EvalServer.comment r = EvalServer.EvaluationError e ->
             EvalServer.score r = 3) /\
  (forall e, invoke_model question answer = EvalServer.Except e ->
             r = EvalServer.Evaluation 3 (EvalServer.EvaluationError e)).
Proof. exact (evaluate_response_cases question answer). Qed.

Lemma find_from_app pre rest i :
  EvalServer.lacks "{" pre ->
  EvalServer.find_from "{" (pre +:+ String "{" rest) i
  = i + Z.of_nat (String.length pre).
Proof.
  revert i; induction pre as [|a pre IH]; intros i; simpl.
  - intros _; lia.
  - intros [Ha Hp]; destruct (Ascii.eqb a "{") eqn:E.
    + apply Ascii.eqb_eq in E; contradiction.
    + rewrite IH by exact Hp; lia.
Qed.

Lemma find_from_bound c s i :
  EvalServer.find_from c s i = -1 \/ i <= EvalServer.find_from c s i.
Proof.
  revert i; induction s as [|a s IH]; intros i; simpl; [now left|].
  destruct (Ascii.eqb a c); [right; lia|].
  destruct (IH (i + 1)) as [H|H]; [now left | right; lia].
Qed.

Lemma find_from_lacks c s i : EvalServer.lacks c s -> EvalServer.find_from c s i = -1.
Proof.
  revert i; induction s as [|a s IH]; intros i; simpl; [reflexivity|].
  intros [Ha Hs]; destruct (Ascii.eqb a c) eqn:E.
  - apply Ascii.eqb_eq in E; contradiction.
  - now apply IH.
Qed.

Lemma rfind_from_lacks c s i last :
  EvalServer.lacks c s -> EvalServer.rfind_from c s i last = last.
Proof.
  revert i last; induction s as [|a s IH]; intros i last; simpl; [reflexivity|].
  intros [Ha Hs]; destruct (Ascii.eqb a c) eqn:E.
  - apply Ascii.eqb_eq in E; contradiction.
  - now apply IH.
Qed.

Lemma rfind_from_app x post i last :
  EvalServer.lacks "}" post ->
  EvalServer.rfind_from "}" (x +:+ String "}" post) i last
  = i + Z.of_nat (String.length x).
Proof.
  intros Hp; revert i last; induction x as [|a x IH]; intros i last; simpl.
  - rewrite rfind_from_lacks by exact Hp; lia.
  - rewrite IH; lia.
Qed.

Lemma substring_app pre s post :
  String.substring (String.length pre) (String.length s) (pre +:+ s +:+ post) = s.
Proof.
  induction pre as [|a pre IH]; simpl; [|exact IH].
  induction s as [|b s IHs]; simpl.
  - destruct post; reflexivity.
  - now rewrite IHs.
Qed.

(** Where the JSON text is found: from the first opening brace to the last
    closing brace. *)
Lemma extraction pre mid post :
  EvalServer.lacks "{" pre -> EvalServer.lacks "}" post ->
  let content := pre +:+ String "{" (mid +:+ String "}" post) in
  let start_idx := EvalServer.find "{" content in
  let end_idx := EvalServer.rfind "}" content + 1 in
  negb (start_idx =? -1) && (start_idx <? end_idx) = true /\
  EvalServer.slice start_idx end_idx content = String "{" (mid +:+ "}").
Proof.
  intros Hpre Hpost content start_idx end_idx.
  assert (start_idx = Z.of_nat (String.length pre)) as Hs.
  { unfold start_idx, EvalServer.find, content; rewrite find_from_app by exact Hpre.
    lia. }
  assert (end_idx = Z.of_nat (String.length pre)
                    + Z.of_nat (String.length (String "{" (mid +:+ "}")))) as He.
  { unfold end_idx, EvalServer.rfind, content.
    replace (pre +:+ String "{" (mid +:+ String "}" post))
      with ((pre +:+ String "{" mid) +:+ String "}" post)
      by (rewrite app_assoc_s; reflexivity).
    rewrite rfind_from_app by exact Hpost.
    rewrite !length_app_s; simpl String.length; rewrite !length_app_s.
    simpl String.length; lia. }
  split.
  - rewrite Hs, He; simpl String.length.
    apply andb_true_intro; split;
      [apply negb_true_iff, Z.eqb_neq | apply Z.ltb_lt]; lia.
  - unfold EvalServer.slice; rewrite Hs, He.
    replace (Z.to_nat (Z.of_nat (String.length pre)))
      with (String.length pre) by lia.
    replace (Z.to_nat (_ + _ - _))
      with (String.length (String "{" (mid +:+ "}"))) by lia.
    unfold content.
    replace (pre +:+ String "{" (mid +:+ String "}" post))
      with (pre +:+ String "{" (mid +:+ "}") +:+ post).
    + apply substring_app.
    + f_equal; simpl; f_equal; rewrite app_assoc_s; reflexivity.
Qed.

(** X17.  [evaluate_response] reads the grader's text from its first
    opening brace to its last closing brace: text before the first brace
    and after the last one changes nothing, so that the outcome is that of
    the bare JSON text; and a text without an opening brace, or without a
    closing brace, gives the score 3 with the comment "Unable to parse
    evaluation response", without [json.loads] being asked. *)
Theorem parse_evaluation_ignores_surrounding_text (pre mid post content : string) :
  (EvalServer.lacks "{" pre -> EvalServer.lacks "}" post ->
   parse_evaluation (pre +:+ String "{" (mid +:+ String "}" post))
   = parse_evaluation (String "{" (mid +:+ "}")))
  /\
  (EvalServer.lacks "{" content \/ EvalServer.lacks "}" content ->
   parse_evaluation content
   = EvalServer.Return
       (EvalServer.Evaluation 3
          (EvalServer.Comment (EvalServer.VStr "Unable to parse evaluation response")))).
Proof.
  split.
  - intros Hpre Hpost.
    destruct (extraction pre mid post Hpre Hpost) as [Hc Hs].
    destruct (extraction "" mid "" I I) as [Hc' Hs'].
    unfold parse_evaluation, EvalServer.parse_evaluation.
    cbv zeta in Hc, Hs, Hc', Hs'.
    change ("" +:+ String "{" (mid +:+ String "}" ""))
      with (String "{" (mid +:+ "}")) in Hc', Hs'.
    rewrite Hc, Hs, Hc', Hs'; reflexivity.
  - intros [H|H]; unfold parse_evaluation, EvalServer.parse_evaluation.
    + unfold EvalServer.find; rewrite find_from_lacks by exact H; reflexivity.
    + unfold EvalServer.rfind; rewrite rfind_from_lacks by exact H.
      pose proof (find_from_bound "{" content 0) as Hb.
      fold (EvalServer.find "{" content) in Hb.
      destruct (EvalServer.find "{" content =? -1) eqn:E1; [reflexivity|].
      destruct (EvalServer.find "{" content <? -1 + 1) eqn:E2; [|reflexivity].
      apply Z.eqb_neq in E1; apply Z.ltb_lt in E2; lia.
Qed.

(** X18.  The handler answers 200 with [success: True] and a score from 1
    to 5 for every request whose question and answer are both non-empty,
    also when the grader fails: then the score is 3 and the comment reports
    the error.  It answers 400 when the question or the answer is missing or
    empty, and 500 only when the parameters cannot be read (a body that is
    no JSON text, or no dictionary). *)
Theorem lambda_handler_reports_success (event : EvalServer.value) :
  match request_of event with
  | Some (question, answer) =>
      if EvalServer.truthy question && EvalServer.truthy answer then
        exists n c,
          lambda_handler event
          = EvalServer.Response 200 (EvalServer.Evaluated question answer n c) /\
          1 <= n <= 5 /\
          (forall e, invoke_model question answer = EvalServer.Except e ->
                     n = 3 /\ c = EvalServer.EvaluationError e)
      else lambda_handler event = EvalServer.Response 400 EvalServer.Required
  | None => EvalServer.statusCode (lambda_handler event) = 500
  end.
Proof.
  unfold request_of, EvalServer.request_of, lambda_handler,
    EvalServer.lambda_handler, EvalServer.handle.
  destruct (EvalServer.request_body loads event) as [b|e]; [|reflexivity].
  destruct b; try reflexivity; simpl.
  destruct (EvalServer.truthy (default _ (EvalServer.assoc "question" kv)));
    [|reflexivity].
  destruct (EvalServer.truthy (default _ (EvalServer.assoc "answer" kv)));
    [|reflexivity].
  simpl.
  destruct (evaluate_response_cases
              (default (EvalServer.VStr "") (EvalServer.assoc "question" kv))
              (default (EvalServer.VStr "") (EvalServer.assoc "answer" kv)))
    as (Hr & _ & Hf).
  eexists _, _; split; [reflexivity|]; split; [exact Hr|].
  intros e He; unfold evaluate_response in Hf; rewrite (Hf e He); auto.
Qed.

End EvalServerFacts.

Lemma evaluate_response_score_in_range_witness :
  let grader_text := "I would say {4.7} overall" in
  let loads := fun text : string =>
    if String.eqb text "{4.7}"
    then EvalServer.Return (EvalServer.VObj [("score", EvalServer.VFloat 4.7)])
    else EvalServer.Return
           (EvalServer.VObj
              [("content",
                EvalServer.VList
                  [EvalServer.VObj [("text", EvalServer.VStr grader_text)]])]) in
  let answers := fun _ _ : EvalServer.value => @EvalServer.Return string "body" in
  let fails := fun _ _ : EvalServer.value =>
    @EvalServer.Except string (EvalServer.Raised "Read timeout") in
  let q := EvalServer.VStr "What is Python?" in
  let a := EvalServer.VStr "A language." in
  EvalServer.evaluate_response loads answers q a
  = EvalServer.Evaluation 4 (EvalServer.Comment (EvalServer.VStr "No comment provided"))
  /\
  EvalServer.evaluate_response loads fails q a
  = EvalServer.Evaluation 3
      (EvalServer.EvaluationError (EvalServer.Raised "Read timeout")).
Proof.
  intros grader_text loads answers fails q a; split; [reflexivity|].
  destruct (evaluate_response_score_in_range loads fails q a) as (_ & _ & Hf).
  apply Hf; reflexivity.
Defined.

Lemma parse_evaluation_ignores_surrounding_text_witness :
  let loads := fun text : string =>
    if String.eqb text "{4}"
    then EvalServer.Return (EvalServer.VObj [("score", EvalServer.VInt 4)])
    else EvalServer.Except (EvalServer.Raised "Expecting value") in
  EvalServer.parse_evaluation loads "Sure: {4} I hope this helps"
  = EvalServer.parse_evaluation loads "{4}"
  /\
  EvalServer.parse_evaluation loads "the score is 4"
  = EvalServer.Return
      (EvalServer.Evaluation 3
         (EvalServer.Comment (EvalServer.VStr "Unable to parse evaluation response"))).
Proof.
  intros loads.
  destruct (parse_evaluation_ignores_surrounding_text loads
              "Sure: " "4" " I hope this helps" "the score is 4") as [H1 H2].
  split.
  - apply H1; simpl; repeat split; discriminate.
  - apply H2; left; simpl; repeat split; discriminate.
Defined.

(** ** The hybrid example: simulated scores and the outcome of a goal *)

Lemma sum_between (zs : list Z) :
  Forall (fun z => 2 <= z <= 4) zs ->
  2 * Z.of_nat (length zs) <= Py.sum zs <= 4 * Z.of_nat (length zs).
Proof.
  induction 1 as [|z zs Hz _ IH]; simpl; [lia|].
  change (Py.sum (z :: zs)) with (z + Py.sum zs); lia.
Qed.

Lemma average_between (zs : list Z) :
  zs <> [] -> Forall (fun z => 2 <= z <= 4) zs ->
  (2 <= Hybrid.average zs)%Q /\ (Hybrid.average zs <= 4)%Q.
Proof.
  intros Hne Hzs; pose proof (sum_between zs Hzs) as [Hlo Hhi].
  destruct zs as [|z zs]; [congruence|].
  unfold Hybrid.average.
  set (n := Z.of_nat (length (z :: zs))) in *.
  assert (0 < n) as Hn by (unfold n; simpl; lia).
  assert (0 < inject_Z n)%Q as HnQ
      by (change 0%Q with (inject_Z 0); now rewrite <- Zlt_Qlt).
  split.
  - apply Qle_shift_div_l; [exact HnQ|].
    change 2%Q with (inject_Z 2); rewrite <- inject_Z_mult, <- Zle_Qle; exact Hlo.
  - apply Qle_shift_div_r; [exact HnQ|].
    change 4%Q with (inject_Z 4); rewrite <- inject_Z_mult, <- Zle_Qle; exact Hhi.
Qed.

Lemma simulated_score_between H c : 2 <= Hybrid.simulated_score H c <= 4.
Proof.
  unfold Hybrid.simulated_score.
  pose proof (Z.mod_pos_bound (Hybrid.hash H (Hybrid.conv_id c)) 3); lia.
Qed.

(** X19.  The node [evaluate_responses] gives one evaluation to every
    conversation, in order and under the same identifier; every simulated
    score is 2, 3 or 4 (never 5, although the source comments "between
    2-5"), whatever the hash; so the average of a non-empty set lies
    between 2 and 4. *)
Theorem evaluate_responses_scores (H : Hybrid.henv) (st : Hybrid.state) :
  let convs := default [] (Hybrid.conversations st) in
  exists evals avg,
    Hybrid.evaluations (Hybrid.evaluate_responses H st) = Some evals /\
    Hybrid.average_score (Hybrid.evaluate_responses H st) = Some avg /\
    map Hybrid.ev_id evals = map Hybrid.conv_id convs /\
    Forall (fun e => 2 <= Hybrid.ev_score e <= 4) evals /\
    avg = Hybrid.average (map Hybrid.ev_score evals) /\
    (convs <> [] -> (2 <= avg)%Q /\ (avg <= 4)%Q).
Proof.
  intros convs; unfold Hybrid.evaluate_responses; fold convs; simpl.
  eexists _, _; split; [reflexivity|]; split; [reflexivity|]; split; [|split; [|split]].
  - rewrite map_map; reflexivity.
  - apply Forall_map, Forall_forall; intros c _; apply simulated_score_between.
  - reflexivity.
  - intros Hne; apply average_between.
    + destruct convs; [congruence | discriminate].
    + rewrite map_map; apply Forall_map, Forall_forall; intros c _.
      apply simulated_score_between.
Qed.

Lemma evaluate_responses_scores_witness :
  let H := Sample.henv 7 in
  let st := Hybrid.with_conversations Hybrid.empty_state
              [Hybrid.sample H 0; Hybrid.sample H 1] in
  exists evals avg,
    Hybrid.evaluations (Hybrid.evaluate_responses H st) = Some evals /\
    Hybrid.average_score (Hybrid.evaluate_responses H st) = Some avg /\
    map Hybrid.ev_id evals = ["conv_001"; "conv_002"] /\
    (2 <= avg)%Q /\ (avg <= 4)%Q.
Proof.
  intros H st.
  destruct (evaluate_responses_scores H st) as (evals & avg & E1 & E2 & E3 & _ & _ & E4).
  exists evals, avg; split; [exact E1|]; split; [exact E2|]; split; [exact E3|].
  apply E4; discriminate.
Defined.





(** ** The hybrid example: the threshold of a goal *)







(** ** The planner: what the flags [debug] and [stream] change *)

Lemma agree_ret {A} (a : A) : agree (ret a) (ret a).
Proof. intros w w' H; split; [reflexivity | exact H]. Qed.

Lemma agree_lift {A} (o : outcome A) : agree (lift o) (lift o).
Proof. intros w w' H; split; [reflexivity | exact H]. Qed.

Lemma agree_bind {A B} (m m' : M A) (f f' : A -> M B) :
  agree m m' -> (forall a, agree (f a) (f' a)) -> agree (bind m f) (bind m' f').
Proof.
  intros Hm Hf w w' Hw; unfold bind.
  destruct (Hm w w' Hw) as [Hr Hs].
  destruct (m w) as [[a|e] w1], (m' w') as [[a'|e'] w1']; simpl in *;
    try discriminate.
  - injection Hr as <-; now apply Hf.
  - split; [congruence | exact Hs].
Qed.

Lemma agree_bind_lift {A B} (o : outcome A) (f f' : A -> M B) :
  (forall a, o = Ok a -> agree (f a) (f' a)) ->
  agree (bind (lift o) f) (bind (lift o) f').
Proof.
  intros Hf w w' Hw; unfold bind, lift; destruct o as [a|e]; simpl.
  - now apply Hf.
  - split; [reflexivity | exact Hw].
Qed.

(** Two computations that return [None] and only print. *)
Lemma agree_silent (m m' : M unit) :
  (forall w, fst (m w) = Ok tt /\ same_effects w (snd (m w))) ->
  (forall w, fst (m' w) = Ok tt /\ same_effects w (snd (m' w))) ->
  agree m m'.
Proof.
  intros Hm Hm' w w' [Hc Hf].
  destruct (Hm w) as [E1 [C1 F1]], (Hm' w') as [E2 [C2 F2]].
  split; [congruence | split; congruence].
Qed.

Lemma when_print_silent b l w :
  fst (when b (print l) w) = Ok tt /\ same_effects w (snd (when b (print l) w)).
Proof. destruct b; simpl; repeat split. Qed.

Lemma agree_when b b' l l' : agree (when b (print l)) (when b' (print l')).
Proof. apply agree_silent; intros w; apply when_print_silent. Qed.

Lemma agree_call E t a :
  agree (Planner.MCPTool_call E t a) (Planner.MCPTool_call E t a).
Proof.
  intros w w' [Hc Hf]; unfold Planner.MCPTool_call; simpl.
  rewrite Hc, Hf; repeat split.
Qed.

Ltac agree_step :=
  first [ apply agree_ret | apply agree_lift | apply agree_when | apply agree_call
        | apply agree_bind; [|intros ?] ].

Lemma choose_prompt_agree stream stream' eff :
  agree (Planner.choose_prompt stream eff) (Planner.choose_prompt stream' eff).
Proof. unfold Planner.choose_prompt; destruct (Py.truthy_str eff); repeat agree_step. Qed.

Lemma direct_pr_agree E stream stream' eff :
  agree (Planner.direct_pr E stream eff) (Planner.direct_pr E stream' eff).
Proof.
  unfold Planner.direct_pr.
  agree_step; [agree_step|].
  agree_step; [apply choose_prompt_agree|].
  agree_step; [agree_step|].
  agree_step; [agree_step|].
  destruct (Py.truthy _); repeat agree_step.
Qed.

Lemma show_conversations_agree stream stream' convs :
  forall results,
    agree (Planner.show_conversations stream convs results)
          (Planner.show_conversations stream' convs results).
Proof.
  induction convs as [|conv rest IH]; intros results; simpl; [agree_step|].
  do 4 (agree_step; [agree_step|]).
  agree_step; [agree_step|]. apply IH.
Qed.

Lemma show_scores_agree stream stream' evaluations :
  forall results,
    agree (Planner.show_scores stream evaluations results)
          (Planner.show_scores stream' evaluations results).
Proof.
  induction evaluations as [|ev rest IH]; intros results; simpl; [agree_step|].
  agree_step; [agree_step|].
  agree_step; [agree_step|]. apply IH.
Qed.

(** The line that streaming prints before an evaluation reads the
    identifier of the conversation. *)
Lemma announce_conversation_agree (stream stream' : bool) (conv : json) :
  stream = stream' \/ has_id conv ->
  agree (if stream
         then bind (lift (Py.subscript conv "id"))
                   (fun id => print [LEvaluatingConv id])
         else ret tt)
        (if stream'
         then bind (lift (Py.subscript conv "id"))
                   (fun id => print [LEvaluatingConv id])
         else ret tt).
Proof.
  intros [<- | [id Hid]].
  - destruct stream; [|agree_step].
    agree_step; [agree_step|].
    apply (agree_when true true [LEvaluatingConv a] [LEvaluatingConv a]).
  - rewrite Hid; apply agree_silent; intros w.
    + destruct stream; simpl; repeat split.
    + destruct stream'; simpl; repeat split.
Qed.

Lemma evaluate_all_agree E A A' (stream stream' : bool) total convs :
  stream = stream' \/ Forall has_id convs ->
  forall i scores evaluations,
    agree (Planner.evaluate_all E A stream total i convs scores evaluations)
          (Planner.evaluate_all E A' stream' total i convs scores evaluations).
Proof.
  intros Hs; induction convs as [|conv rest IH]; intros i scores evaluations;
    simpl; [agree_step|].
  assert (stream = stream' \/ has_id conv) as Hconv
      by (destruct Hs as [?|Hf]; [now left | right; now inversion Hf]).
  assert (stream = stream' \/ Forall has_id rest) as Hrest
      by (destruct Hs as [?|Hf]; [now left | right; now inversion Hf]).
  agree_step; [agree_step|].
  agree_step; [now apply announce_conversation_agree|].
  do 4 (agree_step; [agree_step|]).
  destruct (Py.truthy _); [|now apply IH].
  do 5 (agree_step; [agree_step|]).
  now apply IH.
Qed.

Lemma create_pr_agree E A A' stream stream' eff zs avg results :
  agree (Planner.create_pr E A stream eff zs avg results)
        (Planner.create_pr E A' stream' eff zs avg results).
Proof.
  unfold Planner.create_pr.
  do 2 (agree_step; [agree_step|]).
  agree_step; [apply choose_prompt_agree|].
  do 2 (agree_step; [agree_step|]).
  destruct (Py.truthy _); repeat agree_step.
Qed.

Lemma report_and_decide_agree E A A' stream stream' eff goal_lower scores
      evaluations results :
  agree (Planner.report_and_decide E A stream eff goal_lower scores evaluations results)
        (Planner.report_and_decide E A' stream' eff goal_lower scores evaluations
                                   results).
Proof.
  unfold Planner.report_and_decide; destruct scores as [|s scores]; [agree_step|].
  agree_step; [agree_step|].
  agree_step; [agree_step|].
  agree_step; [apply show_scores_agree|].
  agree_step; [agree_step|].
  destruct (Planner.should_create_pr _ _ _); [apply create_pr_agree|].
  repeat agree_step.
Qed.

Lemma evaluate_step_agree E A A' (stream stream' : bool) eff goal_lower
      conversations n results :
  stream = stream' \/
  (forall convs, Py.iter conversations = Ok convs -> Forall has_id convs) ->
  agree (Planner.evaluate_step E A stream eff goal_lower conversations n results)
        (Planner.evaluate_step E A' stream' eff goal_lower conversations n results).
Proof.
  intros Hs; unfold Planner.evaluate_step.
  do 2 (agree_step; [agree_step|]).
  apply agree_bind_lift; intros convs Hconvs.
  agree_step.
  - apply evaluate_all_agree; destruct Hs as [?|Hf]; [now left | right; auto].
  - apply report_and_decide_agree.
Qed.

Lemma after_query_agree E A A' (stream stream' : bool) eff goal_lower history
      limit :
  stream = stream' \/ ids_present E ->
  agree (after_query E A stream eff goal_lower
           (Planner.tool_result E history
              (Call query_conversations (QueryArgs limit))))
        (after_query E A' stream' eff goal_lower
           (Planner.tool_result E history
              (Call query_conversations (QueryArgs limit)))).
Proof.
  intros Hs; unfold after_query.
  agree_step; [agree_step|].
  destruct (negb _); [repeat agree_step|].
  apply agree_bind_lift; intros conversations Hconversations.
  do 3 (agree_step; [agree_step|]).
  agree_step.
  - destruct (Str.contains_any _ _); [|agree_step].
    do 2 (agree_step; [agree_step|]).
    apply show_conversations_agree.
  - destruct (_ || _); [|agree_step].
    apply evaluate_step_agree.
    destruct Hs as [?|Hids]; [now left | right].
    intros convs Hconvs; exact (Hids _ _ _ _ Hconversations Hconvs).
Qed.

Lemma run_agree E A A' goal (stream stream' : bool) override :
  Planner.custom_prompt A = Planner.custom_prompt A' ->
  stream = stream' \/ ids_present E ->
  agree (Planner.run E A goal stream override)
        (Planner.run E A' goal stream' override).
Proof.
  intros Hp Hs.
  assert (Planner.effective_custom_prompt A override
          = Planner.effective_custom_prompt A' override) as Heff
      by (unfold Planner.effective_custom_prompt; now rewrite Hp).
  destruct (Planner.is_direct_pr (Str.lower goal)) eqn:Hd.
  - unfold Planner.run; rewrite Hd, Heff; apply direct_pr_agree.
  - rewrite !(run_after_query _ _ _ _ _ Hd), Heff.
    agree_step; [agree_step|].
    intros w w' Hw; unfold bind.
    rewrite !MCPTool_call_eq.
    destruct Hw as [Hc Hf]; rewrite <- Hc, <- Hf.
    apply after_query_agree; [exact Hs | split; reflexivity].
Qed.

(** X22.  The flag [debug] changes nothing but what is printed: two runs
    that differ in it return the same text, invoke the same tools with the
    same arguments and leave the approval store alike.  The same holds for
    [stream], provided that every conversation that the query tool returns
    has an ["id"]: streaming reads the identifier before the evaluation is
    requested. *)
Theorem flags_change_only_the_output E A A' goal (stream stream' : bool) override w :
  Planner.custom_prompt A = Planner.custom_prompt A' ->
  stream = stream' \/ ids_present E ->
  let r := Planner.execute_goal E A goal stream override w in
  let r' := Planner.execute_goal E A' goal stream' override w in
  fst r = fst r' /\ calls (snd r) = calls (snd r') /\ files (snd r) = files (snd r').
Proof.
  intros Hp Hs r r'; unfold r, r', Planner.execute_goal.
  assert (same_effects (Planner.announce A goal w) (Planner.announce A' goal w)) as H0.
  { destruct (announce_calls A goal w) as [C F], (announce_calls A' goal w) as [C' F'].
    split; congruence. }
  destruct (run_agree E A A' goal stream stream' override Hp Hs _ _ H0) as [Hr [Hc Hf]].
  destruct (Planner.run E A goal stream override (Planner.announce A goal w))
    as [[text|e] w1];
    destruct (Planner.run E A' goal stream' override (Planner.announce A' goal w))
      as [[text'|e'] w1']; simpl in *; try discriminate.
  - injection Hr as <-; auto.
  - injection Hr as <-.
    destruct (Planner.debug A), (Planner.debug A'); simpl; auto.
Qed.

Lemma flags_change_only_the_output_witness :
  let goal := "Review the last 2 conversations" in
  let E := Sample.steady 2 3 in
  fst (Planner.execute_goal E (Planner.Agent true None) goal true None Sample.fresh)
  = fst (Planner.execute_goal E Sample.agent0 goal false None Sample.fresh).
Proof.
  intros goal E.
  apply (flags_change_only_the_output E (Planner.Agent true None) Sample.agent0
           goal true false None Sample.fresh).
  - reflexivity.
  - right; intros history limit v convs Hv Hc.
    vm_compute in Hv; injection Hv as <-.
    vm_compute in Hc; injection Hc as <-.
    repeat constructor; eexists; reflexivity.
Defined.

(** After a successful query, a goal that asks for a review and for no
    display goes on with the evaluation loop. *)
Lemma after_query_review E A stream eff goal_lower r v convs w :
  Py.get r "success" = Ok v -> Py.truthy v = true ->
  Py.get_default r "conversations" (JList []) = Ok (JList convs) ->
  Str.contains_any ["get"; "show"; "list"; "display"] goal_lower = false ->
  Str.contains "review" goal_lower || Str.contains "evaluate" goal_lower
  || Str.contains "check" goal_lower = true ->
  exists w5,
    calls w5 = calls w /\ files w5 = files w /\
    after_query E A stream eff goal_lower r w
    = bind (Planner.evaluate_all E A stream (length convs) 1 convs [] [])
           (fun se => Planner.report_and_decide E A stream eff goal_lower
                        (fst se) (snd se) [LRetrieved (length convs)]) w5.
Proof.
  intros Hs Ht Hc Hshow Hk; unfold after_query.
  rewrite Hs, (bind_ok (lift (Ok v)) _ w v w eq_refl), Ht; cbn [negb].
  rewrite Hc, (bind_ok (lift (Ok _)) _ w _ w eq_refl).
  simpl Py.len.
  rewrite (bind_ok (lift (Ok _)) _ w _ w eq_refl).
  destruct (when_print_ok stream [LBlank; LRetrieved (length convs)] w)
    as (w1 & E1 & C1 & F1).
  rewrite (bind_ok _ _ _ _ _ E1).
  destruct (when_print_ok (Planner.debug A) [LDbgRetrieved (length convs)] w1)
    as (w2 & E2 & C2 & F2).
  rewrite (bind_ok _ _ _ _ _ E2), Hshow.
  rewrite (bind_ok (ret _) _ w2 _ w2 eq_refl), Hk.
  unfold Planner.evaluate_step.
  destruct (when_print_ok (Planner.debug A) [LDbgEvaluating (length convs)] w2)
    as (w3 & E3 & C3 & F3).
  rewrite (bind_ok _ _ _ _ _ E3).
  destruct (when_print_ok stream [LBlank; LEvaluating (length convs)] w3)
    as (w4 & E4 & C4 & F4).
  rewrite (bind_ok _ _ _ _ _ E4); simpl Py.iter.
  rewrite (bind_ok (lift (Ok _)) _ w4 _ w4 eq_refl).
  exists w4; split; [congruence | split; [congruence | reflexivity]].
Qed.

(** Without streaming, the first conversation is sent to the evaluation
    tool as soon as its question and its answer are read. *)
Lemma evaluate_all_first_call E A total i conv rest scores evaluations q a w :
  Py.subscript conv "user_message" = Ok q ->
  Py.subscript conv "bot_response" = Ok a ->
  exists tail,
    calls (snd (Planner.evaluate_all E A false total i (conv :: rest)
                  scores evaluations w))
    = calls w ++ Call evaluate_response (EvalArgs q a) :: tail
    /\ Forall is_evaluate tail.
Proof.
  intros Hq Ha; simpl.
  destruct (when_print_ok (Planner.debug A) [LDbgEvaluatingConv i total] w)
    as (w1 & E1 & C1 & F1).
  rewrite (bind_ok _ _ _ _ _ E1).
  rewrite (bind_ok (ret tt) _ w1 tt w1 eq_refl).
  rewrite Hq, (bind_ok (lift (Ok q)) _ w1 q w1 eq_refl).
  rewrite Ha, (bind_ok (lift (Ok a)) _ w1 a w1 eq_refl).
  rewrite (bind_ok _ _ _ _ _ (MCPTool_call_eq _ _ _ _)).
  match goal with
  | |- context [snd (?m ?w2)] =>
      assert (preserves evaluates_only m) as Hm
  end.
  { repeat first
      [ apply evaluate_all_evaluates
      | preserve_step
      | preserve_case ]; eauto with preserve. }
  match goal with
  | |- context [snd (?m ?w2)] => destruct (Hm w2) as (evs & Hc & Hf)
  end.
  exists evs; split; [|exact Hf].
  rewrite Hc; simpl; rewrite C1, <- app_assoc; reflexivity.
Qed.

(** X23.  Streaming changes more than the output when a conversation has no
    ["id"].  For a goal that asks for a review (and for no display) and a
    query whose first conversation lacks ["id"]: with [stream] set, the run
    stops on the [KeyError] before any evaluation is requested, and the
    query is its only call; without [stream], the evaluation of that
    conversation is requested first. *)
Theorem streaming_reads_the_id_first E A goal override w conv rest q a :
  let query := Call query_conversations
                    (QueryArgs (Planner.limit_of (Str.lower goal))) in
  let r := Planner.tool_result E (calls w) query in
  Planner.is_direct_pr (Str.lower goal) = false ->
  Str.contains_any ["get"; "show"; "list"; "display"] (Str.lower goal) = false ->
  Str.contains "review" (Str.lower goal) || Str.contains "evaluate" (Str.lower goal)
  || Str.contains "check" (Str.lower goal) = true ->
  (exists v, Py.get r "success" = Ok v /\ Py.truthy v = true) ->
  Py.get_default r "conversations" (JList []) = Ok (JList (conv :: rest)) ->
  Py.subscript conv "id" = Raise (KeyError "id") ->
  Py.subscript conv "user_message" = Ok q ->
  Py.subscript conv "bot_response" = Ok a ->
  (fst (Planner.execute_goal E A goal true override w) = [LErrExecuting (KeyError "id")]
   /\ calls (snd (Planner.execute_goal E A goal true override w)) = calls w ++ [query])
  /\
  (exists tail,
      calls (snd (Planner.execute_goal E A goal false override w))
      = calls w ++ query :: Call evaluate_response (EvalArgs q a) :: tail).
Proof.
  intros query r Hd Hshow Hk (v & Hs & Ht) Hc Hid Hq Ha.
  destruct (announce_calls A goal w) as [C0 _].
  split.
  - destruct (run_query_step E A goal true override (Planner.announce A goal w) Hd)
      as (w2 & C2 & _ & Hrun).
    rewrite C0 in C2, Hrun; fold query in C2, Hrun; fold r in Hrun.
    destruct (after_query_review E A true (Planner.effective_custom_prompt A override)
                (Str.lower goal) r v (conv :: rest) w2 Hs Ht Hc Hshow Hk)
      as (w5 & C5 & _ & Haq).
    rewrite Haq in Hrun; clear Haq.
    assert (exists w6,
               Planner.run E A goal true override (Planner.announce A goal w)
               = (Raise (KeyError "id"), w6) /\ calls w6 = calls w5)
      as (w6 & Hrun' & C6).
    { rewrite Hrun; cbn [Planner.evaluate_all].
      destruct (when_print_ok (Planner.debug A)
                  [LDbgEvaluatingConv 1 (length (conv :: rest))] w5)
        as (w6 & E6 & C6 & _).
      exists w6; split; [|exact C6].
      unfold bind at 1 2; rewrite E6; cbn iota beta.
      unfold bind, lift; rewrite Hid; reflexivity. }
    unfold Planner.execute_goal; rewrite Hrun'; simpl; split; [reflexivity|].
    destruct (Planner.debug A); simpl; congruence.
  - destruct (run_query_step E A goal false override (Planner.announce A goal w) Hd)
      as (w2 & C2 & _ & Hrun).
    rewrite C0 in C2, Hrun; fold query in C2, Hrun; fold r in Hrun.
    destruct (after_query_review E A false (Planner.effective_custom_prompt A override)
                (Str.lower goal) r v (conv :: rest) w2 Hs Ht Hc Hshow Hk)
      as (w5 & C5 & _ & Haq).
    rewrite Haq in Hrun; clear Haq.
    rewrite execute_goal_calls, Hrun.
    destruct (evaluate_all_first_call E A (length (conv :: rest)) 1 conv rest [] []
                q a w5 Hq Ha) as (tail & Hcalls & _).
    unfold bind.
    destruct (Planner.evaluate_all E A false (length (conv :: rest)) 1 (conv :: rest)
                [] [] w5) as [[se|e] w6]; cbn [fst snd] in Hcalls |- *.
    + destruct (report_and_decide_submits_once E A false
                  (Planner.effective_custom_prompt A override) (Str.lower goal)
                  (fst se) (snd se) [LRetrieved (length (conv :: rest))] w6)
        as [Hr | (avg & n & Hr)].
      * exists tail; rewrite Hr, Hcalls, C5, C2, <- app_assoc; reflexivity.
      * eexists; rewrite Hr, Hcalls, C5, C2, <- !app_assoc; simpl; reflexivity.
    + exists tail; rewrite Hcalls, C5, C2, <- app_assoc; reflexivity.
Qed.

Lemma streaming_reads_the_id_first_witness :
  let conv := JObj [("user_message", JStr "Hi"); ("bot_response", JStr "Hello")] in
  let E :=
    Env (fun _ c =>
           match call_tool c with
           | query_conversations =>
               Ok (JObj [("success", JBool true); ("count", JInt 1);
                         ("conversations", JList [conv])])
           | _ => Sample.scored 4
           end)
        (fun _ => Raise (RemoteError "Expecting value")) in
  fst (Planner.execute_goal E Sample.agent0 "Review the last chat" true None
         Sample.fresh)
  = [LErrExecuting (KeyError "id")]
  /\
  exists tail,
    calls (snd (Planner.execute_goal E Sample.agent0 "Review the last chat" false
                  None Sample.fresh))
    = Call query_conversations (QueryArgs 5)
        :: Call evaluate_response (EvalArgs (JStr "Hi") (JStr "Hello")) :: tail.
Proof.
  intros conv E.
  destruct (streaming_reads_the_id_first E Sample.agent0 "Review the last chat" None
              Sample.fresh conv [] (JStr "Hi") (JStr "Hello"))
    as [[Htext _] Hcalls]; try reflexivity.
  - exists (JBool true); split; reflexivity.
  - split; [exact Htext | exact Hcalls].
Defined.
